(** * Fleet supervisor (runner.py), conversations (ai.py) and worker
      (discord_bot.py)

    A shallow embedding of [BotMonitor] from [runner.py], of [ChatManager]
    and [gen_image] from [ai.py], and of the configuration, the chunking and
    the commands of the worker from [discord_bot.py], with the properties of
    the specification stated over it.

    Conventions.
    - Python values read from [data.json] are terms of [json].
    - Every function that performs I/O runs in the monad [M]: it threads the
      [world] (the monitor object and the counters that index the
      environment's answers), may raise an exception, and yields the events
      it performed.
    - The environment [Env] answers every call that leaves the program:
      reading the store, spawning a process, signalling and waiting on it.
      Theorems quantify over all environments. *)

From Stdlib Require Import QArith.
From stdpp Require Import gmap strings list fin_maps.
Close Scope Q_scope.

Module Runner.

(** ** Values parsed from the store *)

(** What [json.load] yields.  A float is kept as the exact rational it
    denotes (NaN and the infinities are left out); a dict is the list of its
    items in insertion order, keys distinct. *)
#[warnings="-register-all"] Inductive json : Type :=
| JNull
| JBool (b : bool)
| JInt (n : Z)
| JFloat (q : Q)
| JStr (s : string)
| JList (l : list json)
| JDict (items : list (string * json)).

(** [d.get(key)] on the item list of a dict. *)
Fixpoint dict_lookup (key : string) (items : list (string * json)) : option json :=
  match items with
  | [] => None
  | (k, v) :: rest => if String.eqb k key then Some v else dict_lookup key rest
  end.

(** [d[key] = v]: replaces in place, or appends a new item. *)
Fixpoint dict_set (key : string) (v : json) (items : list (string * json))
  : list (string * json) :=
  match items with
  | [] => [(key, v)]
  | (k, v0) :: rest =>
      if String.eqb k key then (k, v) :: rest else (k, v0) :: dict_set key v rest
  end.

(** Numbers compare by value across [bool], [int] and [float]. *)
Definition as_number (a : json) : option Q :=
  match a with
  | JBool b => Some (inject_Z (if b then 1 else 0))
  | JInt n => Some (inject_Z n)
  | JFloat q => Some q
  | _ => None
  end.

(** Python's [==] on parsed values. *)
Fixpoint py_eq (a b : json) {struct a} : bool :=
  match a with
  | JNull => match b with JNull => true | _ => false end
  | JBool _ | JInt _ | JFloat _ =>
      match as_number a, as_number b with
      | Some x, Some y => Qeq_bool x y
      | _, _ => false
      end
  | JStr s => match b with JStr t => String.eqb s t | _ => false end
  | JList l =>
      match b with
      | JList l' =>
          (fix all2 (l : list json) (l' : list json) {struct l} : bool :=
             match l, l' with
             | [], [] => true
             | x :: l, y :: l' => py_eq x y && all2 l l'
             | _, _ => false
             end) l l'
      | _ => false
      end
  | JDict d =>
      match b with
      | JDict d' =>
          Nat.eqb (length d) (length d') &&
          (fix sub (d : list (string * json)) {struct d} : bool :=
             match d with
             | [] => true
             | (k, v) :: d =>
                 match dict_lookup k d' with
                 | Some v' => py_eq v v'
                 | None => false
                 end && sub d
             end) d
      | _ => false
      end
  end.

(** [needle in hay] on strings. *)
Fixpoint str_contains (needle hay : string) : bool :=
  String.prefix needle hay ||
  match hay with
  | EmptyString => false
  | String _ rest => str_contains needle rest
  end.

(** ** Exceptions, effects and the environment *)

(** The [Exception] subclasses the modelled calls raise. *)
Inductive exn : Type :=
| FileNotFoundError
| PermissionError
| OSError
| JSONDecodeError
| UnicodeDecodeError
| TypeError
| AttributeError
| TimeoutExpired
| RuntimeError.

Inductive result (A : Type) : Type :=
| Ok (a : A)
| Raise (e : exn).
Arguments Ok {A} a.
Arguments Raise {A} e.

(** A [subprocess.Popen] object, identified by its pid. *)
Definition Popen := nat.

(** One constructor per [print] of [runner.py], with the interpolated values. *)
Inductive line : Type :=
| Msg_not_found (file : string)
| Msg_not_a_list (file : string)
| Msg_invalid_json (file : string) (e : exn)
| Msg_error_loading (e : exn)
| Msg_missing_field (index : nat) (field : string)
| Msg_invalid_msg_chance (index : nat)
| Msg_starting (index : nat)
| Msg_out_of_range (index : nat)
| Msg_script_not_found
| Msg_error_starting (index : nat) (e : exn)
| Msg_failed (index : nat) (returncode : Z)
| Msg_stderr (index : nat) (stderr : string)
| Msg_finished (index : nat)
| Msg_error_monitoring (index : nat) (e : exn)
| Msg_config_changed (index : nat)
| Msg_cleaning_up (index : nat)
| Msg_start_monitoring (file : string)
| Msg_press_ctrl_c
| Msg_debug_loaded (count : nat)
| Msg_detected_changes (file : string)
| Msg_interrupt
| Msg_shutting_down (count : nat)
| Msg_terminating (index : nat)
| Msg_force_killing (index : nat)
| Msg_error_terminating (index : nat) (e : exn)
| Msg_all_shut_down
| Msg_no_configurations
| Msg_found (count : nat)
| Msg_bot (index : nat) (model chance : json) (running : bool)
| Msg_debug_starting
| Msg_debug_args (argv : list string)
| Msg_debug_no_arguments
| Msg_usage_header
| Msg_usage_run
| Msg_usage_list
| Msg_usage_help
| Msg_not_a_command (arg : string)
| Msg_use_help
| Msg_too_many_arguments.

(** Effects, in program order.  Events on a worker carry its slot. *)
Inductive event : Type :=
| EPrint (l : line)
| ERead (file : string)
| EPopen (index : nat)
| ETerminate (index : nat) (p : Popen)
| EWait (index : nat) (p : Popen) (timeout : Z)
| EKill (index : nat) (p : Popen)
| ECommunicate (index : nat) (p : Popen)
| EPoll (index : nat) (p : Popen)
| EThread (index : nat) (p : Popen)
| EAcquire
| ERelease
| ESleep (seconds : Q).

(** What one read of the store observes: [os.path.exists], then [open],
    then [json.load]. *)
Inductive store_obs : Type :=
| Missing
| Unreadable (e : exn)
| Malformed
| Parsed (v : json).

(** What one iteration of the monitoring loop observes. *)
Record tick : Type := {
  (** [exists] of the store and, when it exists, what [getmtime] answers:
      the file can go between the two calls *)
  tick_mtime : option (result Q);
  (** [poll() is not None] *)
  tick_exited : Popen -> bool;
  (** the monitoring threads whose worker exits during this iteration *)
  tick_threads : list (nat * Popen);
}.

Record Env : Type := {
  (** the k-th read of the store *)
  env_store : nat -> store_obs;
  (** the k-th [subprocess.Popen] call, made for a slot *)
  env_popen : nat -> nat -> result Popen;
  env_terminate : Popen -> result unit;
  env_wait : Popen -> Z -> result Z;
  env_kill : Popen -> result unit;
  (** [communicate()]: return code and captured stderr *)
  env_communicate : Popen -> result (Z * string);
  (** [exists] of the store when monitoring starts and, when it exists,
      what [getmtime] answers *)
  env_mtime0 : option (result Q);
  (** the iterations of the monitoring loop before the interrupt *)
  env_ticks : list tick;
}.

(** ** The monitor object and the world *)

Record BotMonitor : Type := {
  data_file : string;
  data : list json;
  running_bots : gmap nat Popen;
  monitoring : bool;
}.

Record world : Type := {
  self : BotMonitor;
  reads : nat;
  spawns : nat;
}.

(** A computation: from a world to its result, the world it leaves and the
    events it performed, in order. *)
Definition M (A : Type) : Type := world -> result A * world * list event.

Definition ret {A} (a : A) : M A := fun w => (Ok a, w, []).

Definition bind {A B} (m : M A) (f : A -> M B) : M B := fun w =>
  match m w with
  | (Ok a, w', tr) => let '(r, w'', tr') := f a w' in (r, w'', tr ++ tr')
  | (Raise e, w', tr) => (Raise e, w', tr)
  end.

Declare Scope M_scope.
Delimit Scope M_scope with M.
Bind Scope M_scope with M.
Notation "x ← y ; z" := (bind y (fun x => z))
  (at level 20, y at level 100, z at level 200, only parsing) : M_scope.
Notation "' x ← y ; z" := (bind y (fun x => z))
  (at level 20, x pattern, y at level 100, z at level 200, only parsing) : M_scope.
Notation "y ;; z" := (bind y (fun _ => z))
  (at level 100, z at level 200, only parsing, right associativity) : M_scope.
Local Open Scope M_scope.

Definition raise {A} (e : exn) : M A := fun w => (Raise e, w, []).

(** [try: body  except Exception as e: handler e] *)
Definition try_except {A} (body : M A) (handler : exn -> M A) : M A := fun w =>
  match body w with
  | (Ok a, w', tr) => (Ok a, w', tr)
  | (Raise e, w', tr) => let '(r, w'', tr') := handler e w' in (r, w'', tr ++ tr')
  end.

(** [try: body  finally: cleanup] *)
Definition try_finally {A} (body : M A) (cleanup : M unit) : M A := fun w =>
  let '(r, w', tr) := body w in
  match cleanup w' with
  | (Ok _, w'', tr') => (r, w'', tr ++ tr')
  | (Raise e, w'', tr') => (Raise e, w'', tr ++ tr')
  end.

Definition emit (e : event) : M unit := fun w => (Ok tt, w, [e]).

Definition print (l : line) : M unit := emit (EPrint l).

Definition get_self : M BotMonitor := fun w => (Ok (self w), w, []).

Definition set_self (s : BotMonitor) : M unit := fun w =>
  (Ok tt, {| self := s; reads := reads w; spawns := spawns w |}, []).

Definition set_data (d : list json) : M unit :=
  s ← get_self;
  set_self {| data_file := data_file s; data := d;
              running_bots := running_bots s; monitoring := monitoring s |}.

Definition set_running_bots (r : gmap nat Popen) : M unit :=
  s ← get_self;
  set_self {| data_file := data_file s; data := data s;
              running_bots := r; monitoring := monitoring s |}.

Definition set_monitoring (b : bool) : M unit :=
  s ← get_self;
  set_self {| data_file := data_file s; data := data s;
              running_bots := running_bots s; monitoring := b |}.

(** Lifts an answer of the environment. *)
Definition lift {A} (r : result A) : M A := fun w => (r, w, []).

(** [with self.lock: body] *)
Definition with_lock {A} (body : M A) : M A :=
  emit EAcquire;; try_finally body (emit ERelease).

(** [for x in xs: body x] *)
Fixpoint for_each {A} (xs : list A) (body : A -> M unit) : M unit :=
  match xs with
  | [] => ret tt
  | x :: rest => body x;; for_each rest body
  end.

Section WithEnv.
Context (env : Env).

(** One read of the store: the next answer of the environment. *)
Definition observe_store : M store_obs := fun w =>
  (Ok (env_store env (reads w)),
   {| self := self w; reads := S (reads w); spawns := spawns w |}, []).

(** ** [_load_data] (runner.py 17-37) *)

(** The body of the [try]: [exists], [open], [json.load], the list check.
    [json.load] raises [JSONDecodeError] on a malformed file. *)
Definition load_data_body (file : string) : M (list json) :=
  obs ← observe_store;
  match obs with
  | Missing => print (Msg_not_found file);; ret []
  | Unreadable e => emit (ERead file);; raise e
  | Malformed => emit (ERead file);; raise JSONDecodeError
  | Parsed v =>
      emit (ERead file);;
      match v with
      | JList l => ret l
      | _ => print (Msg_not_a_list file);; ret []
      end
  end.

Definition _load_data : M (list json) :=
  s ← get_self;
  let file := data_file s in
  try_except (load_data_body file)
    (fun e =>
       match e with
       | JSONDecodeError => print (Msg_invalid_json file e);; ret []
       | _ => print (Msg_error_loading e);; ret []
       end).

(** ** [_validate_bot_config] (runner.py 39-51) *)

(** [field in config]; numbers, booleans and [None] are not iterable. *)
Definition py_in (field : string) (config : json) : M bool :=
  match config with
  | JDict d => ret (bool_decide (is_Some (dict_lookup field d)))
  | JList l => ret (existsb (py_eq (JStr field)) l)
  | JStr s => ret (str_contains field s)
  | _ => raise TypeError
  end.

(** [config.get(key, default)]; only a dict has [get]. *)
Definition py_get (config : json) (key : string) (fallback : json) : M json :=
  match config with
  | JDict d => ret (default fallback (dict_lookup key d))
  | _ => raise AttributeError
  end.

(** [isinstance(v, int)]: [bool] is a subclass of [int]. *)
Definition is_int (v : json) : bool :=
  match v with
  | JInt _ | JBool _ => true
  | _ => false
  end.

(** [v < 0] for an [int] or a [bool]. *)
Definition lt_zero (v : json) : bool :=
  match v with
  | JInt n => (n <? 0)%Z
  | _ => false
  end.

Definition required_fields : list string := ["bot_token"; "model"; "personality"].

Fixpoint check_required (fields : list string) (config : json) (index : nat) : M bool :=
  match fields with
  | [] => ret true
  | field :: rest =>
      present ← py_in field config;
      if present then check_required rest config index
      else print (Msg_missing_field index field);; ret false
  end.

(** Returns the verdict and the config as the call leaves it. *)
Definition _validate_bot_config (config : json) (index : nat) : M (bool * json) :=
  complete ← check_required required_fields config index;
  if complete then
    chance ← py_get config "msg_chance" (JInt 5);
    if negb (is_int chance) || lt_zero chance then
      print (Msg_invalid_msg_chance index);;
      match config with
      | JDict d => ret (true, JDict (dict_set "msg_chance" (JInt 5) d))
      | _ => raise TypeError
      end
    else ret (true, config)
  else ret (false, config).

(** ** [_start_bot_process] (runner.py 53-79) *)

Definition popen (index : nat) : M Popen := fun w =>
  (env_popen env (spawns w) index,
   {| self := self w; reads := reads w; spawns := S (spawns w) |},
   [EPopen index]).

Definition _start_bot_process (index : nat) : M (option Popen) :=
  try_except
    (print (Msg_starting index);;
     current_data ← _load_data;
     match current_data !! index with
     | None => print (Msg_out_of_range index);; ret None
     | Some config =>
         '(valid, _) ← _validate_bot_config config index;
         if valid then process ← popen index; ret (Some process)
         else ret None
     end)
    (fun e =>
       match e with
       | FileNotFoundError => print Msg_script_not_found;; ret None
       | _ => print (Msg_error_starting index e);; ret None
       end).

(** ** Process calls *)

Definition terminate (index : nat) (p : Popen) : M unit :=
  emit (ETerminate index p);; lift (env_terminate env p).

Definition wait (index : nat) (p : Popen) (timeout : Z) : M Z :=
  emit (EWait index p timeout);; lift (env_wait env p timeout).

Definition kill (index : nat) (p : Popen) : M unit :=
  emit (EKill index p);; lift (env_kill env p).

Definition communicate (index : nat) (p : Popen) : M (Z * string) :=
  emit (ECommunicate index p);; lift (env_communicate env p).

(** [if index in self.running_bots: del self.running_bots[index]] *)
Definition forget (index : nat) : M unit :=
  s ← get_self;
  match running_bots s !! index with
  | Some _ => set_running_bots (delete index (running_bots s))
  | None => ret tt
  end.

(** ** [_monitor_bot_process] (runner.py 81-101) *)

Definition _monitor_bot_process (index : nat) (process : Popen) : M unit :=
  try_except
    ('(returncode, stderr) ← communicate index process;
     with_lock (forget index);;
     if negb (returncode =? 0)%Z then
       print (Msg_failed index returncode);;
       if negb (String.eqb stderr "") then print (Msg_stderr index stderr)
       else ret tt
     else print (Msg_finished index))
    (fun e =>
       print (Msg_error_monitoring index e);;
       with_lock (forget index)).

(** ** [_start_new_bots] (runner.py 103-137) *)

(** Lines 117-124: the comparison with the recorded config of the slot and
    the stop of the old worker. *)
Definition stop_changed (new_data : list json) (i : nat) : M unit :=
  s ← get_self;
  if bool_decide (i < length (data s)) then
    match data s !! i, new_data !! i with
    | Some old, Some new =>
        if negb (py_eq old new) then
          print (Msg_config_changed i);;
          s ← get_self;
          match running_bots s !! i with
          | Some p =>
              terminate i p;;
              set_running_bots (delete i (running_bots s))
          | None => ret tt
          end
        else ret tt
    | _, _ => ret tt
    end
  else ret tt.

(** The body of [for i in range(len(new_data))].  The start of the
    monitoring thread is an event; it is taken not to fail. *)
Definition start_slot (new_data : list json) (i : nat) : M unit :=
  s ← get_self;
  match running_bots s !! i with
  | Some _ => ret tt
  | None =>
      stop_changed new_data i;;
      started ← _start_bot_process i;
      match started with
      | Some process =>
          s ← get_self;
          set_running_bots (<[i := process]> (running_bots s));;
          emit (EThread i process)
      | None => ret tt
      end
  end.

Definition _start_new_bots : M unit :=
  new_data ← _load_data;
  match new_data with
  | [] => ret tt
  | _ :: _ =>
      with_lock
        (s ← get_self;
         let current_count := size (running_bots s) in
         let new_count := length new_data in
         (if bool_decide (current_count < new_count) then
            for_each (seq 0 (length new_data)) (start_slot new_data)
          else ret tt);;
         set_data new_data)
  end.

(** ** [_cleanup_finished_bots] (runner.py 139-148) *)

Fixpoint poll_all (exited : Popen -> bool) (items : list (nat * Popen)) : M (list nat) :=
  match items with
  | [] => ret []
  | (index, process) :: rest =>
      emit (EPoll index process);;
      finished ← poll_all exited rest;
      ret (if exited process then index :: finished else finished)
  end.

(** The body of the second loop. *)
Definition cleanup_one (index : nat) : M unit :=
  print (Msg_cleaning_up index);;
  s ← get_self;
  set_running_bots (delete index (running_bots s)).

(** The registry is a map by slot: it is walked in the order of
    [map_to_list], where the dict is walked in the order of insertion. *)
Definition _cleanup_finished_bots (exited : Popen -> bool) : M unit :=
  with_lock
    (s ← get_self;
     finished_bots ← poll_all exited (map_to_list (running_bots s));
     for_each finished_bots cleanup_one).

(** ** [_shutdown_all_bots] (runner.py 183-200) *)

Definition shutdown_one (item : nat * Popen) : M unit :=
  let '(index, process) := item in
  try_except
    (print (Msg_terminating index);;
     terminate index process;;
     try_except (wait index process 5;; ret tt)
       (fun e =>
          match e with
          | TimeoutExpired => print (Msg_force_killing index);; kill index process
          | _ => raise e
          end))
    (fun e => print (Msg_error_terminating index e)).

(** The registry is walked in the order of [map_to_list], as in
    [_cleanup_finished_bots]. *)
Definition _shutdown_all_bots : M unit :=
  with_lock
    (s ← get_self;
     print (Msg_shutting_down (size (running_bots s)));;
     for_each (map_to_list (running_bots s)) shutdown_one;;
     set_running_bots ∅);;
  print Msg_all_shut_down.

(** ** [start_monitoring] (runner.py 150-181) *)

Definition Qgt_bool (a b : Q) : bool := negb (Qle_bool a b).

(** One iteration of [while self.monitoring], then the monitoring threads
    whose worker exited meanwhile.  The interrupt comes when the ticks are
    over, while the loop sleeps (or as it is entered): it is caught by
    [except KeyboardInterrupt].  What [getmtime] raises is not caught. *)
Fixpoint monitoring_loop (ticks : list tick) (last_mod_time : Q) : M unit :=
  match ticks with
  | [] => print Msg_interrupt
  | t :: rest =>
      s ← get_self;
      if monitoring s then
        last ←
          match tick_mtime t with
          | Some answer =>
              current_mod_time ← lift answer;
              if Qgt_bool current_mod_time last_mod_time then
                print (Msg_detected_changes (data_file s));;
                emit (ESleep (1 # 2));;
                _start_new_bots;;
                ret current_mod_time
              else ret last_mod_time
          | None => ret last_mod_time
          end;
        _cleanup_finished_bots (tick_exited t);;
        emit (ESleep 1);;
        for_each (tick_threads t) (fun '(i, p) => _monitor_bot_process i p);;
        monitoring_loop rest last
      else ret tt
  end.

(** The first reconciliation and the [getmtime] of line 159 come before the
    [try]: what they raise escapes without the shutdown of [finally]. *)
Definition start_monitoring : M unit :=
  s ← get_self;
  print (Msg_start_monitoring (data_file s));;
  print Msg_press_ctrl_c;;
  print (Msg_debug_loaded (length (data s)));;
  _start_new_bots;;
  last_mod_time ←
    match env_mtime0 env with
    | Some answer => lift answer
    | None => ret 0%Q
    end;
  set_monitoring true;;
  try_finally (monitoring_loop (env_ticks env) last_mod_time) _shutdown_all_bots.

(** ** [list_bots] (runner.py 205-215) *)

Fixpoint list_from (i : nat) (configs : list json) : M unit :=
  match configs with
  | [] => ret tt
  | config :: rest =>
      model ← py_get config "model" (JStr "Unknown");
      chance ← py_get config "msg_chance" (JInt 5);
      s ← get_self;
      print (Msg_bot i model chance (bool_decide (is_Some (running_bots s !! i))));;
      list_from (S i) rest
  end.

Definition list_bots : M unit :=
  s ← get_self;
  match data s with
  | [] => print Msg_no_configurations
  | _ :: _ =>
      print (Msg_found (length (data s)));;
      list_from 0 (data s)
  end.

(** ** [BotMonitor.__init__] and [main] (runner.py 10-15, 217-240) *)

Definition BotMonitor_init (file : string) : M unit :=
  set_self {| data_file := file; data := []; running_bots := ∅; monitoring := false |};;
  loaded ← _load_data;
  set_self {| data_file := file; data := loaded; running_bots := ∅; monitoring := false |}.

Definition main (argv : list string) : M unit :=
  print Msg_debug_starting;;
  BotMonitor_init "data.json";;
  print (Msg_debug_args argv);;
  match argv with
  | [_] => print Msg_debug_no_arguments;; start_monitoring
  | [_; arg] =>
      if String.eqb arg "list" then list_bots
      else if String.eqb arg "help" then
        print Msg_usage_header;; print Msg_usage_run;;
        print Msg_usage_list;; print Msg_usage_help
      else print (Msg_not_a_command arg);; print Msg_use_help
  | _ => print Msg_too_many_arguments;; print Msg_use_help
  end.

End WithEnv.

(** The process before [main] runs: no monitor yet, nothing done. *)
Definition boot : world :=
  {| self := {| data_file := ""; data := []; running_bots := ∅; monitoring := false |};
     reads := 0; spawns := 0 |}.

(** The exit status of the interpreter: 0 when [main] returns, 1 when an
    exception escapes it. *)
Definition exit_code {A} (r : result A) : Z :=
  match r with
  | Ok _ => 0
  | Raise _ => 1
  end.

Definition run_main (env : Env) (argv : list string)
  : result unit * world * list event :=
  main env argv boot.

End Runner.

(** * Reply post-processing (ai.py 129-149, 172-188) *)

Module Ai.

(** A Python [str], as the list of its code points. *)
Definition pystr : Type := list N.

Definition str (s : string) : pystr :=
  map Ascii.N_of_ascii (String.list_ascii_of_string s).

Inductive error : Type :=
| ValueError
| IndexError
| RequestException.

Inductive outcome (A : Type) : Type :=
| Returns (a : A)
| Raises (e : error).
Arguments Returns {A} a.
Arguments Raises {A} e.

(** [s.startswith(prefix)] *)
Fixpoint startswith (prefix s : pystr) : bool :=
  match prefix, s with
  | [], _ => true
  | p :: prefix, c :: s => N.eqb p c && startswith prefix s
  | _ :: _, [] => false
  end.

(** The text before and after the first occurrence of [sep], if any. *)
Fixpoint partition (sep s : pystr) : option (pystr * pystr) :=
  if startswith sep s then Some ([], drop (length sep) s)
  else
    match s with
    | [] => None
    | c :: rest =>
        match partition sep rest with
        | Some (before, after) => Some (c :: before, after)
        | None => None
        end
    end.

(** [sep in s] *)
Definition contains (sep s : pystr) : bool :=
  match partition sep s with
  | Some _ => true
  | None => false
  end.

(** [s.split(sep)[0]] *)
Definition split_first (sep s : pystr) : pystr :=
  match partition sep s with
  | Some (before, _) => before
  | None => s
  end.

(** [s.split(sep, 1)[1]] *)
Definition split_second (sep s : pystr) : outcome pystr :=
  match partition sep s with
  | Some (_, after) => Returns after
  | None => Raises IndexError
  end.

(** The line boundaries of [str.splitlines]. *)
Definition is_linebreak (c : N) : bool :=
  existsb (N.eqb c) [10; 11; 12; 13; 28; 29; 30; 133; 8232; 8233]%N.

(** [str.splitlines]: [cur] is the line being read, [after_cr] tells that
    the previous character was a carriage return, which a line feed
    completes. *)
Fixpoint splitlines_from (cur : pystr) (after_cr : bool) (s : pystr) : list pystr :=
  match s with
  | [] => match cur with [] => [] | _ :: _ => [cur] end
  | c :: rest =>
      if after_cr && N.eqb c 10 then splitlines_from [] false rest
      else if is_linebreak c then cur :: splitlines_from [] (N.eqb c 13) rest
      else splitlines_from (cur ++ [c]) false rest
  end.

Definition splitlines (s : pystr) : list pystr := splitlines_from [] false s.

(** [str.isspace] of one character. *)
Definition is_space (c : N) : bool :=
  ((9 <=? c) && (c <=? 13) || (28 <=? c) && (c <=? 32) ||
   existsb (N.eqb c) [133; 160; 5760; 8232; 8233; 8239; 8287; 12288] ||
   (8192 <=? c) && (c <=? 8202))%N.

Fixpoint lstrip (s : pystr) : pystr :=
  match s with
  | [] => []
  | c :: rest => if is_space c then lstrip rest else s
  end.

(** [s.strip()] *)
Definition strip (s : pystr) : pystr := rev (lstrip (rev (lstrip s))).

(** [sep.join(parts)] *)
Fixpoint join (sep : pystr) (parts : list pystr) : pystr :=
  match parts with
  | [] => []
  | [x] => x
  | x :: rest => x ++ sep ++ join sep rest
  end.

(** [gen_image] (ai.py 172-188).  [http_get] answers the request made for
    the query that enters the URL. *)
Definition gen_image (http_get : pystr -> outcome (list Byte.byte)) (query : pystr)
  : outcome (list Byte.byte) :=
  match query with
  | [] => Raises ValueError
  | _ :: _ => http_get (strip query ++ str "no-logo")
  end.

Record reply : Type := {
  content : pystr;
  image : option (list Byte.byte);
  pfp_requests : list pystr;
}.

Definition is_gen (line : pystr) : bool := startswith (str "Gen:") (strip line).
Definition is_see_pfp (line : pystr) : bool := startswith (str "see_pfp:") (strip line).

(** The loop of lines 136-145, with its [break] on the first image line. *)
Fixpoint scan (http_get : pystr -> outcome (list Byte.byte)) (lines : list pystr)
    (filtered_lines pfp_requests : list pystr)
  : outcome (list pystr * option (list Byte.byte) * list pystr) :=
  match lines with
  | [] => Returns (filtered_lines, None, pfp_requests)
  | line :: rest =>
      if is_gen line then
        match split_second (str "Gen:") line with
        | Returns after =>
            match gen_image http_get (strip after) with
            | Returns image_data => Returns (filtered_lines, Some image_data, pfp_requests)
            | Raises e => Raises e
            end
        | Raises e => Raises e
        end
      else if is_see_pfp line then
        match split_second (str "see_pfp:") line with
        | Returns after =>
            scan http_get rest filtered_lines (pfp_requests ++ [strip after])
        | Raises e => Raises e
        end
      else scan http_get rest (filtered_lines ++ [line]) pfp_requests
  end.

Definition newline : pystr := str (String (Ascii.ascii_of_nat 10) EmptyString).

(** [get_ai_response] from line 129 on: [response] is the text of the
    completion, already stored in the history.  The lines before, and a
    completion without text, are in [Exchange.ChatManager_get_ai_response]. *)
Definition get_ai_response (http_get : pystr -> outcome (list Byte.byte))
    (response : pystr) : outcome reply :=
  let response :=
    if contains (str "---") response then split_first (str "---") response
    else response in
  let lines := splitlines response in
  match scan http_get lines [] [] with
  | Returns (filtered_lines, image_data, pfp_requests) =>
      let response := join newline filtered_lines in
      let response := match response with [] => str "OK" | _ :: _ => response end in
      Returns {| content := response; image := image_data;
                 pfp_requests := pfp_requests |}
  | Raises e => Raises e
  end.

(** The lines the scan looks at. *)
Definition scanned_lines (response : pystr) : list pystr :=
  splitlines (if contains (str "---") response
              then split_first (str "---") response else response).

(** The lines before the first image line. *)
Fixpoint before_gen (lines : list pystr) : list pystr :=
  match lines with
  | [] => []
  | line :: rest => if is_gen line then [] else line :: before_gen rest
  end.

(** The lines that reach the content: those before the first image line that
    are not profile-picture requests. *)
Definition kept_lines (response : pystr) : list pystr :=
  List.filter (fun line => negb (is_see_pfp line)) (before_gen (scanned_lines response)).

Definition or_ok (s : pystr) : pystr :=
  match s with
  | [] => str "OK"
  | _ :: _ => s
  end.

(** The content as the claim words it: every line that starts with a tool
    prefix is stripped, the others are kept. *)
Definition content_as_claimed (response : pystr) : pystr :=
  or_ok (join newline
           (List.filter (fun line => negb (is_gen line || is_see_pfp line))
              (scanned_lines response))).

(** An image service that always answers, with an empty image. *)
Definition http_ok : pystr -> outcome (list Byte.byte) := fun _ => Returns [].

End Ai.

(** * Observations on runs *)

Module Obs.
Import Runner.

Definition result_of {A} (x : result A * world * list event) : result A := x.1.1.
Definition world_of {A} (x : result A * world * list event) : world := x.1.2.
Definition events_of {A} (x : result A * world * list event) : list event := x.2.

(** The registry a run leaves. *)
Definition registry_of {A} (x : result A * world * list event) : gmap nat Popen :=
  running_bots (self (world_of x)).

(** The reconciliation actions of the specification.  [_start_bot_process]
    announces itself before anything else, which marks a Start of the slot;
    a Stop of a slot is the [terminate] sent to its process. *)
Inductive action : Type :=
| Start (slot : nat)
| Stop (slot : nat).

Definition action_of (e : event) : option action :=
  match e with
  | EPrint (Msg_starting i) => Some (Start i)
  | ETerminate i _ => Some (Stop i)
  | _ => None
  end.

Definition actions (tr : list event) : list action := omap action_of tr.

Definition action_slot (a : action) : nat :=
  match a with
  | Start i | Stop i => i
  end.

(** The actions on one slot, in order. *)
Definition slot_actions (i : nat) (tr : list event) : list action :=
  filter (fun a => action_slot a = i) (actions tr).

(** The signals and waits on the process of one slot, in order. *)
Definition on_slot (i : nat) (e : event) : bool :=
  match e with
  | ETerminate j _ | EWait j _ _ | EKill j _ => bool_decide (j = i)
  | _ => false
  end.

Definition signals (i : nat) (tr : list event) : list event := filter (on_slot i) tr.

(** Blocking I/O: a read of the store, a process spawn, a wait for exit. *)
Definition blocking (e : event) : bool :=
  match e with
  | ERead _ | EPopen _ | EWait _ _ _ | ECommunicate _ _ => true
  | _ => false
  end.

(** The blocking events of a trace performed while the registry lock is
    held; [held] tells whether it is held when the trace starts. *)
Fixpoint io_under_lock (held : bool) (tr : list event) : list event :=
  match tr with
  | [] => []
  | EAcquire :: rest => io_under_lock true rest
  | ERelease :: rest => io_under_lock false rest
  | e :: rest =>
      (if held && blocking e then [e] else []) ++ io_under_lock held rest
  end.

(** The events of [_load_data], [_validate_bot_config] and the spawn inside
    [_start_bot_process]: reads, spawns and prints other than the
    announcement of a start. *)
Definition quiet (e : event) : bool :=
  match e with
  | ERead _ | EPopen _ => true
  | EPrint (Msg_starting _) => false
  | EPrint _ => true
  | _ => false
  end.

(** The events of a reconciliation inside its lock. *)
Definition reconciling (e : event) : bool :=
  match e with
  | ERead _ | EPopen _ | EPrint _ | EThread _ _ => true
  | _ => false
  end.

(** The world after one more read of the store. *)
Definition after_read (w : world) : world :=
  {| self := self w; reads := S (reads w); spawns := spawns w |}.

(** What [_load_data] returns in a world. *)
Definition declared (env : Env) (w : world) : list json :=
  match result_of (_load_data env w) with
  | Ok l => l
  | Raise _ => []
  end.

(** The slots of a declared list that have no live handle. *)
Definition missing_slots (r : gmap nat Popen) (n : nat) : list nat :=
  filter (fun j => r !! j = None) (seq 0 n).

(** A print of [_load_data] that reports a failed load. *)
Definition load_error (e : event) : bool :=
  match e with
  | EPrint (Msg_not_found _) | EPrint (Msg_not_a_list _)
  | EPrint (Msg_invalid_json _ _) | EPrint (Msg_error_loading _) => true
  | _ => false
  end.

Definition is_lock (e : event) : bool :=
  match e with
  | EAcquire | ERelease => true
  | _ => false
  end.

(** What shutdown does to the process [p] of slot [i], by the answers of
    the environment: [terminate]; if that returned, [wait] for 5; if that
    timed out, [kill]. *)
Definition shutdown_signals (env : Env) (i : nat) (p : Popen) : list event :=
  ETerminate i p ::
  match env_terminate env p with
  | Ok _ =>
      EWait i p 5 ::
      match env_wait env p 5 with
      | Raise TimeoutExpired => [EKill i p]
      | _ => []
      end
  | Raise _ => []
  end.

(** Neither a lock operation nor blocking I/O. *)
Definition harmless (e : event) : bool := negb (is_lock e) && negb (blocking e).

(** The events of one load of the store: the read and the report of a
    failure. *)
Definition loading (e : event) : bool :=
  match e with
  | ERead _ => true
  | _ => load_error e
  end.

(** A status line of [list_bots] that says Running. *)
Definition says_running (e : event) : bool :=
  match e with
  | EPrint (Msg_bot _ _ _ running) => running
  | _ => false
  end.

Definition is_stop (a : action) : bool :=
  match a with
  | Stop _ => true
  | Start _ => false
  end.

End Obs.

(** * Concrete stores, environments and monitors *)

Module Fixtures.
Import Runner.

Definition bot (model : string) (chance : Z) : json :=
  JDict [("bot_token", JStr "t"); ("model", JStr model);
         ("personality", JStr "p"); ("msg_chance", JInt chance)].

(** An environment whose k-th read of the store parses to [files k]; the
    k-th spawn yields pid [100 + k]; workers ignore [terminate] until the
    grace period is over and exit with code 1 when waited for by their
    monitoring thread. *)
Definition serving (files : nat -> json) : Env :=
  {| env_store := fun k => Parsed (files k);
     env_popen := fun k _ => Ok (100 + k);
     env_terminate := fun _ => Ok tt;
     env_wait := fun _ _ => Raise TimeoutExpired;
     env_kill := fun _ => Ok tt;
     env_communicate := fun _ => Ok (1%Z, "");
     env_mtime0 := Some (Ok 1%Q);
     env_ticks := [] |}.

(** A monitor with a recorded list and a registry, monitoring. *)
Definition monitor (recorded : list json) (live : list (nat * Popen)) : world :=
  {| self := {| data_file := "data.json"; data := recorded;
                running_bots := list_to_map live; monitoring := true |};
     reads := 0; spawns := 0 |}.

(** The store holds three bots for its first four reads (one reconciliation
    that starts all three), then the first two of them. *)
Definition shrinking : Env :=
  serving (fun k => if k <? 4 then JList [bot "A" 5; bot "B" 10; bot "C" 1]
                    else JList [bot "A" 5; bot "B" 10]).

(** The scenario of the specification, second step: the first bot changes. *)
Definition changing : Env := serving (fun _ => JList [bot "A" 20; bot "B" 10]).

Definition emptied : Env := serving (fun _ => JList []).

Definition unchanged : Env := serving (fun _ => JList [bot "A" 5; bot "B" 10]).

(** A store that holds a list, of values that are not records. *)
Definition scalars : Env := serving (fun _ => JList [JInt 1; JStr "x"]).

End Fixtures.

(** * Conversation histories (ai.py 8-81, 151-161) *)

Module Chat.
Import Runner.

(** What [chat.json] is on disk: absent, impossible to open or to parse, or
    holding a JSON value. *)
Inductive file : Type :=
| Absent
| Unusable
| Holds (v : json).

Record disk : Type := {
  chat_json : file;
  (** [open(chat_file, "w")] succeeds *)
  writable : bool;
}.

Definition line_feed : string := String (Ascii.ascii_of_nat 10) EmptyString.

(** The text of [__init__] (ai.py 18-25), before the personality. *)
Definition instructions_text : string :=
  "You are a Discord AI. Follow character at all times. " +:+
  "You will receive messages that will be formatted from users in this format: " +:+
  "<username>(<bot/user>): <message> | Info: <channel> in <guild> (guild)" +:+
  line_feed +:+
  " Do not respond in this format. It's only instructions on how to interpret the format. " +:+
  "Note that the user may not be talking about you, so do not act as if they are unless " +:+
  "you see your name in their response or based off context. You may invoke the image generation tool by saying 'Gen: <prompt>' on a new line. " +:+
  "You can also use the tool 'see_pfp: <username>' to view a user's profile picture if you need to see what they look like or analyze their avatar." +:+
  "The following is your personality, embody it with full percision and never break character: ".

(** A [ChatManager]: the content of its [default_system_prompt]. *)
Record ChatManager : Type := {
  system_content : string;
}.

Definition ChatManager_init (personality : string) : ChatManager :=
  {| system_content := instructions_text +:+ personality |}.

(** [self.default_system_prompt.copy()], with the personality appended to
    its content when there is one (ai.py 46-48, 155-157). *)
Definition system_prompt (self : ChatManager) (personality : string) : json :=
  JDict [("role", JStr "system");
         ("content",
          JStr (if String.eqb personality "" then system_content self
                else system_content self +:+ line_feed +:+ personality))].

(** [data[-500:]] *)
Definition last_500 (data : list json) : list json := drop (length data - 500) data.

(** [_load_all_histories] (ai.py 29-37); [None] when it raises.  [len] is
    not defined on numbers, booleans and [None], and a dict cannot be
    sliced. *)
Definition _load_all_histories (d : disk) : option (list json) :=
  match chat_json d with
  | Absent => Some []
  | Unusable => None
  | Holds data =>
      match data with
      | JList l => Some (if 500 <? length l then last_500 l else l)
      | JStr _ => Some []
      | JDict items => if 500 <? length items then None else Some []
      | _ => None
      end
  end.

(** [_save_all_histories] (ai.py 39-42) *)
Definition _save_all_histories (histories : list json) (d : disk) : option (bool * disk) :=
  if writable d
  then Some (true, {| chat_json := Holds (JList histories); writable := writable d |})
  else None.

(** The [while] of [_ensure_history_exists] (ai.py 45-49). *)
Fixpoint ensure_loop (fuel : nat) (histories : list json) (bot_id : Z) (prompt : json)
  : list json :=
  match fuel with
  | 0 => histories
  | S fuel =>
      if (Z.of_nat (length histories) <=? bot_id)%Z
      then ensure_loop fuel (histories ++ [JList [prompt]]) bot_id prompt
      else histories
  end.

(** The list as the call leaves it; the loop runs at most [bot_id + 1]
    times. *)
Definition _ensure_history_exists (self : ChatManager) (histories : list json)
    (bot_id : Z) (personality : string) : list json :=
  ensure_loop (Z.to_nat (bot_id + 1)) histories bot_id (system_prompt self personality).

(** The position [l[i]] designates in a list of length [len]: from the end
    when [i] is negative; [None] is [IndexError]. *)
Definition py_index (len : nat) (i : Z) : option nat :=
  if (0 <=? i)%Z then
    if (i <? Z.of_nat len)%Z then Some (Z.to_nat i) else None
  else
    if (- Z.of_nat len <=? i)%Z then Some (Z.to_nat (Z.of_nat len + i)) else None.

(** The message of lines 56-73: plain text, or text and images. *)
Definition user_message (message : string) (image_urls : list string) : json :=
  match image_urls with
  | [] => JDict [("role", JStr "user"); ("content", JStr message)]
  | _ :: _ =>
      JDict [("role", JStr "user");
             ("content",
              JList (JDict [("type", JStr "text"); ("text", JStr message)] ::
                     List.map (fun url =>
                                 JDict [("type", JStr "image_url");
                                        ("image_url", JDict [("url", JStr url)])])
                       image_urls))]
  end.

(** [add_to_history] (ai.py 51-76) *)
Definition add_to_history (self : ChatManager) (message : string) (bot_id : Z)
    (image_urls : list string) (d : disk) : option (bool * disk) :=
  match _load_all_histories d with
  | None => None
  | Some histories =>
      let histories := _ensure_history_exists self histories bot_id "" in
      match py_index (length histories) bot_id with
      | None => None
      | Some k =>
          match histories !! k with
          | Some (JList messages) =>
              _save_all_histories
                (<[k := JList (messages ++ [user_message message image_urls])]> histories) d
          | _ => None
          end
      end
  end.

(** [get_chat_history] (ai.py 78-81); lists and dicts have [copy]. *)
Definition get_chat_history (self : ChatManager) (bot_id : Z) (personality : string)
    (d : disk) : option json :=
  match _load_all_histories d with
  | None => None
  | Some histories =>
      let histories := _ensure_history_exists self histories bot_id personality in
      match py_index (length histories) bot_id with
      | None => None
      | Some k =>
          match histories !! k with
          | Some (JList messages) => Some (JList messages)
          | Some (JDict items) => Some (JDict items)
          | _ => None
          end
      end
  end.

(** [clear_history] (ai.py 151-161) *)
Definition clear_history (self : ChatManager) (bot_id : Z) (personality : string)
    (d : disk) : option (bool * disk) :=
  match _load_all_histories d with
  | None => None
  | Some histories =>
      if (bot_id <? Z.of_nat (length histories))%Z then
        match py_index (length histories) bot_id with
        | None => None
        | Some k =>
            _save_all_histories
              (<[k := JList [system_prompt self personality]]> histories) d
        end
      else Some (true, d)
  end.

(** The histories a disk holds, when it holds a list. *)
Definition stored (d : disk) : list json :=
  match chat_json d with
  | Holds (JList l) => l
  | _ => []
  end.

(** A disk that holds one history, and can be written. *)
Definition one_history : disk :=
  {| chat_json := Holds (JList [JList [JDict [("role", JStr "system")]]]);
     writable := true |}.

(** A history that holds one message, numbered. *)
Definition numbered (n : nat) : json :=
  JList [JDict [("role", JStr "user"); ("content", JInt (Z.of_nat n))]].

(** A disk that holds 501 histories, numbered from 0. *)
Definition crowded : disk :=
  {| chat_json := Holds (JList (List.map numbered (seq 0 501))); writable := true |}.

End Chat.

(** * The whole of [get_ai_response] (ai.py 83-149) *)

Module Exchange.
Import Runner Chat.

(** The UTF-8 bytes of a character; surrogates and numbers beyond the last
    code point cannot be encoded. *)
Definition utf8_char (c : N) : option (list N) :=
  (if c <? 128 then Some [c]
   else if c <? 2048 then Some [192 + c / 64; 128 + c mod 64]
   else if (55296 <=? c) && (c <=? 57343) then None
   else if c <? 65536 then
     Some [224 + c / 4096; 128 + (c / 64) mod 64; 128 + c mod 64]
   else if c <? 1114112 then
     Some [240 + c / 262144; 128 + (c / 4096) mod 64; 128 + (c / 64) mod 64;
           128 + c mod 64]
   else None)%N.

Fixpoint utf8_bytes (s : Ai.pystr) : option (list N) :=
  match s with
  | [] => Some []
  | c :: rest =>
      match utf8_char c, utf8_bytes rest with
      | Some bytes, Some more => Some (bytes ++ more)
      | _, _ => None
      end
  end.

(** A Python string as [chat.json] holds it; [None] when the file, opened
    as UTF-8, cannot take it. *)
Definition utf8 (s : Ai.pystr) : option string :=
  match utf8_bytes s with
  | Some bytes => Some (String.string_of_list_ascii (List.map Ascii.ascii_of_N bytes))
  | None => None
  end.

(** What the completion call yields: an exception, a message without
    content, or a text. *)
Inductive completion : Type :=
| Api_fails
| Api_null
| Api_text (response : Ai.pystr).

(** The two messages the call appends to the history. *)
Definition assistant_message (content : json) : json :=
  JDict [("role", JStr "assistant"); ("content", content)].

(** Lines 120-126: the histories are loaded again, the exchange is appended
    and saved.  [None] when this raises; a content that cannot be encoded
    makes the dump raise after the file was opened for writing. *)
Definition store_exchange (self : ChatManager) (bot_id : Z) (personality : string)
    (current_message : json) (response : option Ai.pystr) (d : disk)
  : option unit * disk :=
  match _load_all_histories d with
  | None => (None, d)
  | Some histories =>
      let histories := _ensure_history_exists self histories bot_id personality in
      match py_index (length histories) bot_id with
      | None => (None, d)
      | Some k =>
          match histories !! k with
          | Some (JList messages) =>
              if writable d then
                match response with
                | None =>
                    (Some tt,
                     {| chat_json :=
                          Holds (JList (<[k := JList (messages ++
                                                     [current_message;
                                                      assistant_message JNull])]>
                                          histories));
                        writable := true |})
                | Some text =>
                    match utf8 text with
                    | Some raw =>
                        (Some tt,
                         {| chat_json :=
                              Holds (JList (<[k := JList (messages ++
                                                         [current_message;
                                                          assistant_message (JStr raw)])]>
                                              histories));
                            writable := true |})
                    | None => (None, {| chat_json := Unusable; writable := true |})
                    end
                end
              else (None, d)
          | _ => (None, d)
          end
      end
  end.

(** [ChatManager.get_ai_response]: [complete] answers the completion call
    made for a model, the messages, a temperature and a token budget;
    [http_get] is the image service.  The result is [None] when the call
    raises before the scan of the response (the history cannot be loaded or
    saved, the completion fails, or it has no text, on which line 131
    raises), and otherwise what the post-processing of the text yields. *)
Definition ChatManager_get_ai_response (self : ChatManager)
    (complete : string -> list json -> json -> json -> completion)
    (http_get : Ai.pystr -> Ai.outcome (list Byte.byte))
    (query : string) (bot_id : Z) (model personality : string)
    (max_tokens temperature : json) (image_urls : list string) (d : disk)
  : option (Ai.outcome Ai.reply) * disk :=
  match get_chat_history self bot_id personality d with
  | Some (JList chat_history) =>
      let current_message := user_message query image_urls in
      let messages := chat_history ++ [current_message] in
      match complete model messages temperature max_tokens with
      | Api_fails => (None, d)
      | Api_null =>
          (None, snd (store_exchange self bot_id personality current_message None d))
      | Api_text response =>
          match store_exchange self bot_id personality current_message (Some response) d with
          | (Some _, d') => (Some (Ai.get_ai_response http_get response), d')
          | (None, d') => (None, d')
          end
      end
  | _ => (None, d)
  end.

(** A completion service that always answers with the given text. *)
Definition answering (response : Ai.pystr)
  : string -> list json -> json -> json -> completion :=
  fun _ _ _ _ => Api_text response.

End Exchange.

(** * The worker (discord_bot.py 29-58, 110-118, 205-214, 279-320) *)

Module Worker.
Import Runner.

(** ** [_load_config] *)

(** What the [try] of [_load_config] raises: its own four errors, or what
    a call it makes raises. *)
Inductive config_error : Type :=
| NotFound
| BadJSON
| BadValue
| BadIndex
| Other (e : exn).

(** [except (FileNotFoundError, json.JSONDecodeError, ValueError,
    IndexError)]: a [JSONDecodeError] and a [UnicodeDecodeError] are
    [ValueError]s. *)
Definition caught (e : config_error) : bool :=
  match e with
  | NotFound | BadJSON | BadValue | BadIndex => true
  | Other FileNotFoundError | Other JSONDecodeError | Other UnicodeDecodeError => true
  | Other _ => false
  end.

(** How the construction of the bot ends: with its config, with
    [sys.exit(code)], or with an exception nobody catches. *)
Inductive startup : Type :=
| Loaded (config : json)
| Exits (code : Z)
| Uncaught (e : exn).

(** [field in config] *)
Definition field_in (field : string) (config : json) : config_error + bool :=
  match config with
  | JDict d => inr (bool_decide (is_Some (dict_lookup field d)))
  | JList l => inr (existsb (py_eq (JStr field)) l)
  | JStr s => inr (str_contains field s)
  | _ => inl (Other TypeError)
  end.

Fixpoint require_fields (fields : list string) (config : json) : config_error + unit :=
  match fields with
  | [] => inr tt
  | field :: rest =>
      match field_in field config with
      | inl e => inl e
      | inr true => require_fields rest config
      | inr false => inl BadValue
      end
  end.

(** [d.setdefault(key, v)] on the items of a dict. *)
Definition dict_setdefault (key : string) (v : json) (items : list (string * json))
  : list (string * json) :=
  match dict_lookup key items with
  | Some _ => items
  | None => items ++ [(key, v)]
  end.

(** The float [0.7], as the rational it denotes. *)
Definition float_0_7 : Q := 3152519739159347 # 4503599627370496.

(** Lines 50-52; only a dict has [setdefault]. *)
Definition set_defaults (config : json) : config_error + json :=
  match config with
  | JDict d =>
      inr (JDict (dict_setdefault "temperature" (JFloat float_0_7)
                    (dict_setdefault "max_tokens" (JInt 1000)
                       (dict_setdefault "msg_chance" (JInt 5) d))))
  | _ => inl (Other AttributeError)
  end.

(** The body of the [try] (lines 31-54). *)
Definition load_config_body (obs : store_obs) (bot_id : Z) : config_error + json :=
  match obs with
  | Missing => inl NotFound
  | Unreadable e => inl (Other e)
  | Malformed => inl BadJSON
  | Parsed data =>
      match data with
      | JList l =>
          if (Z.of_nat (length l) <=? bot_id)%Z then inl BadIndex
          else
            match Chat.py_index (length l) bot_id with
            | None => inl BadIndex
            | Some k =>
                match l !! k with
                | None => inl BadIndex
                | Some config =>
                    match require_fields required_fields config with
                    | inl e => inl e
                    | inr _ => set_defaults config
                    end
                end
            end
      | _ => inl BadValue
      end
  end.

Definition _load_config (obs : store_obs) (bot_id : Z) : startup :=
  match load_config_body obs bot_id with
  | inr config => Loaded config
  | inl e =>
      if caught e then Exits 1
      else match e with
           | Other e' => Uncaught e'
           | _ => Exits 1
           end
  end.

(** ** [_should_respond_to_message] *)

Record user : Type := {
  user_id : nat;
  user_name : Ai.pystr;
}.

Record message : Type := {
  mentions : list user;
  content : Ai.pystr;
}.

(** [randint(1, 100) <= chance]; a string, a list, a dict or [None] cannot
    be compared with a number. *)
Definition roll_at_most (roll : Z) (chance : json) : option bool :=
  match chance with
  | JInt n => Some (roll <=? n)%Z
  | JBool b => Some (roll <=? (if b then 1 else 0))%Z
  | JFloat q => Some (Qle_bool (inject_Z roll) q)
  | _ => None
  end.

Section Responding.
(** [str.lower], and the number [random.randint(1, 100)] draws. *)
Context (lower : Ai.pystr -> Ai.pystr) (roll : Z).

(** The bot is mentioned, or its name occurs in the text. *)
Definition addressed (me : user) (m : message) : bool :=
  existsb (fun u => Nat.eqb (user_id u) (user_id me)) (mentions m) ||
  Ai.contains (lower (user_name me)) (lower (content m)).

(** [None] when it raises: the config has no [msg_chance], or one that is
    not a number. *)
Definition _should_respond_to_message (config : json) (me : user) (m : message)
  : option bool :=
  if existsb (fun u => Nat.eqb (user_id u) (user_id me)) (mentions m) then Some true
  else if Ai.contains (lower (user_name me)) (lower (content m)) then Some true
  else
    match config with
    | JDict d =>
        match dict_lookup "msg_chance" d with
        | Some chance => roll_at_most roll chance
        | None => None
        end
    | _ => None
    end.

End Responding.

(** ** [_send_chunked_response] *)

Inductive sent : Type :=
| Reply (text : Ai.pystr)
| Send (text : Ai.pystr).

Definition text_of (m : sent) : Ai.pystr :=
  match m with
  | Reply t | Send t => t
  end.

(** [range(0, stop, step)] for a positive step. *)
Definition range_step (stop step : nat) : list nat :=
  List.map (fun k => k * step) (seq 0 ((stop + step - 1) / step)).

(** The messages sent, in order; [None] when [range] raises on a zero
    step. *)
Definition _send_chunked_response (response : Ai.pystr) (chunk_size : nat)
  : option (list sent) :=
  if length response <=? chunk_size then Some [Reply response]
  else if chunk_size =? 0 then None
  else
    let chunks :=
      List.map (fun i => take chunk_size (drop i response))
        (range_step (length response) chunk_size) in
    Some (imap (fun i chunk => if i =? 0 then Reply chunk else Send chunk) chunks).

(** ** The commands [remove] and [create] *)

Record store : Type := {
  data_json : Chat.file;
  (** [open("data.json", "w")] succeeds *)
  can_write : bool;
}.

Inductive outcome : Type :=
| Finished
| Raised.

Inductive notice : Type :=
| Token_too_short
| Removed_successfully
| Created_successfully.

(** [for bot in data]: the items of a list, the keys of a dict, the
    characters of a string; [None] when the value is not iterable. *)
Definition iterate (data : json) : option (list json) :=
  match data with
  | JList l => Some l
  | JDict items => Some (List.map (fun item => JStr (fst item)) items)
  | JStr s => Some (List.map (fun a => JStr (String a EmptyString))
                      (String.list_ascii_of_string s))
  | _ => None
  end.

(** [bot["bot_token"]]: defined on a dict that has the key. *)
Definition subscript (bot : json) (key : string) : option json :=
  match bot with
  | JDict d => dict_lookup key d
  | _ => None
  end.

(** [token.startsWith(bot_start)]: no value read from JSON has an attribute
    [startsWith] (the method of [str] is [startswith]). *)
Definition startsWith (token : json) (bot_start : Ai.pystr) : option bool := None.

(** [data.remove(bot)]: drops the first item equal to [bot]. *)
Fixpoint list_remove (bot : json) (data : list json) : list json :=
  match data with
  | [] => []
  | x :: rest => if py_eq x bot then rest else x :: list_remove bot rest
  end.

(** The loop of lines 289-292 over the items still to visit. *)
Fixpoint remove_loop (bot_start : Ai.pystr) (items : list json) (data : json)
  : option json :=
  match items with
  | [] => Some data
  | bot :: rest =>
      match subscript bot "bot_token" with
      | None => None
      | Some token =>
          match startsWith token bot_start with
          | None => None
          | Some true =>
              match data with
              | JList l => Some (JList (list_remove bot l))
              | _ => None
              end
          | Some false => remove_loop bot_start rest data
          end
      end
  end.

(** The command [remove] (lines 279-297). *)
Definition remove (bot_start : Ai.pystr) (st : store) : outcome * store * list notice :=
  if length bot_start <? 7 then (Finished, st, [Token_too_short])
  else
    match data_json st with
    | Chat.Holds data =>
        match iterate data with
        | Some items =>
            match remove_loop bot_start items data with
            | Some data' =>
                if can_write st
                then (Finished, {| data_json := Chat.Holds data'; can_write := true |},
                      [Removed_successfully])
                else (Raised, st, [])
            | None => (Raised, st, [])
            end
        | None => (Raised, st, [])
        end
    | _ => (Raised, st, [])
    end.

(** The config the command [create] builds (lines 304-309). *)
Definition data_conf (bot_token model personality : string) : json :=
  JDict [("bot_token", JStr bot_token); ("model", JStr model);
         ("msg_chance", JInt 0); ("personality", JStr personality)].

(** The command [create] (lines 299-320); [deleted] tells whether the
    message of the command could be deleted. *)
Definition create (deleted : bool) (bot_token model personality : string) (st : store)
  : outcome * store * list notice :=
  if negb deleted then (Raised, st, [])
  else
    match data_json st with
    | Chat.Holds (JList l) =>
        if can_write st
        then (Finished,
              {| data_json := Chat.Holds (JList (l ++ [data_conf bot_token model personality]));
                 can_write := true |},
              [Created_successfully])
        else (Raised, st, [])
    | _ => (Raised, st, [])
    end.

(** A store that holds one bot, and can be written. *)
Definition one_bot : store :=
  {| data_json := Chat.Holds (JList [data_conf "token-one" "openai" "calm"]);
     can_write := true |}.

End Worker.

(** * Observations on the worker *)

Module WorkerViews.
Import Runner Worker.

(** The value [_load_config] gives a key the stored record lacks. *)
Definition default_for (key : string) : option json :=
  if String.eqb key "msg_chance" then Some (JInt 5)
  else if String.eqb key "max_tokens" then Some (JInt 1000)
  else if String.eqb key "temperature" then Some (JFloat float_0_7)
  else None.

Definition is_loaded (s : startup) : bool :=
  match s with
  | Loaded _ => true
  | _ => false
  end.

Definition outcome_of (x : outcome * store * list notice) : outcome := x.1.1.
Definition store_after (x : outcome * store * list notice) : store := x.1.2.

(** A bot named Ada, and a message that does not address it. *)
Definition ada : user := {| user_id := 7; user_name := Ai.str "ada" |}.
Definition small_talk : message := {| mentions := []; content := Ai.str "nice weather" |}.

End WorkerViews.

(** * Further observations on the supervisor *)

Module Views.
Import Runner Obs.

(** [field in config] for each of the required fields of a record. *)
Definition has_required (d : list (string * json)) : bool :=
  forallb (fun field => bool_decide (is_Some (dict_lookup field d))) required_fields.

(** [config.get("msg_chance", 5)] is an [int] that is not negative. *)
Definition chance_ok (d : list (string * json)) : bool :=
  let chance := default (JInt 5) (dict_lookup "msg_chance" d) in
  is_int chance && negb (lt_zero chance).

Definition is_record (c : json) : bool :=
  match c with
  | JDict _ => true
  | _ => false
  end.

(** The verdict of a validation is [True]. *)
Definition accepted (r : result (bool * json)) : bool :=
  match r with
  | Ok (true, _) => true
  | _ => false
  end.

(** Events that create, signal or wait for a process or a thread. *)
Definition touches_process (e : event) : bool :=
  match e with
  | EPopen _ | ETerminate _ _ | EWait _ _ _ | EKill _ _
  | ECommunicate _ _ | EPoll _ _ | EThread _ _ => true
  | _ => false
  end.

Definition is_read (e : event) : bool :=
  match e with
  | ERead _ => true
  | _ => false
  end.

(** [config.get(key, fallback)] of a record. *)
Definition field_or (config : json) (key : string) (fallback : json) : json :=
  match config with
  | JDict d => default fallback (dict_lookup key d)
  | _ => fallback
  end.

(** The status line of [list_bots] for slot [i] holding the record
    [config]. *)
Definition status_line (r : gmap nat Popen) (i : nat) (config : json) : event :=
  EPrint (Msg_bot i (field_or config "model" (JStr "Unknown"))
            (field_or config "msg_chance" (JInt 5))
            (bool_decide (is_Some (r !! i)))).

(** The modification time seen at a tick is greater than the last one. *)
Definition newer (t : tick) (last_mod_time : Q) : bool :=
  match tick_mtime t with
  | Some (Ok current_mod_time) => Qgt_bool current_mod_time last_mod_time
  | _ => false
  end.


(** The first exception a [getmtime] of the loop raises, if any. *)
Fixpoint loop_failure (ticks : list tick) : option exn :=
  match ticks with
  | [] => None
  | t :: rest =>
      match tick_mtime t with
      | Some (Raise e) => Some e
      | _ => loop_failure rest
      end
  end.

(** The three lines [start_monitoring] prints first. *)
Definition announcement (s : BotMonitor) : list event :=
  [EPrint (Msg_start_monitoring (data_file s)); EPrint Msg_press_ctrl_c;
   EPrint (Msg_debug_loaded (length (data s)))].

(** Two bots are declared; when monitoring starts the store is there for
    [exists] and gone for [getmtime]. *)
Definition vanishing : Env :=
  {| env_store := env_store Fixtures.unchanged;
     env_popen := env_popen Fixtures.unchanged;
     env_terminate := env_terminate Fixtures.unchanged;
     env_wait := env_wait Fixtures.unchanged;
     env_kill := env_kill Fixtures.unchanged;
     env_communicate := env_communicate Fixtures.unchanged;
     env_mtime0 := Some (Raise FileNotFoundError);
     env_ticks := [] |}.

End Views.

(** * Further observations on replies *)

Module ReplyViews.
Import Ai.

(** The user name a profile-picture line asks for. *)
Definition requested (line : pystr) : pystr :=
  match split_second (str "see_pfp:") line with
  | Returns after => strip after
  | Raises _ => []
  end.

(** The prompt an image line carries. *)
Definition image_prompt (line : pystr) : pystr :=
  match split_second (str "Gen:") line with
  | Returns after => strip after
  | Raises _ => []
  end.

Definition has_image (r : reply) : bool :=
  match image r with
  | Some _ => true
  | None => false
  end.

(** An image service that fails. *)
Definition http_down : pystr -> outcome (list Byte.byte) :=
  fun _ => Raises RequestException.

End ReplyViews.

(** * Properties of the supervisor *)

Import Runner Obs.
Local Open Scope M_scope.

Section Supervisor.
Context (env : Env).

Lemma quiet_no_actions tr : Forall (fun e => quiet e = true) tr -> actions tr = [].
Proof.
  induction 1 as [|e tr He _ IH]; [done|].
  unfold actions in *. cbn. rewrite IH.
  destruct e as [[]| | | | | | | | | | |]; done.
Qed.

Lemma load_data_run w :
  exists l tr,
    _load_data env w = (Ok l, after_read w, tr) /\
    Forall (fun e => quiet e = true) tr /\
    match env_store env (reads w) with
    | Parsed (JList l0) => l = l0 /\ tr = [ERead (data_file (self w))]
    | _ => l = [] /\ exists e, load_error e = true /\
                     (tr = [e] \/ tr = [ERead (data_file (self w)); e])
    end.
Proof.
  unfold _load_data, load_data_body, try_except, bind, get_self, observe_store,
    print, emit, raise, ret, after_read.
  destruct (env_store env (reads w)) as [|e| |v] eqn:Hobs; cbn.
  - eexists _, _. split; [done|]. split; [repeat constructor|].
    split; [done|]. eexists. split; [|left; done]. done.
  - destruct e; eexists _, _; (split; [done|]); (split; [repeat constructor|]);
      (split; [done|]); eexists; (split; [|right; done]); done.
  - eexists _, _. split; [done|]. split; [repeat constructor|].
    split; [done|]. eexists. split; [|right; done]. done.
  - destruct v; eexists _, _; (split; [done|]); (split; [repeat constructor|]);
      try (split; [done|]; eexists; (split; [|right; done]); done).
Qed.

Lemma check_required_run fields config index w :
  exists r tr,
    check_required fields config index w = (r, w, tr) /\
    Forall (fun e => quiet e = true) tr.
Proof.
  induction fields as [|field rest IH]; cbn.
  - eexists _, _. split; [done|]. constructor.
  - unfold bind.
    assert (exists r, py_in field config w = (r, w, [])) as [r ->].
    { destruct config; cbn; eauto. }
    destruct r as [[]|e].
    + destruct IH as (r & tr & -> & Htr). eexists _, _. split; [done|]. done.
    + cbn. eexists _, _. split; [done|]. repeat constructor.
    + eexists _, _. split; [done|]. constructor.
Qed.

Lemma validate_run config index w :
  exists r tr,
    _validate_bot_config config index w = (r, w, tr) /\
    Forall (fun e => quiet e = true) tr.
Proof.
  unfold _validate_bot_config, bind.
  destruct (check_required_run required_fields config index w)
    as (r & tr & -> & Htr).
  destruct r as [[]|e].
  - assert (exists r, py_get config "msg_chance" (JInt 5) w = (r, w, [])) as [r ->].
    { destruct config; cbn; eauto. }
    destruct r as [chance|e].
    + destruct (negb (is_int chance) || lt_zero chance).
      * destruct config; cbn; eexists _, _; (split; [done|]);
          (apply Forall_app; split; [done|]); repeat constructor.
      * cbn. eexists _, _. split; [done|]. by rewrite app_nil_r.
    + eexists _, _. split; [done|]. by rewrite app_nil_r.
  - cbn. eexists _, _. split; [done|]. by rewrite app_nil_r.
  - eexists _, _. split; [done|]. done.
Qed.

(** [_start_bot_process] never raises, leaves the monitor as it is, announces
    the start first and then only reads, validates and spawns. *)
Lemma start_bot_process_run i w :
  exists o w' tr,
    _start_bot_process env i w = (Ok o, w', tr ) /\
    self w' = self w /\
    exists tr', tr = EPrint (Msg_starting i) :: tr' /\
                Forall (fun e => quiet e = true) tr'.
Proof.
  unfold _start_bot_process, try_except.
  unfold bind at 1. unfold print at 1, emit at 1.
  unfold bind at 1.
  destruct (load_data_run w) as (l & trl & -> & Hq & _).
  destruct (l !! i) as [config|] eqn:Hi.
  - unfold bind at 1.
    destruct (validate_run config i (after_read w)) as (r & trv & -> & Hv).
    destruct r as [[[] c]|e].
    + unfold bind, popen. cbn.
      destruct (env_popen env (spawns w) i) as [p|e]; cbn.
      * eexists _, _, _. split; [done|]. split; [done|].
        eexists. split; [done|].
        repeat (apply Forall_app; split); try done. repeat constructor.
      * destruct e; cbn; eexists _, _, _; (split; [done|]); (split; [done|]);
          eexists; (split; [done|]);
          repeat (apply Forall_app; split); try done; repeat constructor.
    + cbn. eexists _, _, _. split; [done|]. split; [done|].
      eexists. split; [done|].
      repeat (apply Forall_app; split); try done.
    + destruct e; cbn; eexists _, _, _; (split; [done|]); (split; [done|]);
        eexists; (split; [done|]);
        repeat (apply Forall_app; split); try done; repeat constructor.
  - cbn. eexists _, _, _. split; [done|]. split; [done|].
    eexists. split; [done|].
    repeat (apply Forall_app; split); try done; repeat constructor.
Qed.

Lemma quiet_reconciling tr :
  Forall (fun e => quiet e = true) tr -> Forall (fun e => reconciling e = true) tr.
Proof.
  intros H. eapply Forall_impl; [exact H|].
  intros [[]| | | | | | | | | | |]; done.
Qed.

(** On a slot without a live handle the stop of lines 122-124 is never
    reached: the block prints at most the change notice. *)
Lemma stop_changed_run nd i w :
  running_bots (self w) !! i = None ->
  exists tr,
    stop_changed env nd i w = (Ok tt, w, tr) /\
    (tr = [] \/ tr = [EPrint (Msg_config_changed i)]).
Proof.
  intros Hi. unfold stop_changed, bind, get_self. cbn.
  destruct (bool_decide (i < length (data (self w)))); [|eauto].
  destruct (data (self w) !! i) as [old|]; [|eauto].
  destruct (nd !! i) as [new|]; [|eauto].
  destruct (negb (py_eq old new)); [|eauto].
  cbn. rewrite Hi. cbn. eauto.
Qed.

Lemma start_slot_live nd i p w :
  running_bots (self w) !! i = Some p ->
  start_slot env nd i w = (Ok tt, w, []).
Proof.
  intros Hi. unfold start_slot, bind, get_self. cbn. by rewrite Hi.
Qed.

Lemma start_slot_missing nd i w :
  running_bots (self w) !! i = None ->
  exists w' tr,
    start_slot env nd i w = (Ok tt, w', tr) /\
    actions tr = [Start i] /\
    Forall (fun e => reconciling e = true) tr /\
    data (self w') = data (self w) /\
    data_file (self w') = data_file (self w) /\
    monitoring (self w') = monitoring (self w) /\
    (running_bots (self w') = running_bots (self w) \/
     exists p, running_bots (self w') = <[i := p]> (running_bots (self w))).
Proof.
  intros Hi. unfold start_slot. unfold bind at 1. unfold get_self at 1.
  cbn iota beta. rewrite Hi. unfold bind at 1.
  destruct (stop_changed_run nd i w Hi) as (trc & -> & Hc).
  unfold bind at 1.
  destruct (start_bot_process_run i w) as (o & w1 & trs & -> & Hself & trs' & -> & Hq).
  assert (actions (trc ++ EPrint (Msg_starting i) :: trs') = [Start i]) as Hact.
  { unfold actions. rewrite omap_app. cbn.
    fold (actions trs'). rewrite (quiet_no_actions _ Hq).
    destruct Hc as [-> | ->]; done. }
  assert (Forall (fun e => reconciling e = true)
            (trc ++ EPrint (Msg_starting i) :: trs')) as Hrec.
  { apply Forall_app. split.
    - destruct Hc as [-> | ->]; repeat constructor.
    - constructor; [done|]. by apply quiet_reconciling. }
  destruct o as [p|]; cbn.
  - eexists _, _. split; [done|]. cbn.
    split; [|split; [|rewrite Hself; repeat split; eauto]].
    + replace (trc ++ EPrint (Msg_starting i) :: trs' ++ [EThread i p])
        with ((trc ++ EPrint (Msg_starting i) :: trs') ++ [EThread i p])
        by (by rewrite <- app_assoc).
      unfold actions in *. rewrite omap_app, Hact. done.
    + replace (trc ++ EPrint (Msg_starting i) :: trs' ++ [EThread i p])
        with ((trc ++ EPrint (Msg_starting i) :: trs') ++ [EThread i p])
        by (by rewrite <- app_assoc).
      apply Forall_app. split; [done|]. repeat constructor.
  - eexists _, _. split; [done|]. rewrite ?app_nil_r.
    rewrite Hself. repeat split; eauto.
Qed.

Lemma filter_missing_ext (r1 r2 : gmap nat Popen) (l : list nat) :
  (forall j, j ∈ l -> r1 !! j = r2 !! j) ->
  filter (fun j => r1 !! j = None) l = filter (fun j => r2 !! j = None) l.
Proof.
  induction l as [|x l IH]; intros H; [done|].
  rewrite !filter_cons, (H x) by left.
  rewrite IH; [done|]. intros j Hj. apply H. by right.
Qed.

(** The loop of [_start_new_bots]: one Start per slot of the range that has
    no live handle, in order; no entry of the registry is removed or
    replaced. *)
Lemma start_slots_run nd l w :
  NoDup l ->
  exists w' tr,
    for_each l (start_slot env nd) w = (Ok tt, w', tr) /\
    actions tr = Start <$> filter (fun j => running_bots (self w) !! j = None) l /\
    Forall (fun e => reconciling e = true) tr /\
    data (self w') = data (self w) /\
    data_file (self w') = data_file (self w) /\
    monitoring (self w') = monitoring (self w) /\
    (forall j p, running_bots (self w) !! j = Some p ->
                 running_bots (self w') !! j = Some p) /\
    (forall j, j ∉ l -> running_bots (self w') !! j = running_bots (self w) !! j).
Proof.
  intros Hnd. revert w. induction Hnd as [|x l Hx Hnd IH]; intros w.
  - cbn. eexists _, _. split; [done|]. repeat split; eauto.
  - cbn [for_each]. unfold bind.
    destruct (running_bots (self w) !! x) as [p|] eqn:Hlive.
    + rewrite (start_slot_live nd x p w Hlive).
      destruct (IH w) as (w' & tr & -> & Hact & Hrec & Hd & Hf & Hm & Hkeep & Hout).
      eexists _, _. split; [done|]. cbn [app].
      rewrite filter_cons_False by (rewrite Hlive; done).
      repeat split; eauto.
      intros j Hj. apply Hout. intros Hin. apply Hj. by right.
    + destruct (start_slot_missing nd x w Hlive)
        as (w1 & tr1 & -> & Hact1 & Hrec1 & Hd1 & Hf1 & Hm1 & Hr1).
      destruct (IH w1) as (w' & tr & -> & Hact & Hrec & Hd & Hf & Hm & Hkeep & Hout).
      assert (forall j, j ≠ x ->
                running_bots (self w1) !! j = running_bots (self w) !! j) as Hoth.
      { intros j Hj. destruct Hr1 as [-> | [p ->]]; [done|].
        by rewrite lookup_insert_ne. }
      eexists _, _. split; [done|].
      rewrite filter_cons_True by done.
      split.
      { unfold actions in *. rewrite omap_app, Hact1, Hact. cbn. f_equal. f_equal.
        apply filter_missing_ext. intros j Hj. apply Hoth. intros ->. done. }
      split; [by apply Forall_app|].
      split; [congruence|]. split; [congruence|]. split; [congruence|].
      split.
      * intros j p Hj. apply Hkeep. rewrite Hoth; [done|]. intros ->. congruence.
      * intros j Hj. rewrite Hout by (intros Hin; apply Hj; by right).
        apply Hoth. intros ->. apply Hj. by left.
Qed.

(** [_start_new_bots], unfolded: the read outside the lock, then, for a
    non-empty list, the gated loop and the update of [self.data] inside it. *)
Lemma start_new_bots_run w :
  exists w' trl body,
    _load_data env w = (Ok (declared env w), after_read w, trl) /\
    Forall (fun e => quiet e = true) trl /\
    Forall (fun e => reconciling e = true) body /\
    match declared env w with
    | [] => _start_new_bots env w = (Ok tt, after_read w, trl)
    | _ :: _ =>
        _start_new_bots env w = (Ok tt, w', trl ++ EAcquire :: body ++ [ERelease]) /\
        actions body =
          (if bool_decide (size (running_bots (self w)) < length (declared env w))
           then Start <$> missing_slots (running_bots (self w)) (length (declared env w))
           else []) /\
        data (self w') = declared env w /\
        data_file (self w') = data_file (self w) /\
        monitoring (self w') = monitoring (self w) /\
        (forall j p, running_bots (self w) !! j = Some p ->
                     running_bots (self w') !! j = Some p) /\
        (forall j, length (declared env w) <= j ->
                   running_bots (self w') !! j = running_bots (self w) !! j)
    end.
Proof.
  unfold declared, result_of.
  destruct (load_data_run w) as (nd & trl & Hload & Hq & _).
  rewrite Hload. cbn [fst].
  destruct nd as [|c nd'].
  { exists w, trl, []. unfold _start_new_bots, bind. rewrite Hload.
    cbn. rewrite app_nil_r. by repeat split. }
  unfold _start_new_bots. unfold bind at 1. rewrite Hload.
  set (nd := c :: nd') in *.
  unfold with_lock, try_finally, bind, emit, get_self, set_data, set_self, ret.
  cbn [self after_read].
  destruct (bool_decide (size (running_bots (self w)) < length nd)) eqn:Hgate.
  - destruct (start_slots_run nd (seq 0 (length nd)) (after_read w) (NoDup_seq _ _))
      as (w' & tr & -> & Hact & Hrec & Hd & Hf & Hm & Hkeep & Hout).
    change (self (after_read w)) with (self w) in *.
    eexists _, _, tr. split; [done|]. split; [done|]. split; [done|].
    cbn. rewrite !app_nil_r. split; [done|].
    split; [done|]. repeat split; try done.
    intros j Hj. apply Hout. rewrite elem_of_seq. subst nd. cbn in *. lia.
  - eexists _, _, []. split; [done|]. split; [done|]. split; [constructor|].
    cbn. by repeat split.
Qed.

(** The actions of one reconciliation: nothing unless the declared list is
    longer than the registry, and then one Start per declared slot without a
    live handle, in slot order. *)
Lemma start_new_bots_actions w :
  actions (events_of (_start_new_bots env w)) =
  if bool_decide (size (running_bots (self w)) < length (declared env w))
  then Start <$> missing_slots (running_bots (self w)) (length (declared env w))
  else [].
Proof.
  destruct (start_new_bots_run w) as (w' & trl & body & _ & Hq & _ & H).
  destruct (declared env w) as [|c nd].
  - rewrite H. cbn [events_of snd length].
    rewrite bool_decide_eq_false_2 by lia. by apply quiet_no_actions.
  - destruct H as (-> & Hact & _). cbn [events_of snd].
    unfold actions in *. rewrite omap_app. fold (actions trl).
    rewrite (quiet_no_actions _ Hq). cbn [app omap list_omap action_of].
    rewrite omap_app, Hact. cbn. by rewrite app_nil_r.
Qed.

(** No reconciliation removes or replaces an entry of the registry. *)
Lemma start_new_bots_keeps w :
  running_bots (self w) ⊆ registry_of (_start_new_bots env w).
Proof.
  destruct (start_new_bots_run w) as (w' & trl & body & _ & _ & _ & H).
  apply map_subseteq_spec. intros j p Hj. unfold registry_of, world_of.
  destruct (declared env w) as [|c nd].
  - rewrite H. done.
  - destruct H as (-> & _ & _ & _ & _ & Hkeep & _). by apply Hkeep.
Qed.

Lemma filter_slot_start (i : nat) (l : list nat) :
  filter (fun a => action_slot a = i) (Start <$> l) =
  Start <$> filter (fun j => j = i) l.
Proof.
  induction l as [|x l IH]; [done|].
  cbn [fmap list_fmap]. rewrite !filter_cons. cbn [action_slot].
  destruct (decide (x = i)); cbn; by rewrite IH.
Qed.

Lemma filter_eq_absent (i : nat) (l : list nat) :
  i ∉ l -> filter (fun j => j = i) l = [].
Proof.
  intros Hi. destruct (filter (fun j => j = i) l) as [|y l'] eqn:Hf; [done|].
  assert (y ∈ filter (fun j => j = i) l) as Hy by (rewrite Hf; left).
  apply list_elem_of_filter in Hy as [-> Hy]. done.
Qed.

Lemma filter_eq_NoDup (i : nat) (l : list nat) :
  NoDup l -> i ∈ l -> filter (fun j => j = i) l = [i].
Proof.
  induction 1 as [|x l Hx Hnd IH]; intros Hi; [by apply elem_of_nil in Hi|].
  rewrite filter_cons. destruct (decide (x = i)) as [->|Hne].
  - f_equal. by apply filter_eq_absent.
  - apply IH. apply elem_of_cons in Hi as [->|Hi]; done.
Qed.

Lemma all_live_no_missing (r : gmap nat Popen) (n : nat) :
  (forall i, i < n -> is_Some (r !! i)) -> missing_slots r n = [].
Proof.
  unfold missing_slots. induction n as [|n IH]; intros Hlive; [done|].
  rewrite seq_S, filter_app, IH by (intros; apply Hlive; lia).
  cbn [app Nat.add]. rewrite filter_cons_False; [done|].
  destruct (Hlive n) as [p Hp]; [lia|]. congruence.
Qed.

(** A slot with a live handle gets no action, whatever its config. *)
Lemma live_slot_no_action w i p :
  running_bots (self w) !! i = Some p ->
  slot_actions i (events_of (_start_new_bots env w)) = [].
Proof.
  intros Hi. unfold slot_actions. rewrite start_new_bots_actions.
  case_bool_decide; [|done].
  rewrite filter_slot_start, filter_eq_absent; [done|].
  unfold missing_slots. rewrite list_elem_of_filter. intros [Hn _]. congruence.
Qed.

End Supervisor.

Section Shutdown.
Context (env : Env).

Lemma shutdown_one_run i p w :
  exists tr,
    shutdown_one env (i, p) w = (Ok tt, w, tr) /\
    Forall (fun e => is_lock e = false) tr /\
    signals i tr = shutdown_signals env i p /\
    (forall k, k ≠ i -> signals k tr = []).
Proof.
  assert (forall k, k ≠ i -> bool_decide (i = k) = false) as Hne.
  { intros k Hk. by apply bool_decide_eq_false_2. }
  assert (bool_decide (i = i) = true) as Hii by (by apply bool_decide_eq_true_2).
  unfold shutdown_one, shutdown_signals, try_except, terminate, wait, kill,
    bind, print, emit, lift, raise, ret, signals.
  destruct (env_terminate env p) as [[]|e1]; cbn;
    [destruct (env_wait env p 5) as [c|e2]; cbn;
       [|destruct e2; cbn; try (destruct (env_kill env p) as [[]|e3]; cbn)]|];
    (eexists; split; [reflexivity|]; split; [repeat constructor|]; split;
     [ cbn; rewrite ?Hii; cbn; reflexivity
     | intros k Hk; cbn; rewrite ?(Hne k Hk); cbn; reflexivity ]).
Qed.

Lemma shutdown_loop_run (items : list (nat * Popen)) w :
  exists tr,
    for_each items (shutdown_one env) w = (Ok tt, w, tr) /\
    Forall (fun e => is_lock e = false) tr /\
    (forall i, i ∉ items.*1 -> signals i tr = []) /\
    (forall i p, NoDup items.*1 -> (i, p) ∈ items ->
                 signals i tr = shutdown_signals env i p).
Proof.
  induction items as [|[j q] items IH].
  - eexists. split; [done|]. repeat split; try done.
    intros i p _ Hin. by apply elem_of_nil in Hin.
  - cbn [for_each]. unfold bind.
    destruct (shutdown_one_run j q w) as (tr1 & -> & Hl1 & Hs1 & Ho1).
    destruct IH as (tr2 & -> & Hl2 & Ho2 & Hs2).
    eexists. split; [done|]. split; [by apply Forall_app|].
    split.
    + intros i Hi. cbn in Hi. apply not_elem_of_cons in Hi as [Hne Hi].
      unfold signals in *. rewrite filter_app, Ho1, Ho2; done.
    + intros i p Hnd Hin. cbn in Hnd. apply NoDup_cons in Hnd as [Hj Hnd].
      unfold signals in *. rewrite filter_app.
      apply elem_of_cons in Hin as [Heq|Hin].
      * injection Heq as -> ->. rewrite Hs1, Ho2, app_nil_r; done.
      * assert (i ≠ j) as Hne.
        { intros ->. apply Hj. apply list_elem_of_fmap. by exists (j, p). }
        rewrite (Ho1 i Hne), (Hs2 i p Hnd Hin). done.
Qed.

(** [_shutdown_all_bots], unfolded. *)
Lemma shutdown_all_bots_run w :
  exists body,
    _shutdown_all_bots env w =
      (Ok tt,
       {| self := {| data_file := data_file (self w); data := data (self w);
                     running_bots := ∅; monitoring := monitoring (self w) |};
          reads := reads w; spawns := spawns w |},
       EAcquire :: EPrint (Msg_shutting_down (size (running_bots (self w)))) ::
       body ++ [ERelease; EPrint Msg_all_shut_down]) /\
    Forall (fun e => is_lock e = false) body /\
    (forall i p, running_bots (self w) !! i = Some p ->
                 signals i body = shutdown_signals env i p).
Proof.
  destruct (shutdown_loop_run (map_to_list (running_bots (self w))) w)
    as (tr & Hrun & Hl & _ & Hs).
  exists tr. split; [|split; [done|]].
  - unfold _shutdown_all_bots, with_lock, try_finally, bind, emit, print,
      get_self, set_running_bots, set_self, ret. cbn.
    unfold emit. rewrite Hrun. cbn. rewrite <- !app_assoc. done.
  - intros i p Hi. apply Hs; [apply NoDup_fst_map_to_list|].
    by apply elem_of_map_to_list.
Qed.

End Shutdown.

Section Locking.
Context (env : Env).

Lemma io_under_lock_free held a b :
  Forall (fun e => is_lock e = false) a ->
  io_under_lock held (a ++ b) =
  (if held then filter (fun e => blocking e) a else []) ++ io_under_lock held b.
Proof.
  induction 1 as [|e a He _ IH]; [by destruct held|].
  destruct e; try discriminate; destruct held; cbn; rewrite IH; done.
Qed.

Lemma io_under_lock_free_all held a :
  Forall (fun e => is_lock e = false) a ->
  io_under_lock held a = if held then filter (fun e => blocking e) a else [].
Proof.
  intros H. rewrite <- (app_nil_r a) at 1.
  rewrite io_under_lock_free by done. cbn. by rewrite app_nil_r.
Qed.

Lemma io_under_lock_harmless held tr :
  Forall (fun e => harmless e = true) tr -> io_under_lock held tr = [].
Proof.
  induction 1 as [|e tr He _ IH]; [done|].
  destruct e; try discriminate; destruct held; cbn; done.
Qed.

Lemma reconciling_lock_free tr :
  Forall (fun e => reconciling e = true) tr -> Forall (fun e => is_lock e = false) tr.
Proof.
  intros H. eapply Forall_impl; [exact H|]. intros []; done.
Qed.

Lemma forget_run i w :
  exists w', forget i w = (Ok tt, w', []).
Proof.
  unfold forget, bind, get_self, set_running_bots, set_self, ret. cbn.
  destruct (running_bots (self w) !! i); cbn; eauto.
Qed.

(** The monitoring thread waits for its worker outside the lock. *)
Lemma monitor_bot_process_unlocked i p w :
  io_under_lock false (events_of (_monitor_bot_process env i p w)) = [].
Proof.
  unfold _monitor_bot_process, try_except, communicate, with_lock, try_finally.
  unfold bind at 1 2. unfold emit at 1, lift at 1. cbn beta iota.
  destruct (env_communicate env p) as [[code err]|e]; cbn beta iota.
  - unfold bind at 1 2. unfold emit at 1. cbn beta iota.
    destruct (forget_run i w) as (w' & ->). cbn beta iota.
    unfold emit, print, bind, ret.
    destruct (negb (code =? 0)%Z); [destruct (negb (String.eqb err ""))|]; done.
  - unfold bind at 1. unfold print at 1, emit at 1. cbn beta iota.
    unfold bind at 1. unfold emit at 1. cbn beta iota.
    destruct (forget_run i w) as (w' & ->). done.
Qed.

Lemma poll_all_run exited items w :
  exists finished tr,
    poll_all exited items w = (Ok finished, w, tr) /\
    Forall (fun e => harmless e = true) tr.
Proof.
  induction items as [|[i p] items IH].
  - eexists _, _. split; [done|]. constructor.
  - cbn [poll_all]. unfold bind, emit, ret. cbn.
    destruct IH as (finished & tr & -> & Htr). cbn.
    eexists _, _. split; [done|]. rewrite app_nil_r. by constructor.
Qed.

Lemma cleanup_loop_run (finished : list nat) w :
  exists w' tr,
    for_each finished cleanup_one w = (Ok tt, w', tr) /\
    Forall (fun e => harmless e = true) tr.
Proof.
  revert w. induction finished as [|i finished IH]; intros w.
  - eexists _, _. split; [done|]. constructor.
  - cbn [for_each]. unfold bind at 1.
    assert (exists w1, cleanup_one i w = (Ok tt, w1, [EPrint (Msg_cleaning_up i)]))
      as (w1 & ->) by (by eexists).
    destruct (IH w1) as (w' & tr & -> & Htr).
    eexists _, _. split; [done|]. cbn. by constructor.
Qed.

(** The reaping of finished workers only polls. *)
Lemma cleanup_finished_bots_unlocked exited w :
  io_under_lock false (events_of (_cleanup_finished_bots exited w)) = [].
Proof.
  unfold _cleanup_finished_bots, with_lock, try_finally.
  unfold bind at 1. unfold emit at 1. cbn beta iota.
  unfold bind at 1. unfold get_self at 1. cbn beta iota.
  unfold bind at 1.
  destruct (poll_all_run exited (map_to_list (running_bots (self w))) w)
    as (finished & tr1 & -> & H1).
  destruct (cleanup_loop_run finished w) as (w' & tr2 & -> & H2).
  unfold emit. cbn.
  rewrite (io_under_lock_free true (tr1 ++ tr2) [ERelease]).
  - cbn. rewrite app_nil_r.
    assert (Forall (fun e => harmless e = true) (tr1 ++ tr2)) as H
      by (by apply Forall_app).
    clear -H. induction H as [|e tr He _ IH]; [done|].
    rewrite filter_cons_False; [exact IH|].
    destruct e; try discriminate; by intros [].
  - apply Forall_app. split; (eapply Forall_impl; [eassumption|]); intros []; done.
Qed.

(** In a reconciliation all blocking I/O but the first read of the store
    happens inside the lock. *)
Lemma start_new_bots_locked w :
  filter (fun e => blocking e) (events_of (_start_new_bots env w)) =
  filter (fun e => blocking e) (events_of (_load_data env w)) ++
  io_under_lock false (events_of (_start_new_bots env w)).
Proof.
  destruct (start_new_bots_run env w) as (w' & trl & body & -> & Hq & Hb & H).
  assert (Forall (fun e => is_lock e = false) trl) as Hl
    by (by apply reconciling_lock_free, quiet_reconciling).
  cbn [events_of snd].
  destruct (declared env w) as [|c nd].
  - rewrite H. unfold events_of. cbn [snd].
    rewrite io_under_lock_free_all by done. by rewrite app_nil_r.
  - destruct H as (-> & _). unfold events_of. cbn [snd].
    rewrite io_under_lock_free by done. cbn [app io_under_lock].
    rewrite io_under_lock_free by (by apply reconciling_lock_free).
    cbn. rewrite filter_app, filter_cons_False by (by intros []).
    rewrite filter_app. cbn. by rewrite !app_nil_r.
Qed.

(** During shutdown all blocking I/O happens inside the lock. *)
Lemma shutdown_all_bots_locked w :
  io_under_lock false (events_of (_shutdown_all_bots env w)) =
  filter (fun e => blocking e) (events_of (_shutdown_all_bots env w)).
Proof.
  destruct (shutdown_all_bots_run env w) as (body & -> & Hl & _).
  cbn [events_of snd io_under_lock].
  rewrite io_under_lock_free by done.
  rewrite 2!filter_cons_False by (by intros []).
  rewrite filter_app. cbn. by rewrite !app_nil_r.
Qed.

End Locking.

(** ** Reconciliation: what [_start_new_bots] does and does not do *)

Import Fixtures.

(** C1, as stated, fails.  Three workers run; the store then declares only
    the first two.  The reconciliation issues no action at all, slot 2 keeps
    its handle; and when the store declares nothing, again no action is
    issued and all three handles stay. *)
Lemma shrink_stops_nothing :
  let w := world_of (_start_new_bots shrinking (monitor [] [])) in
  dom (running_bots (self w)) = {[0; 1; 2]} /\
  declared shrinking w = [bot "A" 5; bot "B" 10] /\
  actions (events_of (_start_new_bots shrinking w)) = [] /\
  registry_of (_start_new_bots shrinking w) !! 2 = Some 102 /\
  declared emptied w = [] /\
  actions (events_of (_start_new_bots emptied w)) = [] /\
  dom (registry_of (_start_new_bots emptied w)) = {[0; 1; 2]}.
Proof.
  cbv zeta. repeat split; vm_compute; reflexivity.
Qed.

(** C1, amended: a slot that the recorded list contains and the new list
    does not gets no Stop, and no other action: its entry of the registry,
    if it has one, is after the reconciliation what it was before.  And when
    the store declares nothing (or cannot be loaded), the reconciliation
    issues no action at all and leaves the monitor as it was. *)
Theorem absent_slot_is_not_stopped (env : Env) (w : world) :
  (forall i, i < length (data (self w)) -> length (declared env w) <= i ->
     slot_actions i (events_of (_start_new_bots env w)) = [] /\
     registry_of (_start_new_bots env w) !! i = running_bots (self w) !! i) /\
  (declared env w = [] ->
   actions (events_of (_start_new_bots env w)) = [] /\
   self (world_of (_start_new_bots env w)) = self w).
Proof.
  split.
  - intros i _ Habsent. split.
    + unfold slot_actions. rewrite start_new_bots_actions.
      case_bool_decide; [|done].
      rewrite filter_slot_start, filter_eq_absent; [done|].
      unfold missing_slots. rewrite list_elem_of_filter, elem_of_seq. lia.
    + destruct (start_new_bots_run env w) as (w' & trl & body & _ & _ & _ & H).
      unfold registry_of, world_of.
      destruct (declared env w) as [|c nd].
      * by rewrite H.
      * destruct H as (-> & _ & _ & _ & _ & _ & Hout). by apply Hout.
  - intros Hnd. split.
    + rewrite start_new_bots_actions, Hnd. cbn [length].
      by rewrite bool_decide_eq_false_2 by lia.
    + destruct (start_new_bots_run env w) as (w' & trl & body & _ & _ & _ & H).
      rewrite Hnd in H. by rewrite H.
Qed.

(** The third worker runs and the store declares two bots: both are
    started, slot 2 gets no action and keeps its process.  One worker runs
    and the store declares nothing: no action, and the monitor is as it
    was. *)
Lemma absent_slot_is_not_stopped_witness :
  let w := monitor [bot "A" 5; bot "B" 10; bot "C" 1] [(2, 102)] in
  let w0 := monitor [bot "A" 5] [(0, 100)] in
  (declared unchanged w = [bot "A" 5; bot "B" 10] /\
   actions (events_of (_start_new_bots unchanged w)) = [Start 0; Start 1] /\
   slot_actions 2 (events_of (_start_new_bots unchanged w)) = [] /\
   registry_of (_start_new_bots unchanged w) !! 2 = Some 102) /\
  (declared emptied w0 = [] /\
   actions (events_of (_start_new_bots emptied w0)) = [] /\
   self (world_of (_start_new_bots emptied w0)) = self w0).
Proof.
  cbv zeta. split.
  - split; [reflexivity|]. split; [vm_compute; reflexivity|].
    destruct (absent_slot_is_not_stopped unchanged
                (monitor [bot "A" 5; bot "B" 10; bot "C" 1] [(2, 102)]))
      as [Habsent _].
    destruct (Habsent 2) as [Hnone Hkept].
    + cbn. lia.
    + vm_compute. lia.
    + split; [exact Hnone|]. etrans; [exact Hkept|]. reflexivity.
  - split; [reflexivity|].
    apply (absent_slot_is_not_stopped emptied (monitor [bot "A" 5] [(0, 100)])).
    reflexivity.
Defined.

(** C2 fails on the code.  Slot 0 runs with config A(5); the store now
    declares A(20) and a second bot.  The reconciliation starts slot 1 and
    does nothing for slot 0: its old process stays in the registry. *)
Theorem changed_live_slot_is_not_restarted :
  let w := monitor [bot "A" 5] [(0, 100)] in
  declared changing w = [bot "A" 20; bot "B" 10] /\
  py_eq (bot "A" 5) (bot "A" 20) = false /\
  slot_actions 0 (events_of (_start_new_bots changing w)) = [] /\
  actions (events_of (_start_new_bots changing w)) = [Start 1] /\
  registry_of (_start_new_bots changing w) !! 0 = Some 100.
Proof.
  cbv zeta. repeat split; vm_compute; reflexivity.
Qed.

(** C3, as stated, fails.  Three workers run, the store shrinks to two
    bots, then the worker of slot 0 exits and its monitoring thread removes
    it.  At the next reconciliation slot 0 is declared and has no handle,
    but the registry still counts two entries (slots 1 and 2), as many as
    the declared list: no Start is issued. *)
Lemma dead_slot_behind_orphan_not_started :
  let w1 := world_of (_start_new_bots shrinking (monitor [] [])) in
  let w2 := world_of (_start_new_bots shrinking w1) in
  let w3 := world_of (_monitor_bot_process shrinking 0 100 w2) in
  dom (running_bots (self w3)) = {[1; 2]} /\
  declared shrinking w3 = [bot "A" 5; bot "B" 10] /\
  running_bots (self w3) !! 0 = None /\
  actions (events_of (_start_new_bots shrinking w3)) = [].
Proof.
  cbv zeta. repeat split; vm_compute; reflexivity.
Qed.

(** C3, amended: when the declared list is longer than the registry, every
    declared slot without a live handle gets exactly one Start, whether or
    not the list grew with respect to the recorded one. *)
Theorem missing_slot_started (env : Env) (w : world) (i : nat) :
  size (running_bots (self w)) < length (declared env w) ->
  i < length (declared env w) ->
  running_bots (self w) !! i = None ->
  slot_actions i (events_of (_start_new_bots env w)) = [Start i].
Proof.
  intros Hgate Hi Hdead. unfold slot_actions.
  rewrite start_new_bots_actions, bool_decide_eq_true_2 by done.
  rewrite filter_slot_start, filter_eq_NoDup; [done| |].
  - unfold missing_slots. apply NoDup_filter, NoDup_seq.
  - unfold missing_slots. rewrite list_elem_of_filter, elem_of_seq. split; [done|lia].
Qed.

Lemma missing_slot_started_witness :
  let w := monitor [bot "A" 5; bot "B" 10] [(1, 101)] in
  slot_actions 0 (events_of (_start_new_bots unchanged w)) = [Start 0].
Proof.
  apply (missing_slot_started unchanged (monitor [bot "A" 5; bot "B" 10] [(1, 101)]) 0).
  - vm_compute. lia.
  - vm_compute. lia.
  - reflexivity.
Defined.

(** The length condition of [missing_slot_started] holds whenever no handle
    sits beyond the declared list. *)
Lemma gate_open_without_orphans (r : gmap nat Popen) (n i : nat) :
  (forall j, is_Some (r !! j) -> j < n) -> i < n -> r !! i = None -> size r < n.
Proof.
  intros Hin Hi Hdead.
  rewrite <- (size_dom (D := gset nat)).
  assert (dom r ⊆ (set_seq 0 n : gset nat) ∖ {[i]}) as Hsub.
  { intros j Hj. apply elem_of_dom in Hj.
    rewrite elem_of_difference, elem_of_set_seq, elem_of_singleton.
    split; [specialize (Hin j Hj); lia|]. intros ->. destruct Hj. congruence. }
  apply subseteq_size in Hsub.
  rewrite size_difference in Hsub.
  - rewrite size_set_seq, size_singleton in Hsub. lia.
  - intros j Hj. apply elem_of_singleton in Hj as ->. apply elem_of_set_seq. lia.
Qed.

(** C8: when the store declares what the monitor recorded (compared with
    [==], so a fresh parse does not matter) and every declared slot has a
    live handle, the reconciliation issues no action and leaves the registry
    as it was. *)
Theorem unchanged_state_no_actions (env : Env) (w : world) :
  length (declared env w) = length (data (self w)) ->
  (forall i old new, data (self w) !! i = Some old -> declared env w !! i = Some new ->
                     py_eq old new = true) ->
  (forall i, i < length (declared env w) -> is_Some (running_bots (self w) !! i)) ->
  actions (events_of (_start_new_bots env w)) = [] /\
  registry_of (_start_new_bots env w) = running_bots (self w).
Proof.
  intros _ _ Hlive. split.
  - rewrite start_new_bots_actions. case_bool_decide; [|done].
    by rewrite all_live_no_missing.
  - destruct (start_new_bots_run env w) as (w' & trl & body & _ & _ & _ & H).
    unfold registry_of, world_of.
    destruct (declared env w) as [|c nd] eqn:Hnd; [by rewrite H|].
    destruct H as (-> & _ & _ & _ & _ & Hkeep & Hout). cbn [fst snd].
    apply map_eq. intros j.
    destruct (decide (j < length (c :: nd))) as [Hj|Hj].
    + destruct (Hlive j Hj) as [p Hp]. rewrite Hp. by apply Hkeep.
    + apply Hout. lia.
Qed.

Lemma unchanged_state_no_actions_witness :
  let w := monitor [bot "A" 5; bot "B" 10] [(0, 100); (1, 101)] in
  actions (events_of (_start_new_bots unchanged w)) = [] /\
  registry_of (_start_new_bots unchanged w) = running_bots (self w).
Proof.
  apply (unchanged_state_no_actions unchanged
           (monitor [bot "A" 5; bot "B" 10] [(0, 100); (1, 101)])).
  - reflexivity.
  - intros [|[|i]] old new Ho Hn; vm_compute in Ho, Hn; try discriminate.
    + injection Ho as <-. injection Hn as <-. reflexivity.
    + injection Ho as <-. injection Hn as <-. reflexivity.
  - intros i Hi. vm_compute in Hi.
    destruct i as [|[|i]]; [by eexists|by eexists|lia].
Defined.

(** ** Shutdown *)

(** C4: [_shutdown_all_bots] returns with an empty registry, whatever the
    workers answer and however many of them had to be killed.  To the
    process of every handle of the registry it sends [terminate], then waits
    for it with a timeout of 5, then kills it when the wait timed out, and
    nothing else (the wait is left out only when [terminate] itself raised,
    which is logged). *)
Theorem shutdown_all_bots_complete (env : Env) (w : world) :
  result_of (_shutdown_all_bots env w) = Ok tt /\
  registry_of (_shutdown_all_bots env w) = ∅ /\
  forall i p,
    running_bots (self w) !! i = Some p ->
    signals i (events_of (_shutdown_all_bots env w)) = shutdown_signals env i p.
Proof.
  destruct (shutdown_all_bots_run env w) as (body & -> & _ & Hs).
  split; [done|]. split; [done|]. intros i p Hi.
  unfold events_of. cbn [snd]. unfold signals in *.
  rewrite 2!filter_cons_False by (by intros []). rewrite filter_app.
  rewrite (Hs i p Hi). cbn. by rewrite app_nil_r.
Qed.

Lemma shutdown_all_bots_complete_witness :
  let w := monitor [bot "A" 5; bot "B" 10] [(0, 100); (1, 101)] in
  running_bots (self w) !! 1 = Some 101 /\
  signals 1 (events_of (_shutdown_all_bots unchanged w)) =
  [ETerminate 1 101; EWait 1 101 5; EKill 1 101].
Proof.
  split; [reflexivity|].
  apply (shutdown_all_bots_complete unchanged
           (monitor [bot "A" 5; bot "B" 10] [(0, 100); (1, 101)])).
  reflexivity.
Defined.

(** ** The registry lock *)

(** C5, as stated, fails.  Shutdown waits for a worker, and a
    reconciliation reads the store and spawns processes, with the lock
    held. *)
Lemma lock_held_during_wait_and_spawn :
  io_under_lock false
    (events_of (_shutdown_all_bots unchanged (monitor [bot "A" 5] [(0, 100)]))) =
  [EWait 0 100 5] /\
  io_under_lock false (events_of (_start_new_bots unchanged (monitor [] []))) =
  [ERead "data.json"; EPopen 0; ERead "data.json"; EPopen 1].
Proof.
  split; vm_compute; reflexivity.
Qed.

(** C5, amended: the monitoring thread of a worker waits for its exit
    without the lock, and the reaping of finished workers performs no
    blocking I/O; a reconciliation makes its first read of the store before
    it takes the lock and all its later reads and spawns inside it; shutdown
    performs all its waits inside the lock. *)
Theorem blocking_io_and_the_lock (env : Env) (w : world) (i : nat) (p : Popen)
    (exited : Popen -> bool) :
  io_under_lock false (events_of (_monitor_bot_process env i p w)) = [] /\
  io_under_lock false (events_of (_cleanup_finished_bots exited w)) = [] /\
  filter (fun e => blocking e) (events_of (_start_new_bots env w)) =
    filter (fun e => blocking e) (events_of (_load_data env w)) ++
    io_under_lock false (events_of (_start_new_bots env w)) /\
  io_under_lock false (events_of (_shutdown_all_bots env w)) =
    filter (fun e => blocking e) (events_of (_shutdown_all_bots env w)).
Proof.
  split; [apply monitor_bot_process_unlocked|].
  split; [apply cleanup_finished_bots_unlocked|].
  split; [apply start_new_bots_locked|apply shutdown_all_bots_locked].
Qed.

(** ** Loading the store *)

(** C9, as stated, fails.  The store holds the list [[1, "x"]], which is
    not a list of records: [_load_data] returns it as it is and logs
    nothing. *)
Lemma load_accepts_list_of_scalars :
  _load_data scalars (monitor [] []) =
  (Ok [JInt 1; JStr "x"], after_read (monitor [] []), [ERead "data.json"]).
Proof. reflexivity. Qed.

(** C9, amended: [_load_data] never raises.  When the store is missing,
    cannot be read, is not valid JSON or is not a JSON list, it returns the
    empty list and logs one error; a JSON list it returns as it is, whatever
    its elements, and logs nothing.  The monitor is left as it was. *)
Theorem load_data_total (env : Env) (w : world) :
  exists l tr,
    _load_data env w = (Ok l, after_read w, tr) /\
    match env_store env (reads w) with
    | Parsed (JList l0) => l = l0 /\ filter (fun e => load_error e) tr = []
    | _ => l = [] /\ exists e, filter (fun e => load_error e) tr = [e]
    end.
Proof.
  destruct (load_data_run env w) as (l & tr & Hrun & _ & H).
  exists l, tr. split; [done|].
  assert (forall e, load_error e = true ->
            (tr = [e] \/ tr = [ERead (data_file (self w)); e]) ->
            exists e', filter (fun e => load_error e) tr = [e']) as Hlog.
  { intros e He [-> | ->]; exists e.
    - by rewrite filter_cons_True by (by rewrite He).
    - rewrite filter_cons_False by (by intros []).
      by rewrite filter_cons_True by (by rewrite He). }
  destruct (env_store env (reads w)) as [|e| |v].
  - destruct H as (-> & e & He & Htr). eauto.
  - destruct H as (-> & e' & He & Htr). eauto.
  - destruct H as (-> & e & He & Htr). eauto.
  - destruct v; try (destruct H as (-> & e & He & Htr); eauto).
    destruct H as (-> & ->). done.
Qed.

(** ** The command line *)

Lemma load_data_loading (env : Env) (w : world) :
  exists l tr,
    _load_data env w = (Ok l, after_read w, tr) /\
    Forall (fun e => loading e = true) tr.
Proof.
  destruct (load_data_run env w) as (l & tr & Hrun & _ & H).
  exists l, tr. split; [done|].
  assert (forall e, load_error e = true -> loading e = true) as Hle.
  { intros [[]| | | | | | | | | | |]; done. }
  destruct (env_store env (reads w)) as [|e| |v];
    try (destruct H as (_ & e' & He & [-> | ->]); repeat constructor; by apply Hle).
  destruct v;
    try (destruct H as (_ & e' & He & [-> | ->]); repeat constructor; by apply Hle).
  destruct H as (_ & ->). repeat constructor.
Qed.

(** [BotMonitor()]: one load of the store, an empty registry. *)
Lemma BotMonitor_init_run (env : Env) (file : string) (w : world) :
  exists l tr,
    BotMonitor_init env file w =
      (Ok tt,
       {| self := {| data_file := file; data := l; running_bots := ∅;
                     monitoring := false |};
          reads := S (reads w); spawns := spawns w |}, tr) /\
    Forall (fun e => loading e = true) tr.
Proof.
  unfold BotMonitor_init. unfold bind at 1. unfold set_self at 1.
  cbn beta iota. unfold bind at 1.
  match goal with
  | |- context [_load_data env ?w0] =>
      destruct (load_data_loading env w0) as (l & tr & -> & Hq)
  end.
  exists l, tr. split; [|done]. cbn. by rewrite app_nil_r.
Qed.

(** C6, as stated, fails.  An unknown command makes [main] print two lines
    and return: the process exits with status 0. *)
Lemma unknown_command_exits_zero :
  run_main unchanged ["runner.py"; "bogus"] =
  (Ok tt,
   {| self := {| data_file := "data.json"; data := [bot "A" 5; bot "B" 10];
                 running_bots := ∅; monitoring := false |};
      reads := 1; spawns := 0 |},
   [EPrint Msg_debug_starting; ERead "data.json";
    EPrint (Msg_debug_args ["runner.py"; "bogus"]);
    EPrint (Msg_not_a_command "bogus"); EPrint Msg_use_help]) /\
  exit_code (result_of (run_main unchanged ["runner.py"; "bogus"])) = 0%Z.
Proof. split; reflexivity. Qed.

Lemma main_invalid_run (env : Env) (prog : string) (args : list string) :
  args ≠ [] -> args ≠ ["list"] -> args ≠ ["help"] ->
  exists l tr complaint,
    run_main env (prog :: args) =
      (Ok tt,
       {| self := {| data_file := "data.json"; data := l; running_bots := ∅;
                     monitoring := false |};
          reads := 1; spawns := 0 |},
       EPrint Msg_debug_starting :: tr ++
       [EPrint (Msg_debug_args (prog :: args)); EPrint complaint;
        EPrint Msg_use_help]) /\
    Forall (fun e => loading e = true) tr /\
    (complaint = Msg_too_many_arguments \/
     exists arg, args = [arg] /\ complaint = Msg_not_a_command arg).
Proof.
  intros Hnone Hlist Hhelp. unfold run_main, main.
  unfold bind at 1. unfold print at 1, emit at 1. cbn beta iota.
  unfold bind at 1.
  destruct (BotMonitor_init_run env "data.json" boot) as (l & tr & -> & Hq).
  destruct args as [|arg [|arg' args]]; [done| |].
  - destruct (String.eqb arg "list") eqn:El.
    { apply String.eqb_eq in El as ->. done. }
    destruct (String.eqb arg "help") eqn:Eh.
    { apply String.eqb_eq in Eh as ->. done. }
    exists l, tr, (Msg_not_a_command arg). split; [done|]. split; [done|].
    right. by exists arg.
  - exists l, tr, Msg_too_many_arguments. split; [done|]. split; [done|]. by left.
Qed.

(** C6, amended: when the arguments are neither none, nor [list], nor
    [help], [main] loads the store, prints a complaint (the argument is not
    a command, or there are too many) and a pointer to the help command,
    starts nothing, and returns: the exit status is 0. *)
Theorem invalid_arguments_exit_zero (env : Env) (prog : string) (args : list string) :
  args ≠ [] -> args ≠ ["list"] -> args ≠ ["help"] ->
  exit_code (result_of (run_main env (prog :: args))) = 0%Z /\
  registry_of (run_main env (prog :: args)) = ∅ /\
  exists tr complaint,
    events_of (run_main env (prog :: args)) =
      EPrint Msg_debug_starting :: tr ++
      [EPrint (Msg_debug_args (prog :: args)); EPrint complaint; EPrint Msg_use_help] /\
    Forall (fun e => loading e = true) tr /\
    (complaint = Msg_too_many_arguments \/
     exists arg, args = [arg] /\ complaint = Msg_not_a_command arg).
Proof.
  intros Hnone Hlist Hhelp.
  destruct (main_invalid_run env prog args Hnone Hlist Hhelp)
    as (l & tr & complaint & -> & Hq & Hc).
  split; [done|]. split; [done|]. by exists tr, complaint.
Qed.

Lemma invalid_arguments_exit_zero_witness :
  exit_code (result_of (run_main emptied ["runner.py"; "list"; "now"])) = 0%Z.
Proof.
  apply (invalid_arguments_exit_zero emptied "runner.py" ["list"; "now"]); discriminate.
Defined.

(** With an empty registry [list_bots] reports no slot as running. *)
Lemma list_from_stopped (i : nat) (configs : list json) (w : world) :
  running_bots (self w) = ∅ ->
  exists r tr,
    list_from i configs w = (r, w, tr) /\
    Forall (fun e => says_running e = false) tr.
Proof.
  intros Hr. revert i. induction configs as [|config rest IH]; intros i.
  - eexists _, _. split; [done|]. constructor.
  - cbn [list_from]. unfold bind at 1.
    destruct config; cbn; try (eexists _, _; split; [done|]; constructor).
    destruct (IH (S i)) as (r & tr & -> & Htr).
    eexists _, _. split; [done|]. constructor; [|done].
    cbn. rewrite Hr, lookup_empty. apply bool_decide_eq_false_2. by intros [? ?].
Qed.

(** The [list] command runs in a process of its own, whose registry is
    empty: whatever the store holds, no line says Running. *)
Lemma list_command_never_says_running (env : Env) (prog : string) :
  Forall (fun e => says_running e = false) (events_of (run_main env [prog; "list"])).
Proof.
  unfold run_main, main.
  unfold bind at 1. unfold print at 1, emit at 1. cbn beta iota.
  unfold bind at 1.
  destruct (BotMonitor_init_run env "data.json" boot) as (l & tr & -> & Hq).
  assert (Forall (fun e => says_running e = false) tr) as Htr.
  { eapply Forall_impl; [exact Hq|]. intros [[]| | | | | | | | | | |]; done. }
  cbn [String.eqb Ascii.eqb Bool.eqb].
  unfold bind at 1. unfold print at 1, emit at 1. cbn beta iota.
  unfold list_bots, bind at 1, get_self at 1. cbn beta iota. cbn [self data].
  destruct l as [|c l].
  - cbn. constructor; [done|]. apply Forall_app. split; [done|]. repeat constructor.
  - unfold bind at 1. unfold print at 1, emit at 1. cbn beta iota.
    match goal with
    | |- context [list_from 0 ?cs ?w0] =>
        destruct (list_from_stopped 0 cs w0) as (r & trb & -> & Hb); [done|]
    end.
    cbn. constructor; [done|]. apply Forall_app. split; [done|].
    constructor; [done|]. by constructor.
Qed.

(** C7 fails on the code.  A monitor has started the two declared workers
    and holds their handles; the [list] command, run meanwhile, reports both
    slots as stopped. *)
Theorem list_command_reports_live_slot_stopped :
  dom (registry_of (_start_new_bots unchanged (monitor [] []))) = {[0; 1]} /\
  events_of (run_main unchanged ["runner.py"; "list"]) =
  [EPrint Msg_debug_starting; ERead "data.json";
   EPrint (Msg_debug_args ["runner.py"; "list"]);
   EPrint (Msg_found 2);
   EPrint (Msg_bot 0 (JStr "A") (JInt 5) false);
   EPrint (Msg_bot 1 (JStr "B") (JInt 10) false)].
Proof. split; vm_compute; reflexivity. Qed.

(** * Properties of the reply post-processing *)

Import Ai.

Lemma startswith_app (sep t : pystr) :
  startswith sep t = true <-> exists c, t = sep ++ c.
Proof.
  revert t. induction sep as [|x sep IH]; intros t; cbn.
  - split; [eauto|done].
  - destruct t as [|y t]; [split; [done|by intros [c Hc]]|].
    rewrite andb_true_iff, N.eqb_eq, IH. split.
    + intros [-> [c ->]]. eauto.
    + intros [c Hc]. injection Hc as -> ->. eauto.
Qed.

Lemma partition_found (sep a r : pystr) :
  is_Some (partition sep (a ++ sep ++ r)).
Proof.
  induction a as [|x a IH].
  - cbn [app]. destruct (sep ++ r) as [|y t] eqn:Ht.
    + destruct sep; [by eexists|done].
    + cbn [partition].
      replace (startswith sep (y :: t)) with true; [by eexists|].
      symmetry. apply startswith_app. by exists r.
  - cbn [app partition]. destruct (startswith sep (x :: a ++ sep ++ r)); [by eexists|].
    destruct IH as [[before after] ->]. by eexists.
Qed.

Lemma lstrip_suffix (s : pystr) : exists a, s = a ++ lstrip s.
Proof.
  induction s as [|c s [a IH]]; [by exists []|].
  cbn. destruct (is_space c); [|by exists []].
  exists (c :: a). cbn. by f_equal.
Qed.

Lemma strip_infix (s : pystr) : exists a b, s = a ++ strip s ++ b.
Proof.
  destruct (lstrip_suffix s) as [a Ha].
  destruct (lstrip_suffix (rev (lstrip s))) as [b Hb].
  exists a, (rev b). unfold strip. rewrite <- rev_app_distr, <- Hb, rev_involutive.
  exact Ha.
Qed.

(** A line that starts with a prefix once trimmed contains the prefix, so
    the [split(prefix, 1)[1]] of the loop is defined. *)
Lemma split_second_defined (sep line : pystr) :
  startswith sep (strip line) = true ->
  exists after, split_second sep line = Returns after.
Proof.
  intros H. apply startswith_app in H as [c Hc].
  destruct (strip_infix line) as (a & b & Hline). rewrite Hc in Hline.
  unfold split_second.
  destruct (partition_found sep a (c ++ b)) as [[before after] Hp].
  rewrite Hline, <- app_assoc, Hp. eauto.
Qed.

(** The loop keeps, of the lines before the first image line, those that
    are not profile-picture requests; it raises only at an image line. *)
Lemma scan_spec http (lines filtered_lines pfp : list pystr) :
  match scan http lines filtered_lines pfp with
  | Returns (kept, _, _) =>
      kept = filtered_lines ++
             List.filter (fun line => negb (is_see_pfp line)) (before_gen lines)
  | Raises _ => existsb is_gen lines = true
  end.
Proof.
  revert filtered_lines pfp.
  induction lines as [|line rest IH]; intros filtered_lines pfp.
  - cbn. by rewrite app_nil_r.
  - cbn [scan before_gen existsb]. destruct (is_gen line) eqn:Hg.
    + destruct (split_second (str "Gen:") line) as [after|e]; [|done].
      destruct (gen_image http (strip after)); [|done].
      cbn. by rewrite app_nil_r.
    + destruct (is_see_pfp line) eqn:Hp.
      * destruct (split_second_defined (str "see_pfp:") line Hp) as [after ->].
        specialize (IH filtered_lines (pfp ++ [strip after])).
        destruct (scan http rest filtered_lines (pfp ++ [strip after]))
          as [[[kept img] reqs]|e]; [|done].
        cbn [List.filter]. by rewrite Hp.
      * specialize (IH (filtered_lines ++ [line]) pfp).
        destruct (scan http rest (filtered_lines ++ [line]) pfp)
          as [[[kept img] reqs]|e]; [|done].
        cbn [List.filter]. rewrite Hp. cbn [negb]. by rewrite IH, <- app_assoc.
Qed.

(** C10, as stated, fails.  For the response ["Gen:"] nothing is returned:
    the empty prompt makes [gen_image] raise, in the post-processing and so
    in the whole call, made on a chat file that holds one history.  And when
    an image line is followed by text, that text is dropped with it: the
    content is ["OK"] although a line that starts with no tool prefix
    remains. *)
Lemma image_line_raises_or_drops_the_rest :
  get_ai_response http_ok (str "Gen:") = Raises ValueError /\
  get_ai_response http_ok (str "Gen: cat" ++ newline ++ str "hello") =
    Returns {| content := str "OK"; image := Some []; pfp_requests := [] |} /\
  content_as_claimed (str "Gen: cat" ++ newline ++ str "hello") = str "hello" /\
  (Exchange.ChatManager_get_ai_response (Chat.ChatManager_init "")
     (Exchange.answering (str "Gen:")) http_ok "draw" 0 "openai" ""
     (JInt 1000) (JInt 1) [] Chat.one_history).1 = Some (Raises ValueError).
Proof. repeat split; vm_compute; reflexivity. Qed.

(** The post-processing of a text, lines 129-149: when it returns, the
    content is not empty: it is made of the lines, taken from the text
    before the first ["---"], that come before the first line starting with
    ["Gen:"] and do not start with ["see_pfp:"], joined by newlines, and is
    ["OK"] when that is empty.  It raises only when a line starting with
    ["Gen:"] is reached. *)
Lemma postprocessing_content (http : pystr -> outcome (list Byte.byte))
    (response : pystr) :
  match get_ai_response http response with
  | Returns r =>
      content r <> [] /\ content r = or_ok (join newline (kept_lines response))
  | Raises _ => existsb is_gen (scanned_lines response) = true
  end.
Proof.
  unfold get_ai_response, kept_lines.
  fold (scanned_lines response).
  pose proof (scan_spec http (scanned_lines response) [] []) as H.
  destruct (scan http (scanned_lines response) [] []) as [[[kept img] reqs]|e];
    [|done].
  cbn [app] in H. subst kept. cbn [content]. split.
  - destruct (join newline _); done.
  - done.
Qed.

(** * Further properties of the supervisor *)

Import Views.

Lemma dict_lookup_set_eq (key : string) (v : json) (d : list (string * json)) :
  dict_lookup key (dict_set key v d) = Some v.
Proof.
  induction d as [|[k v0] d IH]; cbn.
  - by rewrite String.eqb_refl.
  - destruct (String.eqb k key) eqn:E; cbn; by rewrite E.
Qed.

Lemma dict_lookup_set_ne (key key' : string) (v : json) (d : list (string * json)) :
  key' ≠ key -> dict_lookup key' (dict_set key v d) = dict_lookup key' d.
Proof.
  intros Hne. induction d as [|[k v0] d IH]; cbn.
  - destruct (String.eqb key key') eqn:E; [|done].
    apply String.eqb_eq in E. congruence.
  - destruct (String.eqb k key) eqn:E; cbn.
    + apply String.eqb_eq in E as ->.
      destruct (String.eqb key key') eqn:E'; [|done].
      apply String.eqb_eq in E'. congruence.
    + destruct (String.eqb k key'); [done|]. exact IH.
Qed.

Lemma check_required_record fields d index w :
  exists tr,
    check_required fields (JDict d) index w =
      (Ok (forallb (fun field => bool_decide (is_Some (dict_lookup field d))) fields),
       w, tr).
Proof.
  induction fields as [|field rest [tr IH]]; cbn.
  - by eexists.
  - unfold bind. cbn.
    destruct (bool_decide (is_Some (dict_lookup field d))); cbn.
    + rewrite IH. by eexists.
    + by eexists.
Qed.

Lemma validate_record_run (d : list (string * json)) (index : nat) (w : world) :
  exists d' tr,
    _validate_bot_config (JDict d) index w = (Ok (has_required d, JDict d'), w, tr) /\
    (forall key, key ≠ "msg_chance" -> dict_lookup key d' = dict_lookup key d) /\
    (has_required d = true -> chance_ok d' = true).
Proof.
  unfold _validate_bot_config, bind.
  destruct (check_required_record required_fields d index w) as [tr ->].
  fold (has_required d). destruct (has_required d); cbn.
  - destruct (negb (is_int (default (JInt 5) (dict_lookup "msg_chance" d))) ||
              lt_zero (default (JInt 5) (dict_lookup "msg_chance" d))) eqn:Hbad; cbn.
    + eexists _, _. split; [done|]. split.
      * intros key Hk. by apply dict_lookup_set_ne.
      * intros _. unfold chance_ok. by rewrite dict_lookup_set_eq.
    + eexists _, _. split; [done|]. split; [done|].
      intros _. unfold chance_ok.
      apply orb_false_iff in Hbad as [Hint Hneg].
      apply negb_false_iff in Hint. by rewrite Hint, Hneg.
  - eexists _, _. split; [done|]. split; done.
Qed.

(** On a record [_validate_bot_config] never raises; its verdict is [True]
    exactly when the three required fields are present; it touches no key
    but [msg_chance], and a config it accepts holds, or defaults to, a
    response chance that is a non-negative [int]. *)
Theorem validate_record (d : list (string * json)) (index : nat) (w : world) :
  exists d' tr,
    _validate_bot_config (JDict d) index w = (Ok (has_required d, JDict d'), w, tr) /\
    (forall key, key ≠ "msg_chance" -> dict_lookup key d' = dict_lookup key d) /\
    (has_required d = true -> chance_ok d' = true).
Proof. exact (validate_record_run d index w). Qed.

Lemma validate_record_witness :
  let d := [("bot_token", JStr "t"); ("model", JStr "m"); ("personality", JStr "p");
            ("msg_chance", JStr "often")] in
  let d' := [("bot_token", JStr "t"); ("model", JStr "m"); ("personality", JStr "p");
             ("msg_chance", JInt 5)] in
  has_required d = true /\ "model" ≠ "msg_chance" /\
  chance_ok d' = true /\ dict_lookup "model" d' = dict_lookup "model" d.
Proof.
  cbv zeta. split; [reflexivity|]. split; [discriminate|].
  destruct (validate_record
              [("bot_token", JStr "t"); ("model", JStr "m"); ("personality", JStr "p");
               ("msg_chance", JStr "often")] 0 boot) as (d' & tr & Hrun & Hkeep & Hok).
  injection Hrun as <- _. split.
  - apply Hok. reflexivity.
  - apply Hkeep. discriminate.
Defined.

Lemma validate_non_record_run (c : json) (index : nat) (w : world) :
  is_record c = false ->
  accepted (result_of (_validate_bot_config c index w)) = false.
Proof.
  intros Hc. unfold _validate_bot_config, bind, result_of.
  destruct (check_required_run required_fields c index w) as (r & tr & Hrun & _).
  rewrite Hrun. destruct r as [[]|e]; [|done|done].
  destruct c; try discriminate; done.
Qed.

(** A config that is not a record is never accepted: the validation returns
    [False] or raises. *)
Theorem validate_rejects_non_records (c : json) (index : nat) (w : world) :
  is_record c = false ->
  accepted (result_of (_validate_bot_config c index w)) = false.
Proof. exact (validate_non_record_run c index w). Qed.

Lemma validate_rejects_non_records_witness :
  accepted (result_of (_validate_bot_config
                         (JList [JStr "bot_token"; JStr "model"; JStr "personality"])
                         0 boot)) = false.
Proof.
  apply (validate_rejects_non_records
           (JList [JStr "bot_token"; JStr "model"; JStr "personality"]) 0 boot).
  reflexivity.
Defined.

Lemma declared_load (env : Env) (w : world) (l : list json) (tr : list event) :
  _load_data env w = (Ok l, after_read w, tr) -> declared env w = l.
Proof. intros H. unfold declared, result_of. by rewrite H. Qed.

(** [_start_bot_process] never raises and leaves the monitor as it is; it
    reads the store once; it returns a process exactly when the store, as
    read by this very call, holds at the index a record with the three
    required fields and the spawn succeeds. *)
Theorem start_bot_process_outcome (env : Env) (i : nat) (w : world) :
  exists o w' tr,
    _start_bot_process env i w = (Ok o, w', tr) /\
    self w' = self w /\
    reads w' = S (reads w) /\
    forall p,
      o = Some p <->
      exists d, declared env w !! i = Some (JDict d) /\ has_required d = true /\
                env_popen env (spawns w) i = Ok p.
Proof.
  unfold _start_bot_process, try_except.
  unfold bind at 1. unfold print at 1, emit at 1.
  unfold bind at 1.
  destruct (load_data_run env w) as (l & trl & Hload & _ & _).
  rewrite Hload. rewrite (declared_load env w l trl Hload).
  destruct (l !! i) as [config|] eqn:Hi.
  - unfold bind at 1.
    destruct (is_record config) eqn:Hrec.
    + destruct config; try discriminate.
      destruct (validate_record_run items i (after_read w)) as (d' & trv & -> & _ & _).
      destruct (has_required items) eqn:Hreq.
      * unfold bind, popen. cbn.
        destruct (env_popen env (spawns w) i) as [p|e] eqn:Hp; cbn.
        -- eexists _, _, _. split; [done|]. split; [done|]. split; [done|].
           intros q. split.
           ++ intros [= <-]. by exists items.
           ++ intros (d & [= <-] & _ & [= <-]). done.
        -- assert (forall q : Popen, None = Some q <->
                     exists d, Some (JDict items) = Some (JDict d) /\
                               has_required d = true /\ @Raise Popen e = Ok q) as Hno.
           { intros q. split; [done|]. by intros (d & _ & _ & ?). }
           destruct e; cbn; eexists _, _, _; (split; [done|]); (split; [done|]);
             (split; [done|]); exact Hno.
      * cbn. eexists _, _, _. split; [done|]. split; [done|]. split; [done|].
        intros q. split; [done|]. intros (d & [= <-] & Hd & _).
        change (has_required items = true) in Hd. congruence.
    + pose proof (validate_non_record_run config i (after_read w) Hrec) as Hrej.
      destruct (validate_run config i (after_read w)) as (r & trv & Hv & _).
      unfold result_of in Hrej. rewrite Hv in Hrej. rewrite Hv. cbn in Hrej.
      assert (forall q : Popen, None = Some q <->
                exists d, Some config = Some (JDict d) /\
                          has_required d = true /\ env_popen env (spawns w) i = Ok q)
        as Hno.
      { intros q. split; [done|]. intros (d & [= ->] & _). done. }
      destruct r as [[[] c]|e]; [done| |].
      * cbn. eexists _, _, _. split; [done|]. split; [done|]. split; [done|]. exact Hno.
      * destruct e; cbn; eexists _, _, _; (split; [done|]); (split; [done|]);
          (split; [done|]); exact Hno.
  - cbn. eexists _, _, _. split; [done|]. split; [done|]. split; [done|].
    intros q. split; [done|]. by intros (d & ? & _).
Qed.

Lemma start_bot_process_outcome_witness :
  result_of (_start_bot_process unchanged 1 (monitor [] [])) = Ok (Some 100).
Proof.
  destruct (start_bot_process_outcome unchanged 1 (monitor [] []))
    as (o & w' & tr & Hrun & _ & _ & Ho).
  unfold result_of. rewrite Hrun. cbn. f_equal. apply Ho.
  eexists. split; [reflexivity|]. split; reflexivity.
Defined.

(** ** Reaping *)

Lemma forget_spec (i : nat) (w : world) :
  exists w',
    forget i w = (Ok tt, w', []) /\
    running_bots (self w') = delete i (running_bots (self w)) /\
    data (self w') = data (self w) /\
    data_file (self w') = data_file (self w) /\
    monitoring (self w') = monitoring (self w).
Proof.
  unfold forget, bind, get_self, set_running_bots, set_self, ret. cbn.
  destruct (running_bots (self w) !! i) eqn:Hi; cbn.
  - eexists. split; [done|]. done.
  - eexists. split; [done|]. by rewrite delete_id.
Qed.

Lemma monitor_bot_process_run (env : Env) (i : nat) (p : Popen) (w : world) :
  exists w' tr,
    _monitor_bot_process env i p w = (Ok tt, w', tr) /\
    running_bots (self w') = delete i (running_bots (self w)) /\
    data (self w') = data (self w) /\
    data_file (self w') = data_file (self w) /\
    monitoring (self w') = monitoring (self w) /\
    Forall (fun e => is_read e = false) tr.
Proof.
  unfold _monitor_bot_process, try_except, communicate, with_lock, try_finally.
  unfold bind at 1 2. unfold emit at 1, lift at 1. cbn beta iota.
  destruct (forget_spec i w) as (w' & Hf & Hr & Hd & Hfile & Hm).
  destruct (env_communicate env p) as [[code err]|e]; cbn beta iota.
  - unfold bind at 1 2. unfold emit at 1. cbn beta iota. rewrite Hf. cbn beta iota.
    unfold emit, print, bind, ret.
    destruct (negb (code =? 0)%Z); [destruct (negb (String.eqb err ""))|];
      eexists _, _; (split; [done|]); repeat split; try done; repeat constructor.
  - unfold bind at 1. unfold print at 1, emit at 1. cbn beta iota.
    unfold bind at 1. unfold emit at 1. cbn beta iota. rewrite Hf.
    eexists _, _. split; [done|]. repeat split; try done. repeat constructor.
Qed.

(** When the monitoring thread of a slot is done, whether its worker exited
    cleanly, failed, or the wait itself raised, the slot has no entry in the
    registry, whatever process the entry held; the other slots and the
    recorded list are as before, and nothing is raised. *)
Theorem monitor_thread_frees_slot (env : Env) (i : nat) (p : Popen) (w : world) :
  result_of (_monitor_bot_process env i p w) = Ok tt /\
  registry_of (_monitor_bot_process env i p w) = delete i (running_bots (self w)) /\
  data (self (world_of (_monitor_bot_process env i p w))) = data (self w).
Proof.
  destruct (monitor_bot_process_run env i p w) as (w' & tr & -> & Hr & Hd & _).
  done.
Qed.

Lemma poll_all_result (exited : Popen -> bool) (items : list (nat * Popen)) (w : world) :
  exists tr,
    poll_all exited items w =
      (Ok (List.map fst (List.filter (fun item => exited (snd item)) items)), w, tr) /\
    Forall (fun e => harmless e = true) tr.
Proof.
  induction items as [|[i p] items (tr & IH & Htr)].
  - eexists. split; [done|]. constructor.
  - cbn [poll_all]. unfold bind, emit, ret. cbn. rewrite IH. cbn.
    eexists. split; [by destruct (exited p)|]. rewrite app_nil_r. by constructor.
Qed.

Lemma cleanup_loop_spec (finished : list nat) (w : world) :
  exists w' tr,
    for_each finished cleanup_one w = (Ok tt, w', tr) /\
    (forall i, running_bots (self w') !! i =
               if decide (i ∈ finished) then None else running_bots (self w) !! i) /\
    data (self w') = data (self w) /\
    data_file (self w') = data_file (self w) /\
    monitoring (self w') = monitoring (self w) /\
    Forall (fun e => harmless e = true) tr.
Proof.
  revert w. induction finished as [|j finished IH]; intros w.
  - eexists _, _. split; [done|]. repeat split; done.
  - cbn [for_each]. unfold bind at 1.
    assert (cleanup_one j w =
              (Ok tt,
               {| self := {| data_file := data_file (self w); data := data (self w);
                             running_bots := delete j (running_bots (self w));
                             monitoring := monitoring (self w) |};
                  reads := reads w; spawns := spawns w |},
               [EPrint (Msg_cleaning_up j)])) as -> by done.
    match goal with
    | |- context [for_each finished cleanup_one ?w1] =>
        destruct (IH w1) as (w' & tr & -> & Hr & Hd & Hf & Hm & Htr)
    end.
    cbn in Hr, Hd, Hf, Hm.
    eexists _, _. split; [done|]. split; [|repeat split; try done; by constructor].
    intros i. rewrite Hr. destruct (decide (i ∈ j :: finished)) as [Hin|Hnin].
    + destruct (decide (i ∈ finished)); [done|].
      apply elem_of_cons in Hin as [->|?]; [apply lookup_delete_eq|done].
    + rewrite decide_False by (intros ?; apply Hnin; by right).
      apply lookup_delete_ne. intros ->. apply Hnin. left.
Qed.

Lemma cleanup_finished_bots_run (exited : Popen -> bool) (w : world) :
  exists w' tr,
    _cleanup_finished_bots exited w = (Ok tt, w', tr) /\
    (forall i, running_bots (self w') !! i =
               match running_bots (self w) !! i with
               | Some p => if exited p then None else Some p
               | None => None
               end) /\
    data (self w') = data (self w) /\
    data_file (self w') = data_file (self w) /\
    monitoring (self w') = monitoring (self w) /\
    Forall (fun e => is_read e = false) tr.
Proof.
  unfold _cleanup_finished_bots, with_lock, try_finally.
  unfold bind at 1. unfold emit at 1. cbn beta iota.
  unfold bind at 1. unfold get_self at 1. cbn beta iota.
  unfold bind at 1.
  destruct (poll_all_result exited (map_to_list (running_bots (self w))) w)
    as (tr1 & -> & H1).
  destruct (cleanup_loop_spec
              (List.map fst (List.filter (fun item => exited (snd item))
                               (map_to_list (running_bots (self w))))) w)
    as (w' & tr2 & -> & Hr & Hd & Hf & Hm & H2).
  unfold emit. cbn. eexists _, _. split; [done|].
  split; [|split; [done|split; [done|split; [done|]]]].
  - intros i. rewrite Hr. case_decide as Hin.
    + apply list_elem_of_In, in_map_iff in Hin as ([j p] & Hj & Hin). cbn in Hj. subst j.
      apply filter_In in Hin as [Hin Hex]. cbn in Hex.
      apply list_elem_of_In, elem_of_map_to_list in Hin. by rewrite Hin, Hex.
    + destruct (running_bots (self w) !! i) as [p|] eqn:Hi; [|done].
      destruct (exited p) eqn:Hex; [|done]. exfalso. apply Hin.
      apply list_elem_of_In, in_map_iff. exists (i, p). split; [done|].
      apply filter_In. split; [|done]. by apply list_elem_of_In, elem_of_map_to_list.
  - constructor; [done|]. apply Forall_app. split.
    + apply Forall_app. split; (eapply Forall_impl; [eassumption|]); intros []; done.
    + repeat constructor.
Qed.

(** [_cleanup_finished_bots] never raises and removes from the registry
    exactly the entries whose process has exited; it keeps every other
    entry and the recorded list. *)
Theorem cleanup_removes_exactly_exited (exited : Popen -> bool) (w : world) :
  result_of (_cleanup_finished_bots exited w) = Ok tt /\
  registry_of (_cleanup_finished_bots exited w) =
    filter (fun item => exited (snd item) = false) (running_bots (self w)) /\
  data (self (world_of (_cleanup_finished_bots exited w))) = data (self w).
Proof.
  destruct (cleanup_finished_bots_run exited w) as (w' & tr & -> & Hr & Hd & _).
  split; [done|]. split; [|done]. unfold registry_of, world_of. cbn.
  apply map_eq. intros i. rewrite Hr.
  destruct (running_bots (self w) !! i) as [p|] eqn:Hi.
  - destruct (exited p) eqn:Hex.
    + symmetry. apply map_lookup_filter_None. right. intros q Hq. cbn. congruence.
    + symmetry. apply map_lookup_filter_Some. by split.
  - symmetry. apply map_lookup_filter_None. by left.
Qed.

(** ** The monitoring loop *)

Lemma start_new_bots_ok (env : Env) (w : world) :
  exists w' tr,
    _start_new_bots env w = (Ok tt, w', tr) /\
    monitoring (self w') = monitoring (self w) /\
    data_file (self w') = data_file (self w).
Proof.
  destruct (start_new_bots_run env w) as (w' & trl & body & _ & _ & _ & H).
  destruct (declared env w) as [|c nd].
  - rewrite H. by eexists _, _.
  - destruct H as (-> & _ & _ & Hf & Hm & _). by eexists _, _.
Qed.

Lemma threads_run (env : Env) (threads : list (nat * Popen)) (w : world) :
  exists w' tr,
    for_each threads (fun '(i, p) => _monitor_bot_process env i p) w = (Ok tt, w', tr) /\
    monitoring (self w') = monitoring (self w) /\
    data_file (self w') = data_file (self w) /\
    Forall (fun e => is_read e = false) tr.
Proof.
  revert w. induction threads as [|[i p] threads IH]; intros w.
  - eexists _, _. split; [done|]. repeat split; done.
  - cbn [for_each]. unfold bind.
    destruct (monitor_bot_process_run env i p w)
      as (w1 & tr1 & -> & _ & _ & Hf1 & Hm1 & Hn1).
    destruct (IH w1) as (w2 & tr2 & -> & Hm2 & Hf2 & Hn2).
    eexists _, _. split; [done|].
    split; [congruence|]. split; [congruence|]. by apply Forall_app.
Qed.

(** One iteration of the loop: the reconciliation (if the store is newer),
    then the reaping, the sleep and the monitoring threads; or the exception
    of [getmtime], before anything else is done. *)
Lemma monitoring_loop_step (env : Env) (t : tick) (rest : list tick) (last : Q)
    (w : world) :
  monitoring (self w) = true ->
  match tick_mtime t with
  | Some (Raise e) => monitoring_loop env (t :: rest) last w = (Raise e, w, [])
  | _ =>
      exists w1 tr1 w2 tr2 last',
        (if newer t last
         then _start_new_bots env w = (Ok tt, w1, tr1)
         else w1 = w /\ tr1 = [] /\ last' = last) /\
        monitoring (self w2) = true /\
        data_file (self w2) = data_file (self w) /\
        Forall (fun e => is_read e = false) tr2 /\
        monitoring_loop env (t :: rest) last w =
          let '(r, w3, tr3) := monitoring_loop env rest last' w2 in
          (r, w3,
           (if newer t last
            then EPrint (Msg_detected_changes (data_file (self w))) ::
                 ESleep (1 # 2) :: tr1
            else []) ++ tr2 ++ tr3)
  end.
Proof.
  intros Hmon.
  assert (forall w1 : world,
            monitoring (self w1) = true ->
            data_file (self w1) = data_file (self w) ->
            exists w2 tr2,
              monitoring (self w2) = true /\
              data_file (self w2) = data_file (self w) /\
              Forall (fun e => is_read e = false) tr2 /\
              forall last',
                bind (_cleanup_finished_bots (tick_exited t))
                  (fun _ => bind (emit (ESleep 1))
                     (fun _ => bind (for_each (tick_threads t)
                                       (fun '(i, p) => _monitor_bot_process env i p))
                        (fun _ => monitoring_loop env rest last'))) w1 =
                let '(r, w3, tr3) := monitoring_loop env rest last' w2 in
                (r, w3, tr2 ++ tr3)) as Htail.
  { intros w1 Hm1 Hf1.
    destruct (cleanup_finished_bots_run (tick_exited t) w1)
      as (wc & trc & Hc & _ & _ & Hfc & Hmc & Hnc).
    destruct (threads_run env (tick_threads t) wc) as (wt & trt & Ht & Hmt & Hft & Hnt).
    exists wt, (trc ++ ESleep 1 :: trt).
    split; [congruence|]. split; [congruence|].
    split; [apply Forall_app; split; [done|by constructor]|].
    intros last'. unfold bind at 1. rewrite Hc.
    unfold bind at 1. unfold emit at 1. cbn beta iota.
    unfold bind at 1. rewrite Ht.
    destruct (monitoring_loop env rest last' wt) as [[r w3] tr3].
    cbn. by rewrite <- app_assoc. }
  unfold newer.
  destruct (tick_mtime t) as [[m|e]|] eqn:Hstat;
    cbn [monitoring_loop]; rewrite Hstat;
    unfold bind at 1; unfold get_self at 1; cbn beta iota; rewrite Hmon;
    unfold bind at 1.
  - unfold bind at 1. unfold lift at 1. cbn beta iota.
    destruct (Qgt_bool m last).
    + unfold bind at 1. unfold print at 1, emit at 1. cbn beta iota.
      unfold bind at 1. unfold emit at 1. cbn beta iota. unfold bind at 1.
      destruct (start_new_bots_ok env w) as (w1 & tr1 & Hs & Hm1 & Hf1).
      rewrite Hs. cbn beta iota.
      destruct (Htail w1) as (w2 & tr2 & Hm2 & Hf2 & Hn2 & Heq); [congruence|done|].
      exists w1, tr1, w2, tr2, m. split; [done|]. split; [done|]. split; [done|].
      split; [done|]. unfold ret. cbn beta iota. rewrite (Heq m).
      destruct (monitoring_loop env rest m w2) as [[r w3] tr3].
      cbn. by rewrite !app_nil_r.
    + destruct (Htail w Hmon eq_refl) as (w2 & tr2 & Hm2 & Hf2 & Hn2 & Heq).
      exists w, [], w2, tr2, last. split; [done|]. split; [done|]. split; [done|].
      split; [done|]. unfold ret. cbn beta iota. rewrite (Heq last).
      by destruct (monitoring_loop env rest last w2) as [[r w3] tr3].
  - done.
  - destruct (Htail w Hmon eq_refl) as (w2 & tr2 & Hm2 & Hf2 & Hn2 & Heq).
    exists w, [], w2, tr2, last. split; [done|]. split; [done|]. split; [done|].
    split; [done|]. unfold ret. cbn beta iota. rewrite (Heq last).
    by destruct (monitoring_loop env rest last w2) as [[r w3] tr3].
Qed.

(** The loop ends by the interrupt, unless a [getmtime] raises first. *)
Lemma monitoring_loop_run (env : Env) (ticks : list tick) (last : Q) (w : world) :
  monitoring (self w) = true ->
  exists w' tr,
    monitoring_loop env ticks last w =
      (match loop_failure ticks with
       | Some e => Raise e
       | None => Ok tt
       end, w', tr).
Proof.
  revert last w. induction ticks as [|t rest IH]; intros last w Hmon.
  - by eexists _, _.
  - pose proof (monitoring_loop_step env t rest last w Hmon) as Hstep.
    cbn [loop_failure].
    destruct (tick_mtime t) as [[m|e]|].
    + destruct Hstep as (w1 & tr1 & w2 & tr2 & last' & _ & Hm2 & _ & _ & ->).
      destruct (IH last' w2 Hm2) as (w3 & tr3 & ->). by eexists _, _.
    + rewrite Hstep. by eexists _, _.
    + destruct Hstep as (w1 & tr1 & w2 & tr2 & last' & _ & Hm2 & _ & _ & ->).
      destruct (IH last' w2 Hm2) as (w3 & tr3 & ->). by eexists _, _.
Qed.

(** [start_monitoring] when the [getmtime] of line 159 raises: the first
    reconciliation has run, nothing else does. *)
Lemma start_monitoring_escapes (env : Env) (w : world) (e : exn) :
  env_mtime0 env = Some (Raise e) ->
  start_monitoring env w =
    (Raise e, world_of (_start_new_bots env w),
     announcement (self w) ++ events_of (_start_new_bots env w)).
Proof.
  intros Hstat. unfold start_monitoring. rewrite Hstat.
  unfold bind at 1. unfold get_self at 1. cbn beta iota.
  unfold bind at 1. unfold print at 1, emit at 1. cbn beta iota.
  unfold bind at 1. unfold print at 1, emit at 1. cbn beta iota.
  unfold bind at 1. unfold print at 1, emit at 1. cbn beta iota.
  unfold bind at 1.
  destruct (start_new_bots_ok env w) as (w1 & tr1 & -> & _ & _).
  unfold bind at 1. unfold lift at 1. cbn. by rewrite app_nil_r.
Qed.

(** [start_monitoring] once the [try] is entered: the shutdown is the last
    thing done, and what the loop raised is raised again. *)
Lemma start_monitoring_run (env : Env) (w : world) :
  (forall e, env_mtime0 env <> Some (Raise e)) ->
  exists w' tr,
    start_monitoring env w =
      (match loop_failure (env_ticks env) with
       | Some e => Raise e
       | None => Ok tt
       end, w', tr ++ [ERelease; EPrint Msg_all_shut_down]) /\
    running_bots (self w') = ∅.
Proof.
  intros Hstat. unfold start_monitoring.
  unfold bind at 1. unfold get_self at 1. cbn beta iota.
  unfold bind at 1. unfold print at 1, emit at 1. cbn beta iota.
  unfold bind at 1. unfold print at 1, emit at 1. cbn beta iota.
  unfold bind at 1. unfold print at 1, emit at 1. cbn beta iota.
  unfold bind at 1.
  destruct (start_new_bots_ok env w) as (w1 & tr1 & -> & Hm1 & Hf1).
  unfold bind at 1.
  assert (exists q, match env_mtime0 env with
                    | Some answer => lift answer
                    | None => ret 0%Q
                    end w1 = (Ok q, w1, [])) as [q ->].
  { destruct (env_mtime0 env) as [[q|e]|]; [by exists q|by destruct (Hstat e)|by eexists]. }
  unfold bind at 1. unfold set_monitoring, bind at 1, get_self, set_self.
  cbn beta iota. unfold try_finally.
  match goal with
  | |- context [monitoring_loop env ?ts ?l ?w0] =>
      destruct (monitoring_loop_run env ts l w0) as (w2 & tr2 & ->); [done|]
  end.
  destruct (shutdown_all_bots_run env w2) as (body & -> & _).
  match goal with
  | |- context [(_, ?w0, ?l)] =>
      assert (exists tr, l = tr ++ [ERelease; EPrint Msg_all_shut_down]) as [tr ->]
  end.
  { exists (announcement (self w) ++ tr1 ++ tr2 ++
            [EAcquire; EPrint (Msg_shutting_down (size (running_bots (self w2))))] ++
            body).
    cbn. rewrite <- !app_assoc. cbn. reflexivity. }
  by eexists _, _.
Qed.

(** When the [getmtime] of line 159, outside the [try], raises,
    [start_monitoring] raises it and makes no shutdown: nothing is done
    after the first reconciliation, and the registry is the one it left.
    When it does not, the shutdown is the last thing done, whether the loop
    is left by the interrupt or by an exception of a [getmtime] of the loop,
    which is raised again: the registry is empty at the end, and the last
    effects are the release of the lock and the report that all bots are
    shut down. *)
Theorem start_monitoring_shutdown (env : Env) (w : world) :
  match env_mtime0 env with
  | Some (Raise e) =>
      start_monitoring env w =
        (Raise e, world_of (_start_new_bots env w),
         announcement (self w) ++ events_of (_start_new_bots env w))
  | _ =>
      result_of (start_monitoring env w) =
        match loop_failure (env_ticks env) with
        | Some e => Raise e
        | None => Ok tt
        end /\
      registry_of (start_monitoring env w) = ∅ /\
      exists tr, events_of (start_monitoring env w) =
                 tr ++ [ERelease; EPrint Msg_all_shut_down]
  end.
Proof.
  destruct (env_mtime0 env) as [[q|e]|] eqn:Hstat.
  - destruct (start_monitoring_run env w) as (w' & tr & -> & Hr); [congruence|].
    split; [done|]. split; [done|]. by exists tr.
  - by apply start_monitoring_escapes.
  - destruct (start_monitoring_run env w) as (w' & tr & -> & Hr); [congruence|].
    split; [done|]. split; [done|]. by exists tr.
Qed.

(** Both bots are started by the first reconciliation and are still
    registered, without a signal, when the exception escapes. *)
Lemma start_monitoring_shutdown_witness :
  result_of (start_monitoring vanishing (monitor [] [])) = Raise FileNotFoundError /\
  registry_of (start_monitoring vanishing (monitor [] [])) = {[0 := 100; 1 := 101]} /\
  signals 0 (events_of (start_monitoring vanishing (monitor [] []))) = [] /\
  signals 1 (events_of (start_monitoring vanishing (monitor [] []))) = [].
Proof.
  pose proof (start_monitoring_shutdown vanishing (monitor [] [])) as H.
  cbn [vanishing env_mtime0] in H. rewrite H.
  repeat split; vm_compute; reflexivity.
Defined.



(** ** Listing *)

Lemma list_from_records (i : nat) (configs : list json) (w : world) :
  Forall (fun c => is_record c = true) configs ->
  list_from i configs w =
    (Ok tt, w, imap (fun k c => status_line (running_bots (self w)) (i + k) c) configs).
Proof.
  intros H. revert i. induction H as [|c configs Hc _ IH]; intros i; [done|].
  cbn [list_from]. destruct c; try discriminate.
  unfold bind, py_get, get_self, print, emit, ret. cbn beta iota.
  rewrite (IH (S i)). cbn. rewrite Nat.add_0_r. do 2 f_equal.
  apply imap_ext. intros k c _. cbn. f_equal. lia.
Qed.

(** On a list of records [list_bots] prints the count and then one line per
    slot, in slot order: the model (or Unknown), the response chance (or 5)
    and Running exactly when the slot is in the registry of the monitor it is
    called on.  It changes nothing. *)
Theorem list_bots_one_line_per_slot (w : world) :
  Forall (fun c => is_record c = true) (data (self w)) ->
  list_bots w =
    (Ok tt, w,
     match data (self w) with
     | [] => [EPrint Msg_no_configurations]
     | _ :: _ =>
         EPrint (Msg_found (length (data (self w)))) ::
         imap (status_line (running_bots (self w))) (data (self w))
     end).
Proof.
  intros H. unfold list_bots, bind, get_self. cbn beta iota.
  destruct (data (self w)) as [|c l] eqn:Hd; [done|].
  unfold print at 1, emit at 1. cbn beta iota.
  rewrite (list_from_records 0 (c :: l) w H). done.
Qed.

Lemma list_bots_one_line_per_slot_witness :
  events_of (list_bots (monitor [bot "A" 5; JDict [("bot_token", JStr "t")]] [(1, 101)])) =
  [EPrint (Msg_found 2);
   EPrint (Msg_bot 0 (JStr "A") (JInt 5) false);
   EPrint (Msg_bot 1 (JStr "Unknown") (JInt 5) true)].
Proof.
  rewrite (list_bots_one_line_per_slot
             (monitor [bot "A" 5; JDict [("bot_token", JStr "t")]] [(1, 101)])).
  - reflexivity.
  - repeat constructor.
Defined.

Lemma list_from_prints (i : nat) (configs : list json) (w : world) :
  exists r tr,
    list_from i configs w = (r, w, tr) /\
    Forall (fun e => touches_process e = false) tr.
Proof.
  revert i. induction configs as [|config rest IH]; intros i.
  - eexists _, _. split; [done|]. constructor.
  - cbn [list_from]. unfold bind at 1.
    destruct config; cbn; try (eexists _, _; split; [done|]; constructor).
    destruct (IH (S i)) as (r & tr & -> & Htr).
    eexists _, _. split; [done|]. by constructor.
Qed.

(** Only the invocation without arguments creates, signals or waits for a
    process or a thread: with any argument, valid or not, [main] reads the
    store once and prints. *)
Theorem arguments_touch_no_process (env : Env) (prog : string) (args : list string) :
  args ≠ [] ->
  Forall (fun e => touches_process e = false) (events_of (run_main env (prog :: args))).
Proof.
  intros Hargs. unfold run_main, main.
  unfold bind at 1. unfold print at 1, emit at 1. cbn beta iota.
  unfold bind at 1.
  destruct (BotMonitor_init_run env "data.json" boot) as (l & tr & -> & Hq).
  assert (Forall (fun e => touches_process e = false) tr) as Htr.
  { eapply Forall_impl; [exact Hq|]. intros [[]| | | | | | | | | | |]; done. }
  unfold bind at 1. unfold print at 1, emit at 1. cbn beta iota.
  destruct args as [|arg [|arg' args]]; [done| |].
  - destruct (String.eqb arg "list").
    + unfold list_bots, bind at 1, get_self at 1. cbn beta iota. cbn [self data].
      destruct l as [|c l].
      * cbn. constructor; [done|]. apply Forall_app. split; [done|]. repeat constructor.
      * unfold bind at 1. unfold print at 1, emit at 1. cbn beta iota.
        match goal with
        | |- context [list_from 0 ?cs ?w0] =>
            destruct (list_from_prints 0 cs w0) as (r & trb & -> & Hb)
        end.
        cbn. constructor; [done|]. apply Forall_app. split; [done|].
        constructor; [done|]. by constructor.
    + destruct (String.eqb arg "help"); cbn;
        (constructor; [done|]); (apply Forall_app; split; [done|]); repeat constructor.
  - cbn. constructor; [done|]. apply Forall_app. split; [done|]. repeat constructor.
Qed.

Lemma arguments_touch_no_process_witness :
  Forall (fun e => touches_process e = false)
    (events_of (run_main unchanged ["runner.py"; "help"])).
Proof.
  apply (arguments_touch_no_process unchanged "runner.py" ["help"]). discriminate.
Defined.

(** ** Handles and threads *)






(** A reconciliation records the list it read, whether or not it started
    anything, except when the list is empty: then the recorded list is
    kept. *)
Theorem recorded_list_follows_store (env : Env) (w : world) :
  data (self (world_of (_start_new_bots env w))) =
  match declared env w with
  | [] => data (self w)
  | _ :: _ => declared env w
  end.
Proof.
  destruct (start_new_bots_run env w) as (w' & trl & body & _ & _ & _ & H).
  destruct (declared env w) as [|c nd].
  - by rewrite H.
  - destruct H as (-> & _ & Hd & _). exact Hd.
Qed.

(** * Further properties of the reply post-processing *)

Import ReplyViews.

Lemma scan_before_gen http (pre : list pystr) (line : pystr) (rest : list pystr)
    (filtered_lines pfp : list pystr) :
  forallb (fun l => negb (is_gen l)) pre = true ->
  is_gen line = true ->
  scan http (pre ++ line :: rest) filtered_lines pfp =
  match gen_image http (image_prompt line) with
  | Returns image_data =>
      Returns (filtered_lines ++ List.filter (fun l => negb (is_see_pfp l)) pre,
               Some image_data,
               pfp ++ List.map requested (List.filter is_see_pfp pre))
  | Raises e => Raises e
  end.
Proof.
  intros Hpre Hline. revert filtered_lines pfp.
  induction pre as [|l pre IH]; intros filtered_lines pfp.
  - cbn [app scan]. rewrite Hline. unfold image_prompt.
    destruct (split_second_defined (str "Gen:") line Hline) as [after ->].
    destruct (gen_image http (strip after)); [|done].
    cbn. by rewrite !app_nil_r.
  - cbn [forallb] in Hpre. apply andb_true_iff in Hpre as [Hl Hpre].
    apply negb_true_iff in Hl. cbn [app scan]. rewrite Hl.
    specialize (IH Hpre). cbn [List.filter].
    destruct (is_see_pfp l) eqn:Hp; cbn [negb List.map].
    + destruct (split_second_defined (str "see_pfp:") l Hp) as [after Ha].
      assert (requested l = strip after) as -> by (unfold requested; by rewrite Ha).
      rewrite Ha, IH.
      destruct (gen_image http (image_prompt line)); [|done].
      by rewrite <- app_assoc.
    + rewrite IH.
      destruct (gen_image http (image_prompt line)); [|done].
      by rewrite <- app_assoc.
Qed.

Lemma scan_without_gen http (lines filtered_lines pfp : list pystr) :
  forallb (fun l => negb (is_gen l)) lines = true ->
  scan http lines filtered_lines pfp =
  Returns (filtered_lines ++ List.filter (fun l => negb (is_see_pfp l)) lines,
           None,
           pfp ++ List.map requested (List.filter is_see_pfp lines)).
Proof.
  revert filtered_lines pfp.
  induction lines as [|l lines IH]; intros filtered_lines pfp Hall.
  - cbn. by rewrite !app_nil_r.
  - cbn [forallb] in Hall. apply andb_true_iff in Hall as [Hl Hall].
    apply negb_true_iff in Hl. cbn [scan]. rewrite Hl.
    cbn [List.filter].
    destruct (is_see_pfp l) eqn:Hp; cbn [negb List.map].
    + destruct (split_second_defined (str "see_pfp:") l Hp) as [after Ha].
      assert (requested l = strip after) as -> by (unfold requested; by rewrite Ha).
      rewrite Ha, (IH _ _ Hall). by rewrite <- app_assoc.
    + rewrite (IH _ _ Hall). by rewrite <- app_assoc.
Qed.

(** At the first line that starts with ["Gen:"] the image is generated for
    the trimmed text after the prefix and the scan ends: what the image
    generation raises is raised, and otherwise the reply holds the image,
    the content made of the earlier lines only, and the profile-picture
    requests of the earlier lines only. *)
Theorem first_image_line_decides (http : pystr -> outcome (list Byte.byte))
    (response : pystr) (pre : list pystr) (line : pystr) (rest : list pystr) :
  scanned_lines response = pre ++ line :: rest ->
  forallb (fun l => negb (is_gen l)) pre = true ->
  is_gen line = true ->
  get_ai_response http response =
  match gen_image http (image_prompt line) with
  | Returns image_data =>
      Returns {| content :=
                   or_ok (join newline
                            (List.filter (fun l => negb (is_see_pfp l)) pre));
                 image := Some image_data;
                 pfp_requests := List.map requested (List.filter is_see_pfp pre) |}
  | Raises e => Raises e
  end.
Proof.
  intros Hlines Hpre Hline. unfold get_ai_response.
  fold (scanned_lines response). rewrite Hlines.
  rewrite (scan_before_gen http pre line rest [] [] Hpre Hline).
  by destruct (gen_image http (image_prompt line)).
Qed.

Lemma first_image_line_decides_witness :
  get_ai_response http_down (str "hi" ++ newline ++ str "Gen: a cat" ++ newline ++ str "bye") =
  Raises RequestException.
Proof.
  rewrite (first_image_line_decides http_down
             (str "hi" ++ newline ++ str "Gen: a cat" ++ newline ++ str "bye")
             [str "hi"] (str "Gen: a cat") [str "bye"]);
    reflexivity.
Defined.

Lemma before_gen_all (lines : list pystr) :
  forallb (fun l => negb (is_gen l)) lines = true -> before_gen lines = lines.
Proof.
  induction lines as [|l lines IH]; [done|].
  cbn [forallb]. intros [Hl Hall]%andb_true_iff.
  apply negb_true_iff in Hl. cbn [before_gen]. rewrite Hl. by rewrite IH.
Qed.

(** The post-processing of a text without any line that starts with
    ["Gen:"] returns a reply, without image; its requests are the trimmed
    user names of the lines that start with ["see_pfp:"], in order. *)
Lemma postprocessing_without_gen (http : pystr -> outcome (list Byte.byte))
    (response : pystr) :
  forallb (fun l => negb (is_gen l)) (scanned_lines response) = true ->
  get_ai_response http response =
  Returns {| content := or_ok (join newline (kept_lines response));
             image := None;
             pfp_requests :=
               List.map requested (List.filter is_see_pfp (scanned_lines response)) |}.
Proof.
  intros Hall. unfold get_ai_response, kept_lines.
  fold (scanned_lines response).
  rewrite (scan_without_gen http (scanned_lines response) [] [] Hall). cbn [app].
  by rewrite (before_gen_all _ Hall).
Qed.

(** An image line without a prompt makes [get_ai_response] raise
    [ValueError], whatever the image service would answer. *)
Theorem blank_image_prompt_raises (http : pystr -> outcome (list Byte.byte))
    (response : pystr) (pre : list pystr) (line : pystr) (rest : list pystr) :
  scanned_lines response = pre ++ line :: rest ->
  forallb (fun l => negb (is_gen l)) pre = true ->
  is_gen line = true ->
  image_prompt line = [] ->
  get_ai_response http response = Raises ValueError.
Proof.
  intros Hlines Hpre Hline Hblank. unfold get_ai_response.
  fold (scanned_lines response). rewrite Hlines.
  rewrite (scan_before_gen http pre line rest [] [] Hpre Hline).
  by rewrite Hblank.
Qed.

Lemma blank_image_prompt_raises_witness :
  get_ai_response http_ok (str "sure" ++ newline ++ str "  Gen:   ") = Raises ValueError.
Proof.
  apply (blank_image_prompt_raises http_ok (str "sure" ++ newline ++ str "  Gen:   ")
           [str "sure"] (str "  Gen:   ") []); reflexivity.
Defined.

(** ** The separator never reaches the content *)

Lemma partition_sound (sep s a b : pystr) :
  partition sep s = Some (a, b) -> s = a ++ sep ++ b.
Proof.
  revert a. induction s as [|c s IH]; intros a; cbn [partition].
  - destruct (startswith sep []) eqn:Hs; [|done].
    apply startswith_app in Hs as [x Hx]. intros [= <- <-].
    destruct sep; [|done]. cbn in Hx. by subst x.
  - destruct (startswith sep (c :: s)) eqn:Hs.
    + apply startswith_app in Hs as [x Hx]. intros [= <- <-].
      rewrite Hx, drop_app_length. done.
    + destruct (partition sep s) as [[a' b']|] eqn:Hp; [|done].
      intros [= <- <-]. cbn. f_equal. by apply IH.
Qed.

Lemma contains_spec (sep s : pystr) :
  contains sep s = true <-> exists a b, s = a ++ sep ++ b.
Proof.
  unfold contains. split.
  - destruct (partition sep s) as [[a b]|] eqn:Hp; [|done].
    intros _. exists a, b. by apply partition_sound.
  - intros (a & b & ->). by destruct (partition_found sep a b) as [[x y] ->].
Qed.

Lemma contains_false (sep s : pystr) :
  contains sep s = false <-> forall a b, s ≠ a ++ sep ++ b.
Proof.
  split.
  - intros H a b Hs. assert (contains sep s = true) as Ht; [|congruence].
    apply contains_spec. eauto.
  - intros H. destruct (contains sep s) eqn:Hc; [|done].
    apply contains_spec in Hc as (a & b & Hs). by destruct (H a b).
Qed.

(** The text before the first occurrence of a separator holds none. *)
Lemma partition_first (sep s a b : pystr) :
  sep ≠ [] -> partition sep s = Some (a, b) -> partition sep a = None.
Proof.
  intros Hsep. revert a. induction s as [|c s IH]; intros a; cbn [partition].
  - destruct (startswith sep []) eqn:Hs; [|done]. intros [= <- <-].
    destruct sep; done.
  - destruct (startswith sep (c :: s)) eqn:Hs.
    + intros [= <- <-]. destruct sep; done.
    + destruct (partition sep s) as [[a' b']|] eqn:Hp; [|done].
      intros [= <- <-]. cbn [partition]. rewrite (IH a' eq_refl).
      destruct (startswith sep (c :: a')) eqn:Hs'; [|done].
      apply startswith_app in Hs' as [x Hx].
      apply partition_sound in Hp. exfalso.
      assert (startswith sep (c :: s) = true) as Ht; [|congruence].
      apply startswith_app. exists (x ++ sep ++ b').
      rewrite Hp, app_comm_cons, Hx. by rewrite <- app_assoc.
Qed.

Lemma scanned_text_clean (sep response : pystr) :
  sep ≠ [] ->
  contains sep (if contains sep response then split_first sep response else response)
  = false.
Proof.
  intros Hsep. destruct (contains sep response) eqn:Hc; [|done].
  unfold split_first, contains in *.
  destruct (partition sep response) as [[a b]|] eqn:Hp; [|done].
  by rewrite (partition_first sep response a b Hsep Hp).
Qed.

(** Every line of [splitlines] is a piece of the text. *)
Lemma splitlines_from_infix (cur : pystr) (after_cr : bool) (s line : pystr) :
  In line (splitlines_from cur after_cr s) ->
  exists x y, cur ++ s = x ++ line ++ y.
Proof.
  revert cur after_cr. induction s as [|c s IH]; intros cur after_cr; cbn [splitlines_from].
  - destruct cur as [|c0 cur]; [done|]. intros [<-|[]].
    exists [], []. by rewrite !app_nil_r.
  - destruct (after_cr && N.eqb c 10).
    { intros H. destruct (IH _ _ H) as (x & y & Hxy). cbn in Hxy.
      exists (cur ++ c :: x), y. rewrite Hxy. by rewrite <- app_assoc. }
    destruct (is_linebreak c).
    + intros [<-|H].
      * exists [], (c :: s). done.
      * destruct (IH _ _ H) as (x & y & Hxy). cbn in Hxy.
        exists (cur ++ c :: x), y. rewrite Hxy. by rewrite <- app_assoc.
    + intros H. destruct (IH _ _ H) as (x & y & Hxy).
      exists x, y. rewrite <- Hxy. by rewrite <- app_assoc.
Qed.

Lemma infix_clean (sep x line y : pystr) :
  contains sep (x ++ line ++ y) = false -> contains sep line = false.
Proof.
  rewrite !contains_false. intros H a b ->. apply (H (x ++ a) (b ++ y)).
  by rewrite <- !app_assoc.
Qed.

(** A separator that does not hold a character cannot straddle it. *)
Lemma contains_across (sep u v : pystr) (n : N) :
  sep ≠ [] -> ¬ In n sep ->
  contains sep u = false -> contains sep v = false ->
  contains sep (u ++ n :: v) = false.
Proof.
  intros Hsep Hn Hu Hv. rewrite contains_false in *. intros a b Heq.
  apply app_eq_app in Heq as [l [[Hua Hsb]|[Hau Hnv]]].
  - symmetry in Hsb. apply app_eq_app in Hsb as [l2 [[Hl Hb]|[Hs Hnv]]].
    + apply (Hu a l2). by rewrite Hua, Hl.
    + destruct l2 as [|m l2].
      * rewrite app_nil_r in Hs. subst l. apply (Hu a []).
        by rewrite Hua, app_nil_r.
      * injection Hnv as <- _. apply Hn. rewrite Hs. apply in_or_app. right. by left.
  - destruct l as [|m l].
    + cbn in Hnv. destruct sep as [|m sep]; [done|]. injection Hnv as <- _.
      apply Hn. by left.
    + injection Hnv as _ Hv'. by apply (Hv l b).
Qed.

Lemma join_clean (sep : pystr) (n : N) (lines : list pystr) :
  sep ≠ [] -> ¬ In n sep ->
  (forall l, In l lines -> contains sep l = false) ->
  contains sep (join [n] lines) = false.
Proof.
  intros Hsep Hn. induction lines as [|x lines IH]; intros Hall.
  - cbn. apply contains_false. intros a b Heq.
    destruct a; [destruct sep|]; done.
  - destruct lines as [|y lines]; [apply Hall; by left|].
    change (join [n] (x :: y :: lines)) with (x ++ n :: join [n] (y :: lines)).
    apply contains_across; try done.
    + apply Hall. by left.
    + apply IH. intros l Hl. apply Hall. by right.
Qed.

Lemma before_gen_incl (lines : list pystr) (l : pystr) :
  In l (before_gen lines) -> In l lines.
Proof.
  induction lines as [|x lines IH]; [done|]. cbn [before_gen].
  destruct (is_gen x); [done|]. intros [->|H]; [by left|right; by apply IH].
Qed.

(** The content of a reply never holds the separator ["---"]: what follows
    its first occurrence is dropped, and joining the kept lines cannot make
    a new one. *)
Theorem content_has_no_separator (http : pystr -> outcome (list Byte.byte))
    (response : pystr) (r : reply) :
  get_ai_response http response = Returns r ->
  contains (str "---") (content r) = false.
Proof.
  unfold get_ai_response. fold (scanned_lines response).
  pose proof (scan_spec http (scanned_lines response) [] []) as Hscan.
  destruct (scan http (scanned_lines response) [] []) as [[[kept img] reqs]|e];
    [|done].
  cbn [app] in Hscan. subst kept. intros [= <-]. cbn [content].
  assert (contains (str "---")
            (join newline (List.filter (fun line => negb (is_see_pfp line))
                             (before_gen (scanned_lines response)))) = false) as Hj.
  { apply (join_clean (str "---") 10%N); [done| |].
    - cbn. intros [?|[?|[?|[]]]]; done.
    - intros l Hl. apply filter_In in Hl as [Hl _]. apply before_gen_incl in Hl.
      unfold scanned_lines, splitlines in Hl.
      apply splitlines_from_infix in Hl as (x & y & Hxy). cbn [app] in Hxy.
      apply (infix_clean _ x l y). rewrite <- Hxy.
      by apply scanned_text_clean. }
  destruct (join newline _) eqn:Hjoin; [reflexivity|exact Hj].
Qed.

Lemma content_has_no_separator_witness :
  contains (str "---") (str "a--" ++ newline ++ str "-b") = false.
Proof.
  apply (content_has_no_separator http_ok
           (str "a--" ++ newline ++ str "see_pfp: x" ++ newline ++ str "-b---c")
           {| content := str "a--" ++ newline ++ str "-b"; image := None;
              pfp_requests := [str "x"] |}).
  reflexivity.
Defined.

(** * Properties of the conversation histories *)

Import Chat.

Lemma ensure_loop_spec (fuel : nat) (histories : list json) (bot_id : Z) (prompt : json) :
  (bot_id + 1 - Z.of_nat (length histories) <= Z.of_nat fuel)%Z ->
  ensure_loop fuel histories bot_id prompt =
  histories ++
  replicate (Z.to_nat (bot_id + 1 - Z.of_nat (length histories))) (JList [prompt]).
Proof.
  revert histories. induction fuel as [|fuel IH]; intros histories Hfuel; cbn [ensure_loop].
  - replace (Z.to_nat _) with 0 by lia. by rewrite app_nil_r.
  - destruct (Z.leb_spec (Z.of_nat (length histories)) bot_id) as [Hle|Hgt].
    + rewrite IH by (rewrite length_app; cbn; lia).
      rewrite length_app. cbn [length].
      replace (Z.to_nat (bot_id + 1 - Z.of_nat (length histories)))
        with (S (Z.to_nat (bot_id + 1 - Z.of_nat (length histories + 1)))) by lia.
      cbn. by rewrite <- app_assoc.
    + replace (Z.to_nat _) with 0 by lia. by rewrite app_nil_r.
Qed.

Lemma ensure_history_exists_run (self : ChatManager) (histories : list json)
    (bot_id : Z) (personality : string) :
  _ensure_history_exists self histories bot_id personality =
    histories ++
    replicate (Z.to_nat (bot_id + 1 - Z.of_nat (length histories)))
      (JList [system_prompt self personality]) /\
  (bot_id < Z.of_nat (length (_ensure_history_exists self histories bot_id personality)))%Z.
Proof.
  unfold _ensure_history_exists. rewrite ensure_loop_spec by lia.
  split; [done|]. rewrite length_app, length_replicate. lia.
Qed.

(** [_ensure_history_exists] appends single-prompt histories until the list
    reaches index [bot_id], and touches none of the histories that were
    there; for a negative [bot_id] it does nothing. *)
Theorem ensure_history_exists_extends (self : ChatManager) (histories : list json)
    (bot_id : Z) (personality : string) :
  _ensure_history_exists self histories bot_id personality =
    histories ++
    replicate (Z.to_nat (bot_id + 1 - Z.of_nat (length histories)))
      (JList [system_prompt self personality]) /\
  (bot_id < Z.of_nat (length (_ensure_history_exists self histories bot_id personality)))%Z.
Proof. exact (ensure_history_exists_run self histories bot_id personality). Qed.

Lemma load_cap (d : disk) (histories : list json) :
  _load_all_histories d = Some histories ->
  length histories <= 500 /\
  exists older, stored d = older ++ histories /\
                (length (stored d) <= 500 -> older = []).
Proof.
  unfold _load_all_histories, stored.
  destruct (chat_json d) as [| |data].
  - intros [= <-]. split; [cbn; lia|]. by exists [].
  - done.
  - destruct data; try done.
    + intros [= <-]. split; [cbn; lia|]. by exists [].
    + destruct (Nat.ltb_spec 500 (length l)) as [Hlong|Hshort]; intros [= <-].
      * unfold last_500. split; [rewrite length_drop; lia|].
        exists (take (length l - 500) l). split; [by rewrite take_drop|]. lia.
      * split; [done|]. by exists [].
    + destruct (500 <? length items); [done|]. intros [= <-].
      split; [cbn; lia|]. by exists [].
Qed.

(** [_load_all_histories] never returns more than 500 histories: what it
    returns is the end of the stored list, all of it when it has at most 500
    histories and exactly the last 500 when it has more. *)
Theorem load_keeps_last_500 (d : disk) (histories : list json) :
  _load_all_histories d = Some histories ->
  length histories <= 500 /\
  (exists older, stored d = older ++ histories /\
                 (length (stored d) <= 500 -> older = [])) /\
  (500 < length (stored d) -> length histories = 500).
Proof.
  intros Hload. destruct (load_cap d histories Hload) as [Hcap Hend].
  split; [done|]. split; [done|].
  destruct Hend as (older & Hstored & _). intros Hlong.
  revert Hload Hlong. unfold _load_all_histories, stored.
  destruct (chat_json d) as [| |[| | | | |l|]]; cbn [length]; try lia.
  intros Hload Hlong. apply Nat.ltb_lt in Hlong as Hlt. rewrite Hlt in Hload.
  injection Hload as <-. unfold last_500. rewrite length_drop. lia.
Qed.

(** Of 501 stored histories the first is left out and the 500 others are
    loaded. *)
Lemma load_keeps_last_500_witness :
  _load_all_histories crowded = Some (List.map numbered (seq 1 500)) /\
  stored crowded = [numbered 0] ++ List.map numbered (seq 1 500) /\
  length (List.map numbered (seq 1 500)) = 500.
Proof.
  assert (_load_all_histories crowded = Some (List.map numbered (seq 1 500))) as Hload
    by (vm_compute; reflexivity).
  split; [exact Hload|]. split; [vm_compute; reflexivity|].
  apply (load_keeps_last_500 crowded (List.map numbered (seq 1 500)) Hload).
  apply Nat.ltb_lt. vm_compute. reflexivity.
Defined.

Lemma py_index_in_range (len : nat) (i : Z) :
  (0 <= i < Z.of_nat len)%Z -> py_index len i = Some (Z.to_nat i).
Proof.
  intros [H0 Hlt]. unfold py_index.
  destruct (Z.leb_spec 0 i); [|lia]. destruct (Z.ltb_spec i (Z.of_nat len)); [done|lia].
Qed.

(** The history [add_to_history] finds for a bot: the stored one, or a new
    one that holds the default system prompt. *)
Lemma add_to_history_run (self : ChatManager) (message : string) (bot_id : Z)
    (image_urls : list string) (d : disk) (histories : list json) :
  writable d = true ->
  _load_all_histories d = Some histories ->
  (0 <= bot_id)%Z ->
  (forall c, histories !! Z.to_nat bot_id = Some c -> exists messages, c = JList messages) ->
  exists earlier,
    (match histories !! Z.to_nat bot_id with
     | Some c => c = JList earlier
     | None => earlier = [system_prompt self ""]
     end) /\
    add_to_history self message bot_id image_urls d =
      Some (true,
            {| chat_json :=
                 Holds (JList (<[Z.to_nat bot_id :=
                                   JList (earlier ++ [user_message message image_urls])]>
                                 (_ensure_history_exists self histories bot_id "")));
               writable := true |}).
Proof.
  intros Hw Hload Hpos Hlist. unfold add_to_history. rewrite Hload. cbv zeta.
  destruct (ensure_history_exists_run self histories bot_id "") as [Hens Hlen].
  rewrite py_index_in_range by lia.
  destruct (histories !! Z.to_nat bot_id) as [c|] eqn:Hc.
  - destruct (Hlist c eq_refl) as [messages ->]. exists messages. split; [done|].
    assert (_ensure_history_exists self histories bot_id "" !! Z.to_nat bot_id =
            Some (JList messages)) as ->.
    { rewrite Hens, lookup_app_l by (by eapply lookup_lt_Some). done. }
    unfold _save_all_histories. by rewrite Hw.
  - exists [system_prompt self ""]. split; [done|].
    apply lookup_ge_None in Hc.
    assert (_ensure_history_exists self histories bot_id "" !! Z.to_nat bot_id =
            Some (JList [system_prompt self ""])) as ->.
    { rewrite Hens, lookup_app_r by done. by rewrite lookup_replicate_2 by lia. }
    unfold _save_all_histories. by rewrite Hw.
Qed.

(** Adding a message and reading the history back: for a bot index below
    500, on a disk that can be written and whose entry for the bot, if any,
    is a list, [add_to_history] returns [True] and [get_chat_history] then
    yields the earlier messages (or the default system prompt when the
    history is new) followed by the message. *)
Theorem add_then_get_history (self : ChatManager) (message : string) (bot_id : Z)
    (image_urls : list string) (personality : string) (d : disk)
    (histories : list json) :
  writable d = true ->
  _load_all_histories d = Some histories ->
  (0 <= bot_id < 500)%Z ->
  (forall c, histories !! Z.to_nat bot_id = Some c -> exists messages, c = JList messages) ->
  exists d' earlier,
    add_to_history self message bot_id image_urls d = Some (true, d') /\
    (match histories !! Z.to_nat bot_id with
     | Some c => c = JList earlier
     | None => earlier = [system_prompt self ""]
     end) /\
    get_chat_history self bot_id personality d' =
      Some (JList (earlier ++ [user_message message image_urls])).
Proof.
  intros Hw Hload [Hpos H500] Hlist.
  destruct (add_to_history_run self message bot_id image_urls d histories
              Hw Hload Hpos Hlist) as (earlier & Hearlier & ->).
  eexists _, earlier. split; [done|]. split; [done|].
  destruct (ensure_history_exists_run self histories bot_id "") as [Hens Hlen].
  destruct (load_cap d histories Hload) as [Hcap _].
  unfold get_chat_history, _load_all_histories. cbn [chat_json].
  set (saved := <[Z.to_nat bot_id := _]> _).
  assert (length saved = length (_ensure_history_exists self histories bot_id "")) as Hsaved
    by apply length_insert.
  assert (length saved <= 500) as Hshort.
  { rewrite Hsaved, Hens, length_app, length_replicate. lia. }
  destruct (Nat.ltb_spec 500 (length saved)); [lia|]. cbv zeta.
  destruct (ensure_history_exists_run self saved bot_id personality) as [Hens' _].
  rewrite Hens'. replace (Z.to_nat _) with 0 by lia. cbn [replicate].
  rewrite app_nil_r. rewrite py_index_in_range by lia.
  unfold saved. rewrite list_lookup_insert_eq by lia. done.
Qed.

Lemma add_then_get_history_witness :
  exists d',
    add_to_history (ChatManager_init "") "hello" 0 [] one_history = Some (true, d') /\
    get_chat_history (ChatManager_init "") 0 "kind" d' =
      Some (JList [JDict [("role", JStr "system")];
                   JDict [("role", JStr "user"); ("content", JStr "hello")]]).
Proof.
  destruct (add_then_get_history (ChatManager_init "") "hello" 0 [] "kind" one_history
              [JList [JDict [("role", JStr "system")]]])
    as (d' & earlier & Hadd & Hearlier & Hget).
  - reflexivity.
  - reflexivity.
  - lia.
  - intros c [= <-]. by eexists.
  - cbn in Hearlier. injection Hearlier as <-. by exists d'.
Defined.

(** [add_to_history] changes the history of its bot only: every other
    stored history is on disk as it was. *)
Theorem add_keeps_other_histories (self : ChatManager) (message : string) (bot_id : Z)
    (image_urls : list string) (d : disk) (histories : list json) (j : nat) :
  writable d = true ->
  _load_all_histories d = Some histories ->
  (0 <= bot_id)%Z ->
  (forall c, histories !! Z.to_nat bot_id = Some c -> exists messages, c = JList messages) ->
  j ≠ Z.to_nat bot_id ->
  j < length histories ->
  exists d',
    add_to_history self message bot_id image_urls d = Some (true, d') /\
    stored d' !! j = histories !! j.
Proof.
  intros Hw Hload Hpos Hlist Hj Hlt.
  destruct (add_to_history_run self message bot_id image_urls d histories
              Hw Hload Hpos Hlist) as (earlier & _ & ->).
  eexists. split; [done|]. unfold stored. cbn [chat_json].
  rewrite list_lookup_insert_ne by done.
  destruct (ensure_history_exists_run self histories bot_id "") as [-> _].
  by rewrite lookup_app_l.
Qed.

Lemma add_keeps_other_histories_witness :
  exists d',
    add_to_history (ChatManager_init "") "hello" 1 [] one_history = Some (true, d') /\
    stored d' !! 0 = Some (JList [JDict [("role", JStr "system")]]).
Proof.
  destruct (add_keeps_other_histories (ChatManager_init "") "hello" 1 [] one_history
              [JList [JDict [("role", JStr "system")]]] 0) as (d' & Hadd & Hkeep).
  - reflexivity.
  - reflexivity.
  - lia.
  - intros c Hc. discriminate Hc.
  - discriminate.
  - cbn. lia.
  - by exists d'.
Defined.

(** [clear_history] on a stored history replaces it by the system prompt
    (with the personality) alone, keeps the others, and returns [True]; on
    an index beyond the stored histories it returns [True] and writes
    nothing. *)
Theorem clear_history_resets (self : ChatManager) (bot_id : Z) (personality : string)
    (d : disk) (histories : list json) :
  _load_all_histories d = Some histories ->
  (0 <= bot_id)%Z ->
  if (bot_id <? Z.of_nat (length histories))%Z
  then writable d = true ->
       exists d',
         clear_history self bot_id personality d = Some (true, d') /\
         stored d' =
           <[Z.to_nat bot_id := JList [system_prompt self personality]]> histories
  else clear_history self bot_id personality d = Some (true, d).
Proof.
  intros Hload Hpos. unfold clear_history. rewrite Hload.
  destruct (Z.ltb_spec bot_id (Z.of_nat (length histories))) as [Hlt|Hge]; [|done].
  intros Hw. rewrite py_index_in_range by lia.
  unfold _save_all_histories. rewrite Hw. by eexists.
Qed.

Lemma clear_history_resets_witness :
  exists d',
    clear_history (ChatManager_init "") 0 "" one_history = Some (true, d') /\
    stored d' = [JList [system_prompt (ChatManager_init "") ""]].
Proof.
  pose proof (clear_history_resets (ChatManager_init "") 0 "" one_history
                [JList [JDict [("role", JStr "system")]]] eq_refl) as H.
  cbn [length Z.of_nat Z.ltb Z.compare Pos.of_succ_nat] in H.
  apply H; [lia|reflexivity].
Defined.

(** * Properties of the worker *)

Import Worker WorkerViews.

Lemma dict_lookup_app (key k : string) (v : json) (items : list (string * json)) :
  dict_lookup key (items ++ [(k, v)]) =
  match dict_lookup key items with
  | Some x => Some x
  | None => if String.eqb k key then Some v else None
  end.
Proof.
  induction items as [|[k0 v0] items IH]; cbn; [done|].
  by destruct (String.eqb k0 key).
Qed.

Lemma dict_lookup_setdefault (key k : string) (v : json) (items : list (string * json)) :
  dict_lookup key (dict_setdefault k v items) =
  match dict_lookup key items with
  | Some x => Some x
  | None => if String.eqb k key then Some v else None
  end.
Proof.
  unfold dict_setdefault. destruct (dict_lookup k items) as [x|] eqn:Hk.
  - destruct (dict_lookup key items) eqn:Hkey; [done|].
    destruct (String.eqb k key) eqn:E; [|done].
    apply String.eqb_eq in E. congruence.
  - apply dict_lookup_app.
Qed.

Lemma require_fields_record (fields : list string) (d : list (string * json)) :
  require_fields fields (JDict d) =
  if forallb (fun field => bool_decide (is_Some (dict_lookup field d))) fields
  then inr tt else inl BadValue.
Proof.
  induction fields as [|field rest IH]; cbn; [done|].
  by destruct (bool_decide (is_Some (dict_lookup field d))).
Qed.

Lemma load_config_record (l : list json) (i : nat) (d : list (string * json)) :
  l !! i = Some (JDict d) ->
  _load_config (Parsed (JList l)) (Z.of_nat i) =
  if has_required d
  then Loaded (JDict (dict_setdefault "temperature" (JFloat float_0_7)
                        (dict_setdefault "max_tokens" (JInt 1000)
                           (dict_setdefault "msg_chance" (JInt 5) d))))
  else Exits 1.
Proof.
  intros Hi. pose proof (lookup_lt_Some _ _ _ Hi) as Hlt.
  unfold _load_config, load_config_body.
  destruct (Z.leb_spec (Z.of_nat (length l)) (Z.of_nat i)); [lia|].
  rewrite py_index_in_range by lia. rewrite Nat2Z.id, Hi.
  rewrite require_fields_record. fold (has_required d).
  by destruct (has_required d).
Qed.

(** For a slot that holds a record, [_load_config] exits with status 1 when
    a required field is missing, and otherwise returns the record with the
    three defaults filled in: a key of the stored record keeps its value,
    and of the missing keys only [msg_chance], [max_tokens] and
    [temperature] are set, to 5, 1000 and 0.7. *)
Theorem load_config_fills_defaults (l : list json) (i : nat) (d : list (string * json)) :
  l !! i = Some (JDict d) ->
  if has_required d
  then exists items,
         _load_config (Parsed (JList l)) (Z.of_nat i) = Loaded (JDict items) /\
         forall key, dict_lookup key items =
                     match dict_lookup key d with
                     | Some v => Some v
                     | None => default_for key
                     end
  else _load_config (Parsed (JList l)) (Z.of_nat i) = Exits 1.
Proof.
  intros Hi. rewrite (load_config_record l i d Hi).
  destruct (has_required d); [|done].
  eexists. split; [done|]. intros key. rewrite !dict_lookup_setdefault.
  unfold default_for. destruct (dict_lookup key d); [done|].
  rewrite !(String.eqb_sym key).
  destruct (String.eqb "msg_chance" key); [done|].
  destruct (String.eqb "max_tokens" key); done.
Qed.

Lemma load_config_fills_defaults_witness :
  exists items,
    _load_config (Parsed (JList [bot "A" 20])) 0 = Loaded (JDict items) /\
    dict_lookup "msg_chance" items = Some (JInt 20) /\
    dict_lookup "max_tokens" items = Some (JInt 1000).
Proof.
  pose proof (load_config_fills_defaults [bot "A" 20] 0
                [("bot_token", JStr "t"); ("model", JStr "A");
                 ("personality", JStr "p"); ("msg_chance", JInt 20)] eq_refl) as H.
  cbn [has_required forallb required_fields] in H.
  destruct H as (items & Hload & Hkeys).
  exists items. split; [exact Hload|]. split; apply Hkeys.
Defined.

Lemma load_config_loaded_inv (l : list json) (i : nat) (c : json) (config : json) :
  l !! i = Some c ->
  _load_config (Parsed (JList l)) (Z.of_nat i) = Loaded config ->
  exists d, c = JDict d /\ has_required d = true.
Proof.
  intros Hi. pose proof (lookup_lt_Some _ _ _ Hi) as Hlt.
  destruct c as [| | | | | |d].
  7:{ rewrite (load_config_record l i d Hi).
      destruct (has_required d) eqn:Hd; [|done]. intros _. by exists d. }
  all: unfold _load_config, load_config_body;
    (destruct (Z.leb_spec (Z.of_nat (length l)) (Z.of_nat i)); [lia|]);
    rewrite py_index_in_range by lia; rewrite Nat2Z.id, Hi; cbn; try done.
  all: repeat case_match; done.
Qed.

(** The supervisor and the worker agree on a slot: on the same content of
    the store, [_validate_bot_config] accepts the config of a slot exactly
    when [_load_config], run by the worker for that slot, returns a config
    instead of exiting. *)
Theorem supervisor_and_worker_agree (l : list json) (i : nat) (c : json) (w : world) :
  l !! i = Some c ->
  accepted (result_of (_validate_bot_config c i w)) =
  is_loaded (_load_config (Parsed (JList l)) (Z.of_nat i)).
Proof.
  intros Hi. destruct (is_record c) eqn:Hrec.
  - destruct c; try discriminate.
    destruct (validate_record_run items i w) as (d' & tr & Hrun & _ & _).
    unfold result_of. rewrite Hrun. cbn [fst accepted].
    rewrite (load_config_record l i items Hi). by destruct (has_required items).
  - rewrite (validate_non_record_run c i w Hrec).
    destruct (_load_config (Parsed (JList l)) (Z.of_nat i)) eqn:Hload; try done.
    destruct (load_config_loaded_inv l i c config Hi Hload) as (d & -> & _). done.
Qed.

Lemma supervisor_and_worker_agree_witness :
  accepted (result_of (_validate_bot_config (JStr "bot_token model personality") 0 boot)) =
  is_loaded (_load_config (Parsed (JList [JStr "bot_token model personality"])) 0).
Proof.
  apply (supervisor_and_worker_agree [JStr "bot_token model personality"] 0
           (JStr "bot_token model personality") boot).
  reflexivity.
Defined.

(** ** Chunked replies *)

Lemma chunks_concat (c n : nat) (s : Ai.pystr) :
  length s <= n * c ->
  concat (List.map (fun i => take c (drop i s)) (List.map (fun k => k * c) (seq 0 n))) = s.
Proof.
  revert s. induction n as [|n IH]; intros s Hlen.
  - destruct s; [done|cbn in Hlen; lia].
  - cbn [seq List.map concat]. cbn [Nat.mul drop].
    rewrite <- fmap_S_seq.
    change (S <$> seq 0 n) with (List.map S (seq 0 n)).
    rewrite !List.map_map.
    rewrite (List.map_ext _ (fun k => take c (drop (k * c) (drop c s)))).
    + rewrite <- (List.map_map (fun k => k * c) (fun i => take c (drop i (drop c s)))).
      rewrite IH by (rewrite length_drop; lia). apply take_drop.
    + intros k. rewrite drop_drop. done.
Qed.

Lemma ceil_bounds (len c : nat) :
  0 < c ->
  len <= (len + c - 1) / c * c /\ ((len + c - 1) / c) * c < len + c.
Proof.
  intros Hc. pose proof (Nat.div_mod_eq (len + c - 1) c) as Hdm.
  pose proof (Nat.mod_upper_bound (len + c - 1) c) as Hm. nia.
Qed.

Lemma imap_reply_send (chunk : Ai.pystr) (chunks : list Ai.pystr) :
  imap (fun i x => if i =? 0 then Reply x else Send x) (chunk :: chunks) =
  Reply chunk :: List.map Send chunks.
Proof.
  rewrite imap_cons. cbn. f_equal.
  rewrite (imap_ext _ (const Send)) by done. apply imap_const.
Qed.

(** [_send_chunked_response] with a positive chunk size sends the response
    whole: the first message is a reply, the others are plain sends, their
    texts put together are the response, none is longer than the chunk size,
    and none is empty unless the response is. *)
Theorem chunks_cover_response (response : Ai.pystr) (chunk_size : nat) :
  0 < chunk_size ->
  exists first others,
    _send_chunked_response response chunk_size =
      Some (Reply first :: List.map Send others) /\
    concat (first :: others) = response /\
    Forall (fun chunk => length chunk <= chunk_size) (first :: others) /\
    (response ≠ [] -> Forall (fun chunk => chunk ≠ []) (first :: others)).
Proof.
  intros Hc. unfold _send_chunked_response.
  destruct (Nat.leb_spec (length response) chunk_size) as [Hshort|Hlong].
  { exists response, []. split; [done|]. split; [cbn; by rewrite app_nil_r|].
    split; repeat constructor; done. }
  destruct (Nat.eqb_spec chunk_size 0) as [|_]; [lia|]. cbv zeta.
  unfold range_step.
  destruct (ceil_bounds (length response) chunk_size Hc) as [Hup Hlow].
  set (n := (length response + chunk_size - 1) / chunk_size) in *.
  assert (0 < n) as Hn by (destruct n; [lia|lia]).
  pose proof (chunks_concat chunk_size n response Hup) as Hcat.
  assert (Forall (fun chunk : Ai.pystr => length chunk <= chunk_size /\ chunk ≠ [])
            (List.map (fun i => take chunk_size (drop i response))
               (List.map (fun k => k * chunk_size) (seq 0 n)))) as Hall.
  { rewrite List.map_map. apply Forall_forall. intros chunk Hin.
    apply list_elem_of_In, in_map_iff in Hin as (k & <- & Hk).
    apply in_seq in Hk. split; [rewrite length_take; lia|].
    intros Hempty. apply (f_equal length) in Hempty.
    rewrite length_take, length_drop in Hempty. cbn in Hempty. nia. }
  destruct (List.map (fun i => take chunk_size (drop i response))
              (List.map (fun k => k * chunk_size) (seq 0 n))) as [|first others] eqn:Hch.
  { destruct n; [lia|]. discriminate Hch. }
  exists first, others. rewrite imap_reply_send.
  split; [done|]. split; [done|]. split.
  - eapply Forall_impl; [exact Hall|]. by intros chunk [? _].
  - intros _. eapply Forall_impl; [exact Hall|]. by intros chunk [_ ?].
Qed.

Lemma chunks_cover_response_witness :
  exists first others,
    _send_chunked_response (Ai.str "abcdefg") 3 =
      Some (Reply first :: List.map Send others) /\
    concat (first :: others) = Ai.str "abcdefg".
Proof.
  destruct (chunks_cover_response (Ai.str "abcdefg") 3) as (first & others & H1 & H2 & _).
  - lia.
  - by exists first, others.
Defined.

(** ** The commands *)

Lemma remove_loop_raises (bot_start : Ai.pystr) (items : list json) (data : json) :
  items ≠ [] -> remove_loop bot_start items data = None.
Proof.
  destruct items as [|bot rest]; [done|]. intros _. cbn.
  by destruct (subscript bot "bot_token").
Qed.

(** The command [remove] never removes a bot: whatever the prefix given,
    the store holds afterwards what it held before; and on a store that
    holds a list with at least one bot, with a prefix of seven characters or
    more, the command raises instead of finishing. *)
Theorem remove_never_removes (bot_start : Ai.pystr) (st : store) :
  data_json (store_after (remove bot_start st)) = data_json st /\
  forall bot rest,
    data_json st = Chat.Holds (JList (bot :: rest)) ->
    7 <= length bot_start ->
    outcome_of (remove bot_start st) = Raised.
Proof.
  unfold remove, store_after, outcome_of. split.
  - destruct (length bot_start <? 7); [done|].
    destruct (data_json st) as [| |data] eqn:Hst; [done|done|].
    destruct (iterate data) as [items|]; [|done].
    destruct items as [|bot rest].
    + cbn. by destruct (can_write st).
    + by rewrite remove_loop_raises.
  - intros bot rest Hst Hlen.
    destruct (Nat.ltb_spec (length bot_start) 7); [lia|].
    rewrite Hst. cbn [iterate]. by rewrite remove_loop_raises.
Qed.

Lemma remove_never_removes_witness :
  outcome_of (remove (Ai.str "token-o") one_bot) = Raised.
Proof.
  destruct (remove_never_removes (Ai.str "token-o") one_bot) as [_ H].
  apply (H (data_conf "token-one" "openai" "calm") []); [reflexivity|cbn; lia].
Defined.

(** A bot made by the command [create] is appended to the stored list, is
    accepted by the supervisor without any warning, and is loaded by the
    worker started for its slot, with a response chance of 0 and the
    defaults for the token budget and the temperature. *)
Theorem created_bot_starts (bot_token model personality : string) (st : store)
    (l : list json) (w : world) :
  data_json st = Chat.Holds (JList l) ->
  can_write st = true ->
  let conf := data_conf bot_token model personality in
  create true bot_token model personality st =
    (Finished, {| data_json := Chat.Holds (JList (l ++ [conf])); can_write := true |},
     [Created_successfully]) /\
  _validate_bot_config conf (length l) w = (Ok (true, conf), w, []) /\
  exists items,
    _load_config (Parsed (JList (l ++ [conf]))) (Z.of_nat (length l)) =
      Loaded (JDict items) /\
    dict_lookup "msg_chance" items = Some (JInt 0) /\
    dict_lookup "max_tokens" items = Some (JInt 1000) /\
    dict_lookup "temperature" items = Some (JFloat float_0_7).
Proof.
  intros Hst Hw conf. split; [|split].
  - unfold create. cbn [negb]. by rewrite Hst, Hw.
  - reflexivity.
  - assert ((l ++ [conf]) !! length l = Some conf) as Hi.
    { rewrite lookup_app_r by done. by rewrite Nat.sub_diag. }
    rewrite (load_config_record (l ++ [conf]) (length l) _ Hi).
    cbn [has_required forallb required_fields dict_lookup]. cbn.
    eexists. split; [reflexivity|]. done.
Qed.

Lemma created_bot_starts_witness :
  outcome_of (create true "token-two" "openai" "wry" one_bot) = Finished.
Proof.
  destruct (created_bot_starts "token-two" "openai" "wry" one_bot
              [data_conf "token-one" "openai" "calm"] boot eq_refl eq_refl)
    as (Hcreate & _).
  unfold outcome_of. by rewrite Hcreate.
Defined.

(** ** Answering *)

(** With a response chance of 0 or less, as a bot made by [create] has, the
    worker answers a message only when it is addressed (mentioned, or named
    in the text); with a chance of 100 or more it answers every message. *)
Theorem response_chance_extremes (lower : Ai.pystr -> Ai.pystr) (roll : Z)
    (d : list (string * json)) (n : Z) (me : user) (m : message) :
  dict_lookup "msg_chance" d = Some (JInt n) ->
  (1 <= roll <= 100)%Z ->
  ((n <= 0)%Z ->
   _should_respond_to_message lower roll (JDict d) me m = Some (addressed lower me m)) /\
  ((100 <= n)%Z ->
   _should_respond_to_message lower roll (JDict d) me m = Some true).
Proof.
  intros Hd Hroll. unfold _should_respond_to_message, addressed. rewrite Hd. cbn.
  split; intros Hn.
  - destruct (existsb _ (mentions m)); [done|].
    destruct (Ai.contains _ _); [done|]. cbn. f_equal. lia.
  - destruct (existsb _ (mentions m)); [done|].
    destruct (Ai.contains _ _); [done|]. f_equal. lia.
Qed.

Lemma response_chance_extremes_witness :
  _should_respond_to_message (fun s => s) 1 (data_conf "token-two" "openai" "wry")
    ada small_talk = Some false.
Proof.
  destruct (response_chance_extremes (fun s => s) 1
              [("bot_token", JStr "token-two"); ("model", JStr "openai");
               ("msg_chance", JInt 0); ("personality", JStr "wry")] 0 ada small_talk)
    as [H _].
  - reflexivity.
  - lia.
  - unfold data_conf. rewrite H; [reflexivity|lia].
Defined.

(** * Properties of the whole exchange *)

Import Exchange.

Lemma ensured_entry (self : ChatManager) (histories : list json) (bot_id : Z)
    (personality : string) :
  (0 <= bot_id)%Z ->
  (forall c, histories !! Z.to_nat bot_id = Some c -> exists messages, c = JList messages) ->
  exists earlier,
    (match histories !! Z.to_nat bot_id with
     | Some c => c = JList earlier
     | None => earlier = [system_prompt self personality]
     end) /\
    _ensure_history_exists self histories bot_id personality !! Z.to_nat bot_id =
      Some (JList earlier) /\
    py_index (length (_ensure_history_exists self histories bot_id personality)) bot_id =
      Some (Z.to_nat bot_id).
Proof.
  intros Hpos Hlist.
  destruct (ensure_history_exists_run self histories bot_id personality) as [Hens Hlen].
  destruct (histories !! Z.to_nat bot_id) as [c|] eqn:Hc.
  - destruct (Hlist c eq_refl) as [messages ->]. exists messages. split; [done|].
    split; [|by apply py_index_in_range].
    rewrite Hens, lookup_app_l by (by eapply lookup_lt_Some). done.
  - exists [system_prompt self personality]. split; [done|].
    split; [|by apply py_index_in_range].
    apply lookup_ge_None in Hc.
    rewrite Hens, lookup_app_r by done. by rewrite lookup_replicate_2 by lia.
Qed.

Lemma saved_entry (self : ChatManager) (histories : list json) (bot_id : Z)
    (personality personality' : string) (entry : list json) :
  (0 <= bot_id < 500)%Z ->
  length histories <= 500 ->
  get_chat_history self bot_id personality'
    {| chat_json :=
         Holds (JList (<[Z.to_nat bot_id := JList entry]>
                         (_ensure_history_exists self histories bot_id personality)));
       writable := true |} = Some (JList entry).
Proof.
  intros [Hpos H500] Hcap.
  destruct (ensure_history_exists_run self histories bot_id personality) as [Hens Hlen].
  unfold get_chat_history, _load_all_histories. cbn [chat_json].
  set (saved := <[Z.to_nat bot_id := _]> _).
  assert (length saved = length (_ensure_history_exists self histories bot_id personality))
    as Hsaved by apply length_insert.
  assert (length saved <= 500) as Hshort.
  { rewrite Hsaved, Hens, length_app, length_replicate. lia. }
  destruct (Nat.ltb_spec 500 (length saved)); [lia|]. cbv zeta.
  destruct (ensure_history_exists_run self saved bot_id personality') as [Hens' _].
  rewrite Hens'. replace (Z.to_nat _) with 0 by lia. cbn [replicate].
  rewrite app_nil_r. rewrite py_index_in_range by lia.
  unfold saved. rewrite list_lookup_insert_eq by lia. done.
Qed.

(** The exchange is on disk before the response is post-processed.  When
    the completion yields a text, [get_ai_response] returns or raises what
    the post-processing of that text returns or raises, and in both cases
    the history of the bot then ends with the user message and the
    assistant message that holds the response as it came, tool lines and
    text after ["---"] included. *)
Theorem exchange_stored_before_postprocessing (self : ChatManager)
    (complete : string -> list json -> json -> json -> completion)
    (http : Ai.pystr -> Ai.outcome (list Byte.byte))
    (query : string) (bot_id : Z) (model personality : string)
    (max_tokens temperature : json) (image_urls : list string) (d : disk)
    (histories : list json) (response : Ai.pystr) (raw : string) :
  writable d = true ->
  _load_all_histories d = Some histories ->
  (0 <= bot_id < 500)%Z ->
  (forall c, histories !! Z.to_nat bot_id = Some c -> exists messages, c = JList messages) ->
  (forall messages, complete model messages temperature max_tokens = Api_text response) ->
  utf8 response = Some raw ->
  exists d' earlier,
    ChatManager_get_ai_response self complete http query bot_id model personality
      max_tokens temperature image_urls d =
      (Some (Ai.get_ai_response http response), d') /\
    (match histories !! Z.to_nat bot_id with
     | Some c => c = JList earlier
     | None => earlier = [system_prompt self personality]
     end) /\
    get_chat_history self bot_id personality d' =
      Some (JList (earlier ++ [user_message query image_urls;
                               assistant_message (JStr raw)])).
Proof.
  intros Hw Hload [Hpos H500] Hlist Hcomplete Hraw.
  destruct (ensured_entry self histories bot_id personality Hpos Hlist)
    as (earlier & Hearlier & Hentry & Hindex).
  destruct (load_cap d histories Hload) as [Hcap _].
  unfold ChatManager_get_ai_response.
  assert (get_chat_history self bot_id personality d = Some (JList earlier)) as ->.
  { unfold get_chat_history. rewrite Hload. cbv zeta. by rewrite Hindex, Hentry. }
  cbv zeta. rewrite Hcomplete.
  unfold store_exchange. rewrite Hload. cbv zeta. rewrite Hindex, Hentry, Hw, Hraw.
  eexists _, earlier. split; [done|]. split; [done|].
  by apply saved_entry.
Qed.

Lemma exchange_stored_before_postprocessing_witness :
  exists d',
    ChatManager_get_ai_response (ChatManager_init "") (answering (Ai.str "Gen:"))
      Ai.http_ok "draw" 0 "openai" "" (JInt 1000) (JInt 1) [] one_history =
      (Some (Ai.Raises Ai.ValueError), d') /\
    get_chat_history (ChatManager_init "") 0 "" d' =
      Some (JList [JDict [("role", JStr "system")];
                   JDict [("role", JStr "user"); ("content", JStr "draw")];
                   JDict [("role", JStr "assistant"); ("content", JStr "Gen:")]]).
Proof.
  destruct (exchange_stored_before_postprocessing (ChatManager_init "")
              (answering (Ai.str "Gen:")) Ai.http_ok "draw" 0 "openai" ""
              (JInt 1000) (JInt 1) [] one_history
              [JList [JDict [("role", JStr "system")]]] (Ai.str "Gen:") "Gen:")
    as (d' & earlier & Hrun & Hearlier & Hget).
  - reflexivity.
  - reflexivity.
  - lia.
  - intros c [= <-]. by eexists.
  - reflexivity.
  - reflexivity.
  - cbn in Hearlier. injection Hearlier as <-. exists d'. split; [exact Hrun|exact Hget].
Defined.

(** The call up to line 126: when the history can be loaded and saved and
    the completion gives a text, the call is the post-processing of that
    text. *)
Lemma exchange_run (self : ChatManager)
    (complete : string -> list json -> json -> json -> completion)
    (http : Ai.pystr -> Ai.outcome (list Byte.byte))
    (query : string) (bot_id : Z) (model personality : string)
    (max_tokens temperature : json) (image_urls : list string) (d : disk)
    (histories : list json) (response : Ai.pystr) (raw : string) :
  writable d = true ->
  _load_all_histories d = Some histories ->
  (0 <= bot_id)%Z ->
  (forall c, histories !! Z.to_nat bot_id = Some c -> exists messages, c = JList messages) ->
  (forall messages, complete model messages temperature max_tokens = Api_text response) ->
  utf8 response = Some raw ->
  exists d',
    ChatManager_get_ai_response self complete http query bot_id model personality
      max_tokens temperature image_urls d =
      (Some (Ai.get_ai_response http response), d').
Proof.
  intros Hw Hload Hpos Hlist Hcomplete Hraw.
  destruct (ensured_entry self histories bot_id personality Hpos Hlist)
    as (earlier & Hearlier & Hentry & Hindex).
  unfold ChatManager_get_ai_response.
  assert (get_chat_history self bot_id personality d = Some (JList earlier)) as ->.
  { unfold get_chat_history. rewrite Hload. cbv zeta. by rewrite Hindex, Hentry. }
  cbv zeta. rewrite Hcomplete.
  unfold store_exchange. rewrite Hload. cbv zeta. rewrite Hindex, Hentry, Hw, Hraw.
  by eexists.
Qed.

(** What the call yields past line 126 is the post-processing of the text
    the completion gave. *)
Lemma exchange_inv (self : ChatManager)
    (complete : string -> list json -> json -> json -> completion)
    (http : Ai.pystr -> Ai.outcome (list Byte.byte))
    (query : string) (bot_id : Z) (model personality : string)
    (max_tokens temperature : json) (image_urls : list string) (d : disk)
    (o : Ai.outcome Ai.reply) :
  (ChatManager_get_ai_response self complete http query bot_id model personality
     max_tokens temperature image_urls d).1 = Some o ->
  exists chat_history response,
    get_chat_history self bot_id personality d = Some (JList chat_history) /\
    complete model (chat_history ++ [user_message query image_urls])
      temperature max_tokens = Api_text response /\
    o = Ai.get_ai_response http response.
Proof.
  unfold ChatManager_get_ai_response.
  destruct (get_chat_history self bot_id personality d) as [[| | | | |chat_history|]|];
    try done.
  cbv zeta.
  destruct (complete model (chat_history ++ [user_message query image_urls])
              temperature max_tokens) as [| |response] eqn:Hc; try done.
  destruct (store_exchange self bot_id personality (user_message query image_urls)
              (Some response) d) as [[u|] d']; [|done].
  intros [= <-]. by eexists _, _.
Qed.

(** C10, amended: whenever [get_ai_response] returns a result, its content
    is not empty: it is made of the lines of the text the completion gave,
    taken before the first ["---"], that come before the first line starting
    with ["Gen:"] and do not start with ["see_pfp:"], joined by newlines,
    and is ["OK"] when that is empty.  It returns a result when the chat file
    can be read and written and holds for the bot a list or nothing yet, the
    bot index is not negative, the completion gives a text that the file can
    take, and no scanned line of the text starts with ["Gen:"].  Once the
    text is saved in the history, it raises only when a line starting with
    ["Gen:"] is reached. *)
Theorem get_ai_response_content (self : ChatManager)
    (complete : string -> list json -> json -> json -> completion)
    (http : Ai.pystr -> Ai.outcome (list Byte.byte))
    (query : string) (bot_id : Z) (model personality : string)
    (max_tokens temperature : json) (image_urls : list string) (d : disk) :
  let run :=
    ChatManager_get_ai_response self complete http query bot_id model personality
      max_tokens temperature image_urls d in
  (forall r, run.1 = Some (Ai.Returns r) ->
     exists chat_history response,
       get_chat_history self bot_id personality d = Some (JList chat_history) /\
       complete model (chat_history ++ [user_message query image_urls])
         temperature max_tokens = Api_text response /\
       Ai.content r <> [] /\
       Ai.content r = Ai.or_ok (Ai.join Ai.newline (Ai.kept_lines response))) /\
  (forall histories response raw,
     writable d = true ->
     _load_all_histories d = Some histories ->
     (0 <= bot_id)%Z ->
     (forall c, histories !! Z.to_nat bot_id = Some c -> exists messages, c = JList messages) ->
     (forall messages, complete model messages temperature max_tokens = Api_text response) ->
     utf8 response = Some raw ->
     forallb (fun l => negb (Ai.is_gen l)) (Ai.scanned_lines response) = true ->
     exists r, run.1 = Some (Ai.Returns r)) /\
  (forall e, run.1 = Some (Ai.Raises e) ->
     exists chat_history response,
       get_chat_history self bot_id personality d = Some (JList chat_history) /\
       complete model (chat_history ++ [user_message query image_urls])
         temperature max_tokens = Api_text response /\
       existsb Ai.is_gen (Ai.scanned_lines response) = true).
Proof.
  cbv zeta. split; [|split].
  - intros r Hrun.
    destruct (exchange_inv _ _ _ _ _ _ _ _ _ _ _ _ Hrun)
      as (chat_history & response & Hh & Hc & Ho).
    exists chat_history, response. split; [done|]. split; [done|].
    pose proof (postprocessing_content http response) as H.
    rewrite <- Ho in H. done.
  - intros histories response raw Hw Hload Hpos Hlist Hcomplete Hraw Hall.
    destruct (exchange_run self complete http query bot_id model personality
                max_tokens temperature image_urls d histories response raw
                Hw Hload Hpos Hlist Hcomplete Hraw) as [d' ->].
    rewrite (postprocessing_without_gen http response Hall). by eexists.
  - intros e Hrun.
    destruct (exchange_inv _ _ _ _ _ _ _ _ _ _ _ _ Hrun)
      as (chat_history & response & Hh & Hc & Ho).
    exists chat_history, response. split; [done|]. split; [done|].
    pose proof (postprocessing_content http response) as H.
    rewrite <- Ho in H. done.
Qed.

(** The completion answers with a profile-picture request alone: the call
    returns, and the content is ["OK"]. *)
Lemma get_ai_response_content_witness :
  exists r,
    (ChatManager_get_ai_response (ChatManager_init "") (answering (Ai.str "see_pfp: bob"))
       Ai.http_ok "who" 0 "openai" "" (JInt 1000) (JInt 1) [] one_history).1 =
      Some (Ai.Returns r) /\
    Ai.content r = Ai.str "OK".
Proof.
  destruct (get_ai_response_content (ChatManager_init "")
              (answering (Ai.str "see_pfp: bob")) Ai.http_ok "who" 0 "openai" ""
              (JInt 1000) (JInt 1) [] one_history) as (Hcontent & Hreturns & _).
  destruct (Hreturns [JList [JDict [("role", JStr "system")]]] (Ai.str "see_pfp: bob")
              "see_pfp: bob") as [r Hr].
  - reflexivity.
  - reflexivity.
  - lia.
  - intros c [= <-]. by eexists.
  - reflexivity.
  - reflexivity.
  - reflexivity.
  - exists r. split; [exact Hr|].
    destruct (Hcontent r Hr) as (chat_history & response & _ & Hc & _ & ->).
    injection Hc as <-. reflexivity.
Defined.


